(** * BritAIS: the exercise evaluation pipeline of [app.py]

    A shallow embedding of the scoring, fallback and aggregation routines of
    [src/app.py] (with the [Submission] table of [src/models.py]), and the
    properties of them that the specification states; then of the rest of
    the dashboard, the statistics page, the account routes and
    [src/seed_bd.py], with properties read off the code.

    Conventions of the embedding.
    - Python [str] values are byte strings holding their UTF-8 encoding, which
      is what [hashlib.sha1(text.encode("utf-8"))] consumes.
    - Python [float] scores are exact rationals ([Q]): the rounding error of
      IEEE-754 arithmetic and the values NaN and infinity are not modelled.
    - A [datetime] is a number of seconds on the proleptic time line and a
      [date] the number of its day; the bounds of Python's [date] type are not
      modelled.
    - A function whose body can raise returns an [outcome]; [try]/[except
      Exception] is [try_except].  The exceptions modelled are the instances
      of [Exception].
    - The OpenAI service, the JSON decoder, the regular-expression engine, the
      clock and the file system are inputs: records of oracles that give the
      value each call returned or the exception it raised. *)

From Stdlib Require Import ZArith QArith Qround Qabs Lqa List String Ascii Lia Bool.
From Stdlib Require Import Sorting.Permutation Sorting.Sorted.
From Stdlib Require DecimalString.
From stdpp Require Import gmap strings list.
Import ListNotations.

Local Open Scope string_scope.
Local Open Scope list_scope.

(** ** SHA-1 (FIPS 180-4), as [hashlib.sha1] computes it *)

Module Sha1.
Local Open Scope Z_scope.

Definition w32 (x : Z) : Z := x mod 2 ^ 32.

Definition rotl (n x : Z) : Z :=
  w32 (Z.lor (Z.shiftl x n) (Z.shiftr x (32 - n))).

Definition bytes_of_string (s : string) : list Z :=
  List.map (fun c => Z.of_N (N_of_ascii c)) (list_ascii_of_string s).

(** The [n] low bytes of [x], most significant first. *)
Fixpoint be_bytes (n : nat) (x : Z) : list Z :=
  match n with
  | O => []
  | S k => be_bytes k (Z.shiftr x 8) ++ [Z.land x 255]
  end.

(** Padding: the bit 1, zeros up to 56 modulo 64, the bit length on 8 bytes. *)
Definition pad (msg : list Z) : list Z :=
  let len := Z.of_nat (List.length msg) in
  let zeros := Z.to_nat ((55 - len) mod 64) in
  msg ++ [128] ++ repeat 0 zeros ++ be_bytes 8 (8 * len).

Fixpoint be_word (bs : list Z) (acc : Z) : Z :=
  match bs with
  | [] => acc
  | b :: r => be_word r (Z.lor (Z.shiftl acc 8) b)
  end.

Fixpoint words (n : nat) (bs : list Z) : list Z :=
  match n with
  | O => []
  | S k => be_word (firstn 4 bs) 0 :: words k (skipn 4 bs)
  end.

(** The message schedule, latest word first:
    [w(t) = rotl 1 (w(t-3) xor w(t-8) xor w(t-14) xor w(t-16))]. *)
Fixpoint schedule (n : nat) (rev_w : list Z) : list Z :=
  match n with
  | O => rev_w
  | S k =>
      let x := Z.lxor (Z.lxor (nth 2 rev_w 0) (nth 7 rev_w 0))
                      (Z.lxor (nth 13 rev_w 0) (nth 15 rev_w 0)) in
      schedule k (rotl 1 x :: rev_w)
  end.

Definition state : Type := Z * Z * Z * Z * Z.

Definition round (t : Z) (st : state) (w : Z) : state :=
  let '(a, b, c, d, e) := st in
  let '(f, k) :=
    if t <? 20 then
      (Z.lor (Z.land b c) (Z.land (Z.lxor b 4294967295) d), 1518500249)
    else if t <? 40 then (Z.lxor (Z.lxor b c) d, 1859775393)
    else if t <? 60 then
      (Z.lor (Z.lor (Z.land b c) (Z.land b d)) (Z.land c d), 2400959708)
    else (Z.lxor (Z.lxor b c) d, 3395469782) in
  (w32 (rotl 5 a + f + e + k + w), a, rotl 30 b, c, d).

Fixpoint rounds (t : Z) (ws : list Z) (st : state) : state :=
  match ws with
  | [] => st
  | w :: r => rounds (t + 1) r (round t st w)
  end.

Definition compress (h : state) (block : list Z) : state :=
  let ws := rev (schedule 64 (rev (words 16 block))) in
  let '(h0, h1, h2, h3, h4) := h in
  let '(a, b, c, d, e) := rounds 0 ws h in
  (w32 (h0 + a), w32 (h1 + b), w32 (h2 + c), w32 (h3 + d), w32 (h4 + e)).

Fixpoint blocks (n : nat) (bs : list Z) (h : state) : state :=
  match n with
  | O => h
  | S k => blocks k (skipn 64 bs) (compress h (firstn 64 bs))
  end.

Definition init : state :=
  (1732584193, 4023233417, 2562383102, 271733878, 3285377520).

Definition digest (msg : list Z) : list Z :=
  let p := pad msg in
  let '(a, b, c, d, e) := blocks (List.length p / 64) p init in
  be_bytes 4 a ++ be_bytes 4 b ++ be_bytes 4 c ++ be_bytes 4 d ++ be_bytes 4 e.

Definition hex_digit (x : Z) : ascii :=
  if x <? 10 then ascii_of_N (Z.to_N (48 + x))
  else ascii_of_N (Z.to_N (87 + x)).

Fixpoint hex (bs : list Z) : string :=
  match bs with
  | [] => EmptyString
  | b :: r =>
      String (hex_digit (Z.shiftr b 4))
        (String (hex_digit (Z.land b 15)) (hex r))
  end.

(** [hashlib.sha1(s.encode("utf-8")).hexdigest()] *)
Definition hexdigest (s : string) : string := hex (digest (bytes_of_string s)).

End Sha1.

(** ** The Python operations the code uses *)

Module Py.

(** An instance of [Exception]: the name of its class, [type(e).__name__],
    and its [repr(e)]. *)
Record exception : Type := Exc { exc_type_name : string; exc_repr : string }.

(** The result of running a body that can raise. *)
Inductive outcome (A : Type) : Type :=
| Return (a : A)
| Raise (e : exception).
Arguments Return {A} a.
Arguments Raise {A} e.

Definition bind {A B : Type} (m : outcome A) (k : A -> outcome B) : outcome B :=
  match m with
  | Return a => k a
  | Raise e => Raise e
  end.

(** [try: body  except Exception as e: handler(e)] *)
Definition try_except {A : Type} (body : outcome A)
    (handler : exception -> outcome A) : outcome A :=
  match body with
  | Return a => Return a
  | Raise e => handler e
  end.

(** [s[:n]] *)
Fixpoint prefix (n : nat) (s : string) : string :=
  match n, s with
  | S k, String c r => String c (prefix k r)
  | _, _ => EmptyString
  end.

(** [sep.join(parts)] *)
Fixpoint join (sep : string) (parts : list string) : string :=
  match parts with
  | [] => EmptyString
  | [p] => p
  | p :: r => p +:+ sep +:+ join sep r
  end.

(** [str(n)] for a natural number: its decimal digits. *)
Definition str_of_nat (n : nat) : string :=
  DecimalString.NilZero.string_of_uint (Nat.to_uint n).

Fixpoint starts_with (p s : string) : bool :=
  match p, s with
  | EmptyString, _ => true
  | String a p', String b s' => if Ascii.eqb a b then starts_with p' s' else false
  | String _ _, EmptyString => false
  end.

(** [needle in s] *)
Fixpoint contains (needle s : string) : bool :=
  if starts_with needle s then true
  else match s with
       | EmptyString => false
       | String _ r => contains needle r
       end.

Fixpoint drop (n : nat) (s : string) : string :=
  match n, s with
  | S k, String _ r => drop k r
  | _, _ => s
  end.

Definition string_rev (s : string) : string :=
  string_of_list_ascii (rev (list_ascii_of_string s)).

Definition chr (n : nat) : string := String (ascii_of_nat n) EmptyString.

Definition utf8 (bytes : list nat) : string :=
  string_of_list_ascii (List.map ascii_of_nat bytes).

(** The characters that [str.strip()] removes (those for which
    [str.isspace] holds), each in its UTF-8 encoding: U+0009 to U+000D,
    U+001C to U+0020, U+0085, U+00A0, U+1680, U+2000 to U+200A, U+2028,
    U+2029, U+202F, U+205F and U+3000. *)

Definition whitespace : list string :=
  List.map chr [9; 10; 11; 12; 13; 28; 29; 30; 31; 32]%nat
  ++ [utf8 [194; 133]; utf8 [194; 160]; utf8 [225; 154; 128]]%nat
  ++ List.map (fun k => utf8 [226; 128; k]%nat)
       [128; 129; 130; 131; 132; 133; 134; 135; 136; 137; 138; 168; 169; 175]%nat
  ++ [utf8 [226; 129; 159]; utf8 [227; 128; 128]]%nat.

(** The length of the white-space character that [s] starts with, if any. *)
Fixpoint leading_space (ws : list string) (s : string) : option nat :=
  match ws with
  | [] => None
  | w :: r => if starts_with w s then Some (String.length w) else leading_space r s
  end.

Fixpoint lstrip_fuel (fuel : nat) (ws : list string) (s : string) : string :=
  match fuel with
  | O => s
  | S k =>
      match leading_space ws s with
      | Some n => lstrip_fuel k ws (drop n s)
      | None => s
      end
  end.

Definition lstrip (s : string) : string :=
  lstrip_fuel (String.length s) whitespace s.

Definition rstrip (s : string) : string :=
  string_rev
    (lstrip_fuel (String.length s) (List.map string_rev whitespace) (string_rev s)).

(** [s.strip()] *)
Definition strip (s : string) : string := rstrip (lstrip s).

(** [round(x)]: the nearest integer, a tie going to the even one. *)
Definition round (x : Q) : Z :=
  let f := Qfloor x in
  match Qcompare (x - inject_Z f) (1 # 2) with
  | Lt => f
  | Gt => (f + 1)%Z
  | Eq => if Z.even f then f else (f + 1)%Z
  end.

(** [sum(xs)] *)
Definition sum (xs : list Q) : Q := fold_left Qplus xs 0%Q.

(** [x / y]: [ZeroDivisionError] when the divisor is zero. *)
Definition truediv (x y : Q) : outcome Q :=
  if Qeq_bool y 0 then
    Raise (Exc "ZeroDivisionError" "ZeroDivisionError('division by zero')")
  else Return (x / y)%Q.

(** [x < y] and [x == y] on numbers *)
Definition ltb (x y : Q) : bool := negb (Qle_bool y x).
Definition eqb (x y : Q) : bool := Qeq_bool x y.

(** [str(z)] for an integer *)
Definition str_of_Z (z : Z) : string :=
  DecimalString.NilZero.string_of_int (Z.to_int z).

(** [s.upper()] on the letters a to z; other characters are left as they
    are (Python also maps the cased letters outside ASCII). *)
Definition upper_char (c : ascii) : ascii :=
  let n := nat_of_ascii c in
  if ((97 <=? n) && (n <=? 122))%nat then ascii_of_nat (n - 32) else c.

Fixpoint upper (s : string) : string :=
  match s with
  | EmptyString => EmptyString
  | String c r => String (upper_char c) (upper r)
  end.

(** The truth value of a string or of [None], and [a or b]. *)
Definition truthy (s : option string) : bool :=
  match s with
  | Some (String _ _) => true
  | _ => false
  end.

Definition or_else (a b : option string) : option string :=
  if truthy a then a else b.

(** [d[k]]: [KeyError] when the key is absent. *)
Definition getitem {V : Type} (d : gmap string V) (k : string) : outcome V :=
  match d !! k with
  | Some v => Return v
  | None => Raise (Exc "KeyError" ("KeyError('" +:+ k +:+ "')"))
  end.

(** [d.get(k, default)] *)
Definition get {V : Type} (d : gmap string V) (k : string) (default : V) : V :=
  match d !! k with
  | Some v => v
  | None => default
  end.

End Py.

(** Sequencing of statements that can raise, in stdpp's [x ← m; k]. *)
#[export] Instance outcome_ret : MRet Py.outcome := @Py.Return.
#[export] Instance outcome_bind : MBind Py.outcome :=
  fun A B k m => Py.bind m k.

(** ** The data model *)

Module Model.
Import Py.

(** The value every evaluator returns: [{"score": ..., "feedback": [...]}]. *)
Record EvaluationResult : Type :=
  { score : Q; feedback : list string }.

(** A multiple-choice question of a listening task, with the four keys the
    bank and the request schema give it. *)
Record Question : Type :=
  { question : string; options : list string; answer : string; why : string }.

(** The dictionary that [fallback_listening_task] and
    [generate_listening_task] build. *)
Record Task : Type :=
  { task_id : string;
    level : string;
    title : string;
    instructions : string;
    passage : string;
    questions : list Question;
    audio_url : option string;
    audio_mimetype : option string;
    audio_path : option string;
    source : string }.

(** A speaking topic: [{"title", "prompt", "questions"}]. *)
Record Topic : Type :=
  { topic_title : string; topic_prompt : string; topic_questions : list string }.

(** The [content] column: the essay, or the payload that the speaking and
    listening routes serialise with [json.dumps]. *)
Inductive Content : Type :=
| Essay (text : string)
| SpeakingPayload (topic : Topic) (audio_path audio_url audio_mimetype notes : string)
    (transcript : option string)
| ListeningPayload (task : Task) (level : string)
    (user_answers : list (option string)) (score : Q).

(** A row of [tb_submissions] (models.py, class [Submission]); the nullable
    columns are options. *)
Record Submission : Type :=
  { user_id : Z;
    type : string;
    content : option Content;
    created_at : Z;
    ai_score : option Q;
    ai_feedback : option string }.

(** [created_at.date()] *)
Definition date (created_at : Z) : Z := (created_at / 86400)%Z.

(** The client object of [get_openai_client()]: what each call made on it
    returned or raised. *)
Record OpenAI : Type :=
  { responses_create : string -> outcome string;
    audio_transcriptions_create : string -> outcome string;
    audio_speech_create : string -> outcome string }.

(** Everything a request reads from outside the program. *)
Record Runtime : Type :=
  { (** [get_openai_client()]: [None] when OPENAI_API_KEY is not set *)
    get_openai_client : option OpenAI;
    (** [re.findall(r"\b\w+\b", text)] *)
    re_findall_words : string -> list string;
    (** [json.loads] of an assessment, then [float(data["score"])] and
        [[str(x) for x in data["feedback"]]] *)
    loads_assessment : string -> outcome (Q * list string);
    (** [json.loads] of a listening task, then its keys "title", "passage"
        and "questions" *)
    loads_listening_task : string -> outcome (string * string * list Question);
    (** [json.loads] of a speaking topic *)
    loads_topic : string -> outcome Topic;
    (** the index that [random.choice] draws *)
    random_index : nat;
    (** [datetime.utcnow()] and its [strftime("%Y%m%d_%H%M%S")] *)
    utcnow : Z;
    utcnow_stamp : string;
    (** [save_path.write_bytes(content)] *)
    write_bytes : string -> string -> outcome unit;
    (** [url_for("uploaded_file", filename=...)] *)
    url_for_uploaded_file : string -> outcome string }.

End Model.

(** ** Writing and speaking: the AI judge and its fallbacks *)

Module Judge.
Import Py Model.

Definition writing_prompt (text : string) : string :=
  strip ("
You are an English writing examiner and coach.

Assess the writing using CEFR-style criteria:
- Task achievement
- Coherence and cohesion
- Vocabulary range and accuracy
- Grammar range and accuracy
- Naturalness

Give:
- ONE overall score from 0 to 100
- Clear, specific, actionable feedback (bullet points)
- Include concrete corrections or rewrites where relevant

Return ONLY valid JSON matching the schema.

Writing:
"
    +:+ text
    +:+ "
").

(** [generate_ai_feedback_writing(text)] *)
Definition generate_ai_feedback_writing (rt : Runtime) (text : string)
    : outcome EvaluationResult :=
  match get_openai_client rt with
  | None =>
      let words := re_findall_words rt text in
      let score := (50 + (if (80 <=? List.length words)%nat then 10 else 0))%Z in
      Return
        {| score := inject_Z (Z.min 100 score);
           feedback :=
             [ "AI service is not configured (missing OPENAI_API_KEY).";
               "Fallback evaluation was used.";
               "Set OPENAI_API_KEY and try again for full AI feedback." ] |}
  | Some client =>
      try_except
        (resp ← responses_create client (writing_prompt text);
         data ← loads_assessment rt resp;
         mret {| score := fst data; feedback := snd data |})
        (fun e =>
           Return
             {| score := 55;
                feedback :=
                  [ "AI evaluation failed temporarily.";
                    "Please try again later.";
                    "Debug: " +:+ exc_type_name e ] |})
  end.

(** [transcribe_audio_file(filepath)]: the stripped text, or [None]. *)
Definition transcribe_audio_file (rt : Runtime) (filepath : string)
    : outcome (option string) :=
  match get_openai_client rt with
  | None => Return None
  | Some client =>
      try_except
        (t ← audio_transcriptions_create client filepath;
         mret (Some (strip t)))
        (fun _ => Return None)
  end.

Definition speaking_prompt (transcript : string) : string :=
  strip ("
You are an English speaking examiner and coach.

You are given a TRANSCRIPT of a learner's spoken answer.
Score 0–100 and give actionable feedback.

Evaluate:
- Task response & coherence
- Grammar accuracy & range
- Vocabulary range & appropriacy
- Fluency signals visible in text (repetition, unfinished sentences, filler words)
- Natural phrasing

Important:
- You cannot judge pronunciation from text. Do not claim you can.
- Rewrite 2–4 sentences to sound more natural.
- Give 5–15 bullet feedback points.

Return ONLY valid JSON.

Transcript:
"
    +:+ transcript
    +:+ "
").

(** [generate_ai_feedback_speaking(transcript)] *)
Definition generate_ai_feedback_speaking (rt : Runtime) (transcript : string)
    : outcome EvaluationResult :=
  match get_openai_client rt with
  | None =>
      Return
        {| score := 0;
           feedback :=
             [ "AI speaking feedback unavailable (missing OPENAI_API_KEY).";
               "Enable OpenAI billing/credits to get transcription + speaking feedback." ] |}
  | Some client =>
      try_except
        (resp ← responses_create client (speaking_prompt transcript);
         data ← loads_assessment rt resp;
         mret {| score := fst data; feedback := snd data |})
        (fun e =>
           if contains "insufficient_quota" (exc_repr e) then
             Return
               {| score := 0;
                  feedback :=
                    [ "AI speaking evaluation is unavailable because your OpenAI account has no remaining quota.";
                      "Fix: enable billing/credits, restart the app, then try again.";
                      "Debug: insufficient_quota" ] |}
           else
             Return
               {| score := 55;
                  feedback :=
                    [ "AI evaluation failed temporarily.";
                      "Please try again later.";
                      "Debug: " +:+ exc_type_name e ] |})
  end.

(** The four topics of [fallback_speaking_topic]. *)
Definition topics : list Topic :=
  [ {| topic_title := "Daily Routine";
       topic_prompt :=
         "Describe your daily routine and say what you would like to improve.";
       topic_questions :=
         [ "What do you usually do in the morning?";
           "What is the hardest part of your day?";
           "What would you change if you had more time?" ] |};
    {| topic_title := "A Place You Love";
       topic_prompt :=
         "Talk about a place you love and explain why it is special to you.";
       topic_questions :=
         [ "Where is it and what does it look like?";
           "What do you do there?";
           "Why does it matter to you?" ] |};
    {| topic_title := "Technology in Daily Life";
       topic_prompt :=
         "Do you think technology makes life better or worse? Explain your opinion.";
       topic_questions :=
         [ "What technology do you use most?";
           "What are the benefits?";
           "What are the downsides?" ] |};
    {| topic_title := "Learning English";
       topic_prompt :=
         "Talk about your experience learning English and what motivates you.";
       topic_questions :=
         [ "What is hardest for you: speaking, listening, writing, or reading?";
           "What helps you improve the most?";
           "What is your goal for the next 3 months?" ] |} ].

(** [random.choice(seq)]: [IndexError] on an empty sequence. *)
Definition random_choice {A : Type} (rt : Runtime) (seq : list A) : outcome A :=
  match seq !! (random_index rt mod List.length seq)%nat with
  | Some x => Return x
  | None => Raise (Exc "IndexError" "IndexError('Cannot choose from an empty sequence')")
  end.

(** [fallback_speaking_topic()] *)
Definition fallback_speaking_topic (rt : Runtime) : outcome Topic :=
  random_choice rt topics.

Definition speaking_topic_prompt (level : string) : string :=
  strip ("
You are an English speaking tutor.
Generate ONE speaking topic for CEFR level "
    +:+ level
    +:+ ".
Return:
- title (short)
- prompt (2-3 sentences)
- 3 to 5 guiding questions

Keep it practical and not too abstract.
Return ONLY valid JSON.
").

(** [generate_speaking_topic(level)] *)
Definition generate_speaking_topic (rt : Runtime) (level : string)
    : outcome Topic :=
  match get_openai_client rt with
  | None => fallback_speaking_topic rt
  | Some client =>
      try_except
        (resp ← responses_create client (speaking_topic_prompt level);
         loads_topic rt resp)
        (fun _ => fallback_speaking_topic rt)
  end.

End Judge.

(** ** Listening: the task bank, task generation and grading *)

Module Listening.
Import Py Model.

(** [_task_id_for(text)]: the first 12 hexadecimal digits of the SHA-1 of
    the text. *)
Definition _task_id_for (text : string) : string :=
  prefix 12 (Sha1.hexdigest text).

Record BankEntry : Type :=
  { bank_title : string; bank_passage : string; bank_questions : list Question }.

Definition bank_A2 : BankEntry :=
  {| bank_title := "A morning at the café";
     bank_passage :=
       "Sofia goes to a small café near her home. She orders a coffee and a sandwich. The café is busy, so she waits for ten minutes. When her food arrives, she sits by the window and watches people walking in the street.";
     bank_questions :=
       [ {| question := "Where does Sofia go?";
            options :=
             [ "To a café near her home";
               "To a park";
               "To a supermarket";
               "To a library" ];
            answer := "To a café near her home";
            why := "The passage says she goes to a small café near her home." |};
         {| question := "Why does she wait for ten minutes?";
            options :=
             [ "Because the café is busy";
               "Because she forgot her money";
               "Because the café is closed";
               "Because she meets a friend" ];
            answer := "Because the café is busy";
            why := "It explicitly says the café is busy." |};
         {| question := "Where does she sit?";
            options :=
             [ "By the window";
               "Outside";
               "Near the kitchen";
               "At the bar" ];
            answer := "By the window";
            why := "It says she sits by the window." |} ] |}.

Definition bank_B1 : BankEntry :=
  {| bank_title := "A new hobby";
     bank_passage :=
       "Last month, Daniel decided to learn photography. At first, he used his phone, but soon he bought a simple camera. Every Saturday morning, he walks around his city and takes pictures of buildings and markets. He uploads his best photos online and asks for feedback. Little by little, he is improving.";
     bank_questions :=
       [ {| question := "Why did Daniel buy a camera?";
            options :=
             [ "He wanted better photos than his phone";
               "His phone was lost";
               "He needed it for work";
               "A friend gave him money" ];
            answer := "He wanted better photos than his phone";
            why := "He started with a phone, then bought a camera to improve." |};
         {| question := "When does he practice?";
            options :=
             [ "Every Saturday morning";
               "Every evening";
               "On Sundays";
               "Only on holidays" ];
            answer := "Every Saturday morning";
            why := "The passage says every Saturday morning." |};
         {| question := "How does he improve?";
            options :=
             [ "He asks for feedback online";
               "He stops taking photos";
               "He only reads books";
               "He changes cities" ];
            answer := "He asks for feedback online";
            why := "He uploads and asks for feedback." |} ] |}.

Definition bank_B2 : BankEntry :=
  {| bank_title := "Remote work changes";
     bank_passage :=
       "Many companies introduced remote work to reduce costs and offer employees more flexibility. However, some managers noticed that new employees sometimes felt isolated and learned more slowly. To solve this, several teams created short daily check-ins and paired newcomers with mentors. These changes helped people feel connected without removing the benefits of working from home.";
     bank_questions :=
       [ {| question := "What problem did some new employees have?";
            options :=
             [ "They felt isolated";
               "They were paid less";
               "They had no internet";
               "They moved abroad" ];
            answer := "They felt isolated";
            why := "It says new employees sometimes felt isolated." |};
         {| question := "What solution is mentioned?";
            options :=
             [ "Daily check-ins and mentors";
               "Longer meetings every day";
               "No communication";
               "Returning to full-time office work" ];
            answer := "Daily check-ins and mentors";
            why := "Those are the two measures described." |};
         {| question := "What was the goal of the changes?";
            options :=
             [ "To feel connected while keeping flexibility";
               "To remove remote work";
               "To reduce salaries";
               "To hire fewer people" ];
            answer := "To feel connected while keeping flexibility";
            why := "The final sentence states that balance." |} ] |}.

Definition bank_C1 : BankEntry :=
  {| bank_title := "Attention and multitasking";
     bank_passage :=
       "Multitasking is often praised as a modern skill, yet research suggests that frequent task switching can reduce accuracy. When people jump between messages, documents, and meetings, their brains pay a ‘switching cost’—a short period of reorientation. Over time, this can create the illusion of productivity while quietly lowering the quality of decisions.";
     bank_questions :=
       [ {| question := "What does task switching often reduce?";
            options :=
             [ "Accuracy";
               "Sleep";
               "Team size";
               "Creativity in all cases" ];
            answer := "Accuracy";
            why := "The passage says it can reduce accuracy." |};
         {| question := "What is the 'switching cost'?";
            options :=
             [ "A reorientation period";
               "A financial penalty";
               "A tax for companies";
               "A training program" ];
            answer := "A reorientation period";
            why := "It is defined in the passage." |};
         {| question := "What illusion may multitasking create?";
            options :=
             [ "An illusion of productivity";
               "An illusion of boredom";
               "An illusion of perfect memory";
               "An illusion of free time" ];
            answer := "An illusion of productivity";
            why := "It says it creates the illusion of productivity." |} ] |}.

Definition bank_C2 : BankEntry :=
  {| bank_title := "Interpretation and nuance";
     bank_passage :=
       "In complex debates, participants may agree on facts yet disagree profoundly on meaning. This happens because interpretation is shaped by assumptions, values, and the context people consider relevant. As a result, language becomes less a tool for transferring information and more a medium for negotiating nuance.";
     bank_questions :=
       [ {| question := "Why can people disagree even when they share facts?";
            options :=
             [ "Because interpretation differs";
               "Because facts are always false";
               "Because context is irrelevant";
               "Because language is fixed" ];
            answer := "Because interpretation differs";
            why := "It says disagreement comes from interpretation shaped by assumptions/values/context." |};
         {| question := "What shapes interpretation, according to the passage?";
            options :=
             [ "Assumptions, values, and context";
               "Only grammar rules";
               "Only emotions";
               "Only statistics" ];
            answer := "Assumptions, values, and context";
            why := "Those three are explicitly listed." |};
         {| question := "How is language described in complex debates?";
            options :=
             [ "A medium for negotiating nuance";
               "A perfect calculator";
               "Only a dictionary";
               "A barrier to meaning" ];
            answer := "A medium for negotiating nuance";
            why := "That’s the final point." |} ] |}.

(** The dictionary [bank] of [fallback_listening_task], one task per level. *)
Definition bank : gmap string BankEntry :=
  <["A2" := bank_A2]> (<["B1" := bank_B1]> (<["B2" := bank_B2]>
    (<["C1" := bank_C1]> (<["C2" := bank_C2]> ∅)))).

Definition newline : string := "
".

(** [fallback_listening_task(level)] *)
Definition fallback_listening_task (level : string) : outcome Task :=
  default ← getitem bank "B1";
  let base := get bank level default in
  let txt := bank_title base +:+ newline +:+ bank_passage base in
  mret
    {| task_id := _task_id_for txt;
       level := level;
       title := bank_title base;
       instructions := "Listen to the audio. Then answer the questions.";
       passage := bank_passage base;
       questions := bank_questions base;
       audio_url := None;
       audio_mimetype := None;
       audio_path := None;
       source := "fallback" |}.

Definition dquote : string := chr 34.

Definition listening_prompt (level : string) : string :=
  strip ("
Create an English listening exercise for CEFR level "
    +:+ level
    +:+ ".

Requirements:
- Passage: 90 to 140 words
- Natural spoken style, clear story or explanation
- Exactly 3 multiple-choice questions
- Each question has 4 options
- Provide the correct answer (must match one of the options)
- Provide a short explanation " +:+ dquote +:+ "why" +:+ dquote +:+ "

Return ONLY valid JSON.
").

(** The inner [try] of [generate_listening_task]: speech synthesis, which
    fills the three audio keys one after the other and leaves the task as it
    is at the point where a call raises. *)
Definition attach_audio (rt : Runtime) (client : OpenAI) (task : Task)
    : outcome Task :=
  let filename :=
    "listening_" +:+ utcnow_stamp rt +:+ "_" +:+ task_id task +:+ ".mp3" in
  match (tts ← audio_speech_create client (passage task);
         write_bytes rt filename tts) with
  | Raise _ => Return task
  | Return _ =>
      let with_path (url mime : option string) :=
        {| task_id := task_id task;
           level := level task;
           title := title task;
           instructions := instructions task;
           passage := passage task;
           questions := questions task;
           audio_url := url;
           audio_mimetype := mime;
           audio_path := Some ("uploads/" +:+ filename);
           source := source task |} in
      match url_for_uploaded_file rt filename with
      | Raise _ => Return (with_path None None)
      | Return url => Return (with_path (Some url) (Some "audio/mpeg"))
      end
  end.

(** [generate_listening_task(level)] *)
Definition generate_listening_task (rt : Runtime) (level : string)
    : outcome Task :=
  match get_openai_client rt with
  | None => fallback_listening_task level
  | Some client =>
      try_except
        (r ← responses_create client (listening_prompt level);
         data ← loads_listening_task rt r;
         let title := strip (fst (fst data)) in
         let passage := strip (snd (fst data)) in
         let questions := snd data in
         let task :=
           {| task_id := _task_id_for (title +:+ newline +:+ passage);
              level := level;
              title := title;
              instructions := "Listen to the audio. Then answer the questions.";
              passage := passage;
              questions := questions;
              audio_url := None;
              audio_mimetype := None;
              audio_path := None;
              source := "openai" |} in
         attach_audio rt client task)
        (fun _ => fallback_listening_task level)
  end.

(** The feedback line of question number [i] (counted from 0). *)
Definition correction_line (i : nat) (q : Question) : string :=
  "Q" +:+ str_of_nat (i + 1) +:+ ": Correct answer is '" +:+ answer q +:+ "'. "
    +:+ strip (why q).

(** The [for] loop of [evaluate_listening_answers] from index [i] on, on the
    variables [correct] and [feedback_lines]. *)
Fixpoint grade (i : nat) (questions : list Question)
    (user_answers : list (option string)) (correct : nat)
    (feedback_lines : list string) : nat * list string :=
  match questions with
  | [] => (correct, feedback_lines)
  | q :: rest =>
      let expected := answer q in
      let got :=
        if (i <? List.length user_answers)%nat
        then default None (user_answers !! i) else None in
      if bool_decide (got = Some expected)
      then grade (S i) rest user_answers (S correct) feedback_lines
      else grade (S i) rest user_answers correct
             (feedback_lines ++ [correction_line i q])
  end.

(** [evaluate_listening_answers(task, user_answers)] *)
Definition evaluate_listening_answers (task : Task)
    (user_answers : list (option string)) : outcome (Q * list string) :=
  let questions := questions task in
  let total := List.length questions in
  let '(correct, feedback_lines) := grade 0 questions user_answers 0 [] in
  score ←
    (if (total =? 0)%nat then mret 0%Q
     else
       ratio ← truediv (inject_Z (Z.of_nat correct)) (inject_Z (Z.of_nat total));
       mret (ratio * 100)%Q);
  let feedback_lines :=
    if eqb score 100 then
      "Excellent — all answers correct. Try a higher level next time."
        :: feedback_lines
    else
      let feedback_lines :=
        "Review the audio once more and focus on keywords (names, numbers, cause-effect)."
          :: feedback_lines in
      if ltb score 50 then
        feedback_lines ++ ["Tip: Use a lower level for 2–3 days, then step up again."]
      else feedback_lines in
  mret (score, feedback_lines).

End Listening.

(** ** The dashboard: overall score, level and streak *)

Module Dashboard.
Import Py Model.

(** [ORDER BY created_at DESC], as a stable insertion sort: rows with equal
    time stamps keep the order of the table (SQL leaves their order open). *)
Fixpoint insert_desc (s : Submission) (rows : list Submission)
    : list Submission :=
  match rows with
  | [] => [s]
  | x :: r =>
      if (created_at x <=? created_at s)%Z then s :: x :: r
      else x :: insert_desc s r
  end.

Definition order_by_created_at_desc (rows : list Submission)
    : list Submission :=
  fold_right insert_desc [] rows.

(** [Submission.query.filter(Submission.user_id == user.id)] *)
Definition of_user (user : Z) (table : list Submission) : list Submission :=
  List.filter (fun s => (user_id s =? user)%Z) table.

(** [.filter(Submission.ai_score.isnot(None))] *)
Definition scored (rows : list Submission) : list Submission :=
  List.filter (fun s => match ai_score s with Some _ => true | None => false end)
    rows.

(** The query [recent]: the user's scored rows, latest first, [.limit(12)]. *)
Definition recent (table : list Submission) (user : Z) : list Submission :=
  firstn 12 (order_by_created_at_desc (scored (of_user user table))).

(** The loop that fills [scores]: [float(None)] raises and the row is
    skipped; a value is appended when it is positive. *)
Fixpoint collect_scores (recent : list Submission) (scores : list Q)
    : list Q :=
  match recent with
  | [] => scores
  | s :: rest =>
      match ai_score s with
      | None => collect_scores rest scores
      | Some v =>
          if ltb 0 v then collect_scores rest (scores ++ [v])
          else collect_scores rest scores
      end
  end.

(** [round(sum(scores) / len(scores)) if scores else None] *)
Definition average (scores : list Q) : outcome (option Z) :=
  match scores with
  | [] => mret None
  | _ =>
      mean ← truediv (sum scores) (inject_Z (Z.of_nat (List.length scores)));
      mret (Some (round mean))
  end.

Definition overall_score (table : list Submission) (user : Z)
    : outcome (option Z) :=
  average (collect_scores (recent table user) []).

(** [score_to_level(score)] *)
Definition score_to_level (score : Q) : string :=
  if ltb score 50 then "A2"
  else if ltb score 65 then "B1"
  else if ltb score 78 then "B2"
  else if ltb score 90 then "C1"
  else "C2".

(** The label shown when there is no overall score. *)
Definition no_data : string := "—".

(** [score_to_level(overall_score) if overall_score is not None else "—"] *)
Definition level (overall_score : option Z) : string :=
  match overall_score with
  | Some v => score_to_level (inject_Z v)
  | None => no_data
  end.

(** [{s.created_at.date() for s in all_subs}] *)
Definition practiced_days (all_subs : list Submission) : gset Z :=
  list_to_set (List.map (fun s => date (created_at s)) all_subs).

(** [today if today in practiced_days else today - timedelta(days=1)] *)
Definition anchor (today : Z) (practiced_days : gset Z) : Z :=
  if bool_decide (today ∈ practiced_days) then today else (today - 1)%Z.

(** The loop [while d in practiced_days: streak += 1; d -= timedelta(days=1)],
    run for at most [fuel] tests of its condition; [None] when they do not
    suffice. *)
Fixpoint streak_loop (fuel : nat) (practiced_days : gset Z) (d : Z)
    (streak : nat) : option nat :=
  match fuel with
  | O => None
  | S k =>
      if bool_decide (d ∈ practiced_days)
      then streak_loop k practiced_days (d - 1)%Z (S streak)
      else Some streak
  end.

(** The streak of the dashboard.  The loop leaves after at most one test per
    practised day and one more. *)
Definition streak (today : Z) (table : list Submission) (user : Z)
    : option nat :=
  let all_subs := order_by_created_at_desc (of_user user table) in
  let practiced_days := practiced_days all_subs in
  streak_loop (S (size practiced_days)) practiced_days
    (anchor today practiced_days) 0.

(** What [dashboard()] hands to its template, as far as the pipeline goes. *)
Record View : Type :=
  { view_streak : option nat;
    view_level : string;
    view_overall_score : option Z }.

(** The route [/dashboard]. *)
Definition dashboard (today : Z) (table : list Submission) (user : Z)
    : outcome View :=
  overall_score ← overall_score table user;
  let level := level overall_score in
  let streak := streak today table user in
  mret {| view_streak := streak;
          view_level := level;
          view_overall_score := overall_score |}.

End Dashboard.

(** ** The three routes that persist a submission *)

Module Routes.
Import Py Model Judge Listening.

(** The keys of the Flask session that the pipeline uses. *)
Record Session : Type :=
  { speaking_topic : option Topic; listening_task : option Task }.

(** The state a request reads and leaves: the session, the rows of
    [tb_submissions] in insertion order, and the flashed messages. *)
Record State : Type :=
  { session : Session; db : list Submission; flashed : list string }.

Inductive Response : Type :=
| Redirect (endpoint : string)
| Render (template : string).

(** An uploaded file, with [secure_filename(audio.filename)]. *)
Record Upload : Type :=
  { filename : string; secure_name : string; mimetype : string; data : string }.

Definition flash (message : string) (st : State) : State :=
  {| session := session st; db := db st; flashed := flashed st ++ [message] |}.

(** [db.session.add(submission); db.session.commit()] *)
Definition insert (submission : Submission) (st : State) : State :=
  {| session := session st; db := db st ++ [submission]; flashed := flashed st |}.

Definition set_session (s : Session) (st : State) : State :=
  {| session := s; db := db st; flashed := flashed st |}.

Definition is_post (method : string) : bool := String.eqb method "POST".
Definition is_get (method : string) : bool := String.eqb method "GET".

(** The route [/writing]. *)
Definition writing (rt : Runtime) (user : Z) (method : string)
    (form : gmap string string) (st : State) : outcome (Response * State) :=
  if is_post method then
    let essay := strip (get form "essay" EmptyString) in
    if String.eqb essay EmptyString then
      Return (Redirect "writing", flash "Please write something." st)
    else
      ai ← generate_ai_feedback_writing rt essay;
      let submission :=
        {| user_id := user;
           type := "WRITING";
           content := Some (Essay essay);
           created_at := utcnow rt;
           ai_score := Some (score ai);
           ai_feedback := Some (join newline (feedback ai)) |} in
      mret (Redirect "stats", insert submission st)
  else Return (Render "writing.html", st).

(** The route [/speaking]. *)
Definition speaking (rt : Runtime) (user : Z) (method : string)
    (args form : gmap string string) (audio : option Upload) (st : State)
    : outcome (Response * State) :=
  let s0 :=
    if is_get method && bool_decide (args !! "new" = Some "1")
    then {| speaking_topic := None; listening_task := listening_task (session st) |}
    else session st in
  topic_s ←
    match speaking_topic s0 with
    | Some topic => Return (topic, s0)
    | None =>
        topic ← generate_speaking_topic rt "B1";
        mret (topic,
              {| speaking_topic := Some topic;
                 listening_task := listening_task s0 |})
    end;
  let topic := fst topic_s in
  let st := set_session (snd topic_s) st in
  if is_post method then
    let notes := strip (get form "notes" EmptyString) in
    match audio with
    | Some audio =>
        if String.eqb (filename audio) EmptyString then
          Return (Redirect "speaking",
                  flash "Please record and upload an audio answer." st)
        else
          let filename :=
            "speaking_" +:+ str_of_Z user +:+ "_" +:+ utcnow_stamp rt +:+ "_"
              +:+ secure_name audio in
          _ ← write_bytes rt filename (data audio);
          url ← url_for_uploaded_file rt filename;
          transcript ← transcribe_audio_file rt filename;
          scored ←
            (if truthy transcript then
               ai ← generate_ai_feedback_speaking rt (default EmptyString transcript);
               mret (score ai, join newline (feedback ai))
             else
               mret (0%Q,
                     "Speaking feedback unavailable because transcription failed."
                       +:+ newline +:+
                     "If you see 'insufficient_quota' in the terminal, enable OpenAI billing/credits."));
          let submission :=
            {| user_id := user;
               type := "SPEAKING";
               content :=
                 Some (SpeakingPayload topic ("uploads/" +:+ filename) url
                         (mimetype audio) notes transcript);
               created_at := utcnow rt;
               ai_score := Some (fst scored);
               ai_feedback := Some (snd scored) |} in
          let st := insert submission st in
          mret (Redirect "stats",
                set_session
                  {| speaking_topic := None;
                     listening_task := listening_task (session st) |} st)
    | None =>
        Return (Redirect "speaking",
                flash "Please record and upload an audio answer." st)
    end
  else Return (Render "speaking.html", st).

(** The five labels a listening level can take. *)
Definition levels : list string := ["A2"; "B1"; "B2"; "C1"; "C2"].

(** [[request.form.get(f"q{i}") for i in range(n)]] *)
Definition form_answers (form : gmap string string) (n : nat)
    : list (option string) :=
  List.map (fun i => form !! ("q" +:+ str_of_nat i)) (seq 0 n).

(** The route [/listening]. *)
Definition listening (rt : Runtime) (user : Z) (method : string)
    (args form : gmap string string) (st : State)
    : outcome (Response * State) :=
  if is_get method then
    let level :=
      strip (upper (default EmptyString (or_else (args !! "level") (Some "B1")))) in
    let level := if bool_decide (level ∈ levels) then level else "B1" in
    let s0 :=
      if bool_decide (args !! "new" = Some "1")
      then {| speaking_topic := speaking_topic (session st); listening_task := None |}
      else session st in
    match listening_task s0 with
    | Some task =>
        if bool_decide (Model.level task = level) then
          Return (Render "listening.html", set_session s0 st)
        else
          task ← generate_listening_task rt level;
          mret (Render "listening.html",
                set_session
                  {| speaking_topic := speaking_topic s0;
                     listening_task := Some task |} st)
    | None =>
        task ← generate_listening_task rt level;
        mret (Render "listening.html",
              set_session
                {| speaking_topic := speaking_topic s0;
                   listening_task := Some task |} st)
    end
  else
    match listening_task (session st) with
    | None =>
        Return (Redirect "listening",
                flash "No listening task found. Generate a new one first." st)
    | Some task =>
        let level :=
          strip (upper (default EmptyString
                   (or_else (form !! "level")
                      (or_else (Some (Model.level task)) (Some "B1"))))) in
        let user_answers := form_answers form (List.length (questions task)) in
        graded ← evaluate_listening_answers task user_answers;
        let '(score, feedback_lines) := graded in
        let submission :=
          {| user_id := user;
             type := "LISTENING";
             content := Some (ListeningPayload task level user_answers score);
             created_at := utcnow rt;
             ai_score := Some score;
             ai_feedback := Some (join newline feedback_lines) |} in
        let st := insert submission st in
        mret (Redirect "stats",
              set_session
                {| speaking_topic := speaking_topic (session st);
                   listening_task := None |} st)
    end.

End Routes.

(** ** What the specification names *)

Module Spec.
Import Py Model Judge Listening Routes.
Definition later_first (a b : Submission) : Prop :=
  (created_at b <= created_at a)%Z.
Definition positive_scores (rows : list Submission) : list Q :=
  List.filter (fun v => ltb 0 v) (omap ai_score rows).
Definition mean (xs : list Q) : Q :=
  (sum xs / inject_Z (Z.of_nat (List.length xs)))%Q.

(** The questions with their positions, counted from [i]. *)
Definition enumerate_from (i : nat) (questions : list Question)
    : list (nat * Question) :=
  combine (seq i (List.length questions)) questions.

(** The answer submitted at position [i] is the designated answer of [q]. *)
Definition matched (user_answers : list (option string))
    (iq : nat * Question) : bool :=
  bool_decide (user_answers !! fst iq = Some (Some (answer (snd iq)))).

Definition matches (questions : list Question)
    (user_answers : list (option string)) : nat :=
  List.length (List.filter (matched user_answers) (enumerate_from 0 questions)).

Definition corrections (questions : list Question)
    (user_answers : list (option string)) : list string :=
  List.map (fun iq => correction_line (fst iq) (snd iq))
    (List.filter (fun iq => negb (matched user_answers iq))
       (enumerate_from 0 questions)).

(** The AI judge answered the prompt and its reply decoded to [data]. *)
Definition judged (rt : Runtime) (prompt : string) (data : Q * list string)
    : Prop :=
  exists (client : OpenAI) (resp : string),
    get_openai_client rt = Some client /\
    responses_create client prompt = Return resp /\
    loads_assessment rt resp = Return data.

(** The AI judge was configured and the call, or the decoding of its reply,
    raised [e]. *)
Definition judge_failed (rt : Runtime) (prompt : string) (e : exception)
    : Prop :=
  exists client : OpenAI,
    get_openai_client rt = Some client /\
    (responses_create client prompt = Raise e \/
     exists resp : string,
       responses_create client prompt = Return resp /\
       loads_assessment rt resp = Raise e).

(** The rows of the table after a request: a request that ends in an
    unhandled exception commits nothing. *)
Definition db_after (st : State) (result : outcome (Response * State))
    : list Submission :=
  match result with
  | Return (_, st') => db st'
  | Raise _ => db st
  end.

(** A row with a score and a feedback text. *)
Definition evaluated (s : Submission) : Prop :=
  ai_score s <> None /\ ai_feedback s <> None.

(** The task of the bank that a level selects: its own, or that of B1. *)
Definition fixed_entry (level : string) : BankEntry :=
  if String.eqb level "A2" then bank_A2
  else if String.eqb level "B2" then bank_B2
  else if String.eqb level "C1" then bank_C1
  else if String.eqb level "C2" then bank_C2
  else bank_B1.

(** The fingerprints of the five tasks of the bank. *)
Definition fixed_fingerprint (level : string) : string :=
  if String.eqb level "A2" then "38c9a27770e4"
  else if String.eqb level "B2" then "c0ee1b2c54c7"
  else if String.eqb level "C1" then "2d4fbb418a44"
  else if String.eqb level "C2" then "043163cd2431"
  else "9ed910673c84".

(** The task that the fallback returns for a level. *)
Definition fixed_task (level : string) : Task :=
  {| task_id := fixed_fingerprint level;
     level := level;
     title := bank_title (fixed_entry level);
     instructions := "Listen to the audio. Then answer the questions.";
     passage := bank_passage (fixed_entry level);
     questions := bank_questions (fixed_entry level);
     audio_url := None;
     audio_mimetype := None;
     audio_path := None;
     source := "fallback" |}.

(** A question that can be shown and graded: four options, one of them the
    answer. *)
Definition usable (q : Question) : Prop :=
  List.length (options q) = 4%nat /\ In (answer q) (options q).

(** The AI generator is not configured, or the request or the decoding of
    its reply raised. *)
Definition generation_unavailable (rt : Runtime) (level : string) : Prop :=
  match get_openai_client rt with
  | None => True
  | Some client =>
      match responses_create client (listening_prompt level) with
      | Raise _ => True
      | Return r =>
          match loads_listening_task rt r with
          | Raise _ => True
          | Return _ => False
          end
      end
  end.

(** A digit of a lower-case hexadecimal number. *)
Definition is_hex (c : ascii) : bool :=
  let n := nat_of_ascii c in
  ((48 <=? n) && (n <=? 57) || (97 <=? n) && (n <=? 102))%nat.

(** The value of a hexadecimal digit. *)
Definition hex_value (c : ascii) : Z :=
  let n := Z.of_nat (nat_of_ascii c) in
  if (n <? 58)%Z then (n - 48)%Z else (n - 87)%Z.

Definition congratulation : string :=
  "Excellent — all answers correct. Try a higher level next time.".
Definition review_remark : string :=
  "Review the audio once more and focus on keywords (names, numbers, cause-effect).".
Definition lower_level_tip : string :=
  "Tip: Use a lower level for 2–3 days, then step up again.".
End Spec.

(** ** Sample data *)

Module Examples.
Import Py Model Listening.

Definition row (user : Z) (created_at : Z) (ai_score : option Q) : Submission :=
  {| user_id := user; type := "WRITING"; content := None;
     created_at := created_at; ai_score := ai_score; ai_feedback := None |}.

(** Day 100 is today; user 7 practised on days 100, 99 (twice), 98 and 96. *)
Definition streak_table : list Submission :=
  [ row 7 (96 * 86400 + 10) (Some 70%Q); row 7 (98 * 86400) None;
    row 8 (97 * 86400 + 5) (Some 50%Q); row 7 (99 * 86400 + 86399) (Some 0%Q);
    row 7 (99 * 86400 + 1) None; row 7 (100 * 86400 + 3600) (Some 81%Q) ].

(** The twelve latest scored rows of user 7 are failed attempts (score 0);
    an older one has score 80.  User 8 has two scores that average to 80.5. *)
Definition failed_table : list Submission :=
  row 7 5 (Some 80%Q) :: row 8 6 (Some 80%Q) :: row 8 7 (Some 81%Q)
  :: List.map (fun t => row 7 t (Some 0%Q))
       [10; 11; 12; 13; 14; 15; 16; 17; 18; 19; 20; 21]%Z.

(** The task that the bank gives for level A2. *)
Definition task_A2 : Task :=
  {| task_id := "38c9a27770e4";
     level := "A2";
     title := bank_title bank_A2;
     instructions := "Listen to the audio. Then answer the questions.";
     passage := bank_passage bank_A2;
     questions := bank_questions bank_A2;
     audio_url := None;
     audio_mimetype := None;
     audio_path := None;
     source := "fallback" |}.

(** A stand-in for the regular expression: the words between spaces. *)
Fixpoint split_words (s : string) (word : string) : list string :=
  match s with
  | EmptyString =>
      match word with EmptyString => [] | _ => [word] end
  | String c r =>
      if Ascii.eqb c " "%char then
        match word with
        | EmptyString => split_words r EmptyString
        | _ => word :: split_words r EmptyString
        end
      else split_words r (word +:+ String c EmptyString)
  end.

Definition key_error : exception := Exc "KeyError" "KeyError('score')".

(** A process with or without a client, where nothing that is decoded has
    the expected keys and files are written as asked. *)
Definition runtime (client : option OpenAI) : Runtime :=
  {| get_openai_client := client;
     re_findall_words := fun text => split_words text EmptyString;
     loads_assessment := fun _ => Raise key_error;
     loads_listening_task := fun _ => Raise key_error;
     loads_topic := fun _ => Raise key_error;
     random_index := 2;
     utcnow := 100 * 86400 + 7200;
     utcnow_stamp := "19700411_020000";
     write_bytes := fun _ _ => Return tt;
     url_for_uploaded_file := fun name => Return ("/uploads/" +:+ name) |}.

(** No OPENAI_API_KEY. *)
Definition offline : Runtime := runtime None.

Definition connection_error : exception :=
  Exc "APIConnectionError" "APIConnectionError('Connection error.')".

(** A client whose every call fails. *)
Definition unreachable : Runtime :=
  runtime (Some {| responses_create := fun _ => Raise connection_error;
                   audio_transcriptions_create := fun _ => Raise connection_error;
                   audio_speech_create := fun _ => Raise connection_error |}).

Definition quota_error : exception :=
  Exc "RateLimitError"
      "RateLimitError('Error code: 429 - insufficient_quota')".

(** A client that transcribes and then has no quota left for the judge. *)
Definition out_of_quota : Runtime :=
  runtime (Some {| responses_create := fun _ => Raise quota_error;
                   audio_transcriptions_create := fun _ => Return " I get up at seven. ";
                   audio_speech_create := fun _ => Raise quota_error |}).

(** A session with nothing pending and an empty table. *)
Definition logged_in : Routes.State :=
  {| Routes.session :=
       {| Routes.speaking_topic := None; Routes.listening_task := None |};
     Routes.db := [];
     Routes.flashed := [] |}.

Definition recording : Routes.Upload :=
  {| Routes.filename := "answer.webm";
     Routes.secure_name := "answer.webm";
     Routes.mimetype := "audio/webm";
     Routes.data := "RIFF" |}.

(** One right answer, one question left open, one wrong answer. *)
Definition answers_A2 : list (option string) :=
  [Some "To a café near her home"; None; Some "Outside"].

(** The session after the A2 task was shown. *)
Definition listening_pending : Routes.State :=
  {| Routes.session :=
       {| Routes.speaking_topic := None;
          Routes.listening_task := Some task_A2 |};
     Routes.db := [];
     Routes.flashed := [] |}.

End Examples.

(** ** The dashboard: planner entries and the window of the streak *)

Module Planner.
Import Py.

(** A row of [tb_planner_entries] (models.py, class [PlannerEntry]).  The
    date is the number of its day, as [date.toordinal()] counts them, so that
    day 1 is a Monday; [minutes] is the integer that the planner route
    stores. *)
Record PlannerEntry : Type :=
  { user_id : Z; date : Z; activity : string; minutes : Z }.

(** [d.weekday()]: Monday is 0 and Sunday is 6. *)
Definition weekday (d : Z) : Z := ((d + 6) mod 7)%Z.

(** [PlannerEntry.query.filter(PlannerEntry.user_id == user.id)] *)
Definition of_user (user : Z) (entries : list PlannerEntry) : list PlannerEntry :=
  List.filter (fun e => (user_id e =? user)%Z) entries.

(** [ORDER BY date ASC], as a stable insertion sort. *)
Fixpoint insert_asc (e : PlannerEntry) (rows : list PlannerEntry)
    : list PlannerEntry :=
  match rows with
  | [] => [e]
  | x :: r =>
      if (date e <=? date x)%Z then e :: x :: r else x :: insert_asc e r
  end.

Definition order_by_date_asc (rows : list PlannerEntry) : list PlannerEntry :=
  fold_right insert_asc [] rows.

(** The query [next_entry]: the first entry of the user from today on (the
    text that the dashboard prints from it is not modelled). *)
Definition next_entry (today : Z) (entries : list PlannerEntry) (user : Z)
    : option PlannerEntry :=
  head (order_by_date_asc
          (List.filter (fun e => (today <=? date e)%Z) (of_user user entries))).

(** [today - timedelta(days=today.weekday())] and six days later. *)
Definition week_start (today : Z) : Z := (today - weekday today)%Z.
Definition week_end (today : Z) : Z := (week_start today + 6)%Z.

(** The query [week_entries]. *)
Definition week_entries (today : Z) (entries : list PlannerEntry) (user : Z)
    : list PlannerEntry :=
  List.filter (fun e => (date e <=? week_end today)%Z)
    (List.filter (fun e => (week_start today <=? date e)%Z)
       (of_user user entries)).

(** [sum(e.minutes for e in week_entries) if week_entries else 0] *)
Definition weekly_minutes (today : Z) (entries : list PlannerEntry) (user : Z)
    : Z :=
  match week_entries today entries user with
  | [] => 0%Z
  | es => fold_left Z.add (List.map minutes es) 0%Z
  end.

Definition weekly_goal : Z := 60.

(** The list [streak_window]: the seven days that end today, each with the
    flag [done]. *)
Definition streak_window (today : Z) (practiced_days : gset Z)
    : list (Z * bool) :=
  List.map
    (fun i : nat =>
       let day := (today - Z.of_nat i)%Z in
       (day, bool_decide (day ∈ practiced_days)))
    [6; 5; 4; 3; 2; 1; 0]%nat.

(** The window that the dashboard of a user shows. *)
Definition dashboard_window (today : Z) (table : list Model.Submission)
    (user : Z) : list (Z * bool) :=
  streak_window today
    (Dashboard.practiced_days
       (Dashboard.order_by_created_at_desc (Dashboard.of_user user table))).

End Planner.

(** ** The statistics page *)

Module Stats.
Import Py Model.

(** One entry of the list [prepared]. *)
Record Row : Type := { s : Submission; data : option Content }.

(** [{"WRITING": 0, "SPEAKING": 0, "LISTENING": 0}] *)
Definition no_counts : gmap string nat :=
  <["WRITING" := 0%nat]> (<["SPEAKING" := 0%nat]> (<["LISTENING" := 0%nat]> ∅)).

(** [counts[s.type] = counts.get(s.type, 0) + 1] *)
Definition count (counts : gmap string nat) (s : Submission) : gmap string nat :=
  <[type s := (get counts (type s) 0 + 1)%nat]> counts.

(** [json.loads(s.content)]: of a stored payload it is the payload; of
    another text it is what [loads] says; of [None] it raises. *)
Definition decode (loads : string -> outcome Content) (content : option Content)
    : outcome Content :=
  match content with
  | Some (Essay text) => loads text
  | Some payload => Return payload
  | None => Raise (Exc "TypeError" "TypeError('the JSON object must be str, bytes or bytearray, not NoneType')")
  end.

(** The row of a submission: [data] is decoded for the two types that store
    a payload, and stays [None] when the decoding raises. *)
Definition prepare (loads : string -> outcome Content) (sub : Submission) : Row :=
  let data :=
    if bool_decide (type sub ∈ ["SPEAKING"; "LISTENING"]) then
      match decode loads (content sub) with
      | Return payload => Some payload
      | Raise _ => None
      end
    else None in
  {| s := sub; data := data |}.

(** The route [/stats]: the prepared rows, latest first, and the counts. *)
Definition stats (loads : string -> outcome Content) (table : list Submission)
    (user : Z) : list Row * gmap string nat :=
  let subs := Dashboard.of_user user table in
  let counts := fold_left count subs no_counts in
  let subs_sorted := Dashboard.order_by_created_at_desc subs in
  (List.map (prepare loads) subs_sorted, counts).

End Stats.

(** ** Accounts: sign-up, login and password reset *)

Module Auth.
Import Py.

(** A row of [tb_users] (models.py, class [User]). *)
Record User : Type :=
  { id : Z; email : string; password_hash : string; name : option string }.

(** A row of [tb_password_reset_tokens]; [reset_email] is its column
    [email]. *)
Record PasswordResetToken : Type :=
  { reset_email : string; token : string; expires_at : Z; used : bool }.

(** The two tables, the key [user_email] of the session, the flashed
    messages and the mails handed to the mail server. *)
Record Store : Type :=
  { users : list User;
    reset_tokens : list PasswordResetToken;
    user_email : option string;
    flashed : list string;
    sent : list (string * string) }.

(** What the routes read from outside: the password hashing of werkzeug,
    [os.urandom(24).hex()], the clock in seconds, [str.lower], the address
    of the reset page, whether EMAIL_USER and EMAIL_PASS are set, and the
    SMTP session, which can raise. *)
Record Env : Type :=
  { generate_password_hash : string -> string;
    check_password_hash : string -> string -> bool;
    urandom_hex : string;
    utcnow : Z;
    lower : string -> string;
    url_for_reset : string -> string;
    email_configured : bool;
    smtp_send : string -> string -> outcome unit }.

Inductive Response : Type :=
| Redirect (endpoint : string)
| Render (template : string).

(** [User.query.filter_by(email=email).first()] *)
Definition find_user (email_ : string) (us : list User) : option User :=
  List.find (fun u => String.eqb (email u) email_) us.

(** [current_user()] *)
Definition current_user (st : Store) : option User :=
  match user_email st with
  | Some (String c e) => find_user (String c e) (users st)
  | _ => None
  end.

Definition flash (message : string) (st : Store) : Store :=
  {| users := users st; reset_tokens := reset_tokens st;
     user_email := user_email st; flashed := flashed st ++ [message];
     sent := sent st |}.

Definition set_user_email (e : option string) (st : Store) : Store :=
  {| users := users st; reset_tokens := reset_tokens st;
     user_email := e; flashed := flashed st; sent := sent st |}.

Definition set_users (us : list User) (st : Store) : Store :=
  {| users := us; reset_tokens := reset_tokens st;
     user_email := user_email st; flashed := flashed st; sent := sent st |}.

Definition set_reset_tokens (ts : list PasswordResetToken) (st : Store) : Store :=
  {| users := users st; reset_tokens := ts;
     user_email := user_email st; flashed := flashed st; sent := sent st |}.

Definition is_post (method : string) : bool := String.eqb method "POST".

(** The key that the table gives to a new row: one more than the largest. *)
Definition next_id (us : list User) : Z :=
  (fold_right Z.max 0 (List.map id us) + 1)%Z.

Definition integrity_error : exception :=
  Exc "IntegrityError" "IntegrityError('UNIQUE constraint failed')".

(** The route [/login]. *)
Definition login (env : Env) (method : string) (form : gmap string string)
    (st : Store) : Response * Store :=
  match current_user st with
  | Some _ => (Redirect "dashboard", st)
  | None =>
      if is_post method then
        let email_ := lower env (get form "email" EmptyString) in
        let password := get form "password" EmptyString in
        match find_user email_ (users st) with
        | Some user =>
            if check_password_hash env (password_hash user) password then
              (Redirect "dashboard", set_user_email (Some (email user)) st)
            else (Render "login.html", flash "Invalid credentials" st)
        | None => (Render "login.html", flash "Invalid credentials" st)
        end
      else (Render "login.html", st)
  end.

(** The route [/signup]. *)
Definition signup (env : Env) (method : string) (form : gmap string string)
    (st : Store) : Response * Store :=
  match current_user st with
  | Some _ => (Redirect "dashboard", st)
  | None =>
      if is_post method then
        let email_ := lower env (get form "email" EmptyString) in
        let password := get form "password" EmptyString in
        match find_user email_ (users st) with
        | Some _ => (Redirect "login", flash "Email already registered." st)
        | None =>
            let user :=
              {| id := next_id (users st);
                 email := email_;
                 password_hash := generate_password_hash env password;
                 name := None |} in
            (Redirect "dashboard",
             set_user_email (Some (email user))
               (set_users (users st ++ [user]) st))
        end
      else (Render "signup.html", st)
  end.

(** The route [/logout]. *)
Definition logout (st : Store) : Response * Store :=
  (Redirect "home", set_user_email None st).

Definition add_sent (mail : string * string) (st : Store) : Store :=
  {| users := users st; reset_tokens := reset_tokens st;
     user_email := user_email st; flashed := flashed st;
     sent := sent st ++ [mail] |}.

(** [send_reset_email(to_email, reset_url)]: without the two settings the
    link is only printed. *)
Definition send_reset_email (env : Env) (to_email reset_url : string)
    (st : Store) : outcome Store :=
  if email_configured env then
    _ ← smtp_send env to_email reset_url;
    mret (add_sent (to_email, reset_url) st)
  else Return st.

(** The route [/forgot-password]: its response, or the exception that ends
    the request, and the store it leaves.  The column [token] is unique: the
    commit of a token that the table already has raises and keeps nothing;
    a mail that cannot be sent raises after the token is committed. *)
Definition forgot_password (env : Env) (method : string)
    (form : gmap string string) (st : Store) : outcome Response * Store :=
  if is_post method then
    let email_ := strip (lower env (get form "email" EmptyString)) in
    let done (st : Store) :=
      (Return (Redirect "login"),
       flash "If that email exists, a reset link has been sent." st) in
    match find_user email_ (users st) with
    | Some _ =>
        let token_ := urandom_hex env in
        let expires := (utcnow env + 3600)%Z in
        let reset :=
          {| reset_email := email_; token := token_;
             expires_at := expires; used := false |} in
        if existsb (fun r => String.eqb (token r) token_) (reset_tokens st)
        then (Raise integrity_error, st)
        else
          let st := set_reset_tokens (reset_tokens st ++ [reset]) st in
          match send_reset_email env email_ (url_for_reset env token_) st with
          | Return st => done st
          | Raise e => (Raise e, st)
          end
    | None => done st
    end
  else (Return (Render "forgot_password.html"), st).

(** [PasswordResetToken.query.filter_by(token=token, used=False).first()] *)
Definition live (token_ : string) (r : PasswordResetToken) : bool :=
  String.eqb (token r) token_ && negb (used r).

(** The first row that [p] accepts, replaced by its image under [f]. *)
Fixpoint update_first {A : Type} (p : A -> bool) (f : A -> A) (l : list A)
    : list A :=
  match l with
  | [] => []
  | x :: r => if p x then f x :: r else x :: update_first p f r
  end.

(** The route [/reset-password/<token>]. *)
Definition reset_password (env : Env) (method : string) (token_ : string)
    (form : gmap string string) (st : Store) : Response * Store :=
  match List.find (live token_) (reset_tokens st) with
  | None => (Redirect "login", flash "Invalid or expired reset link." st)
  | Some reset =>
      if (expires_at reset <? utcnow env)%Z then
        (Redirect "login", flash "Invalid or expired reset link." st)
      else if is_post method then
        let new_password := strip (get form "password" EmptyString) in
        if String.eqb new_password EmptyString then
          (Redirect "reset_password", flash "Please enter a new password." st)
        else
          match find_user (reset_email reset) (users st) with
          | None => (Redirect "login", flash "Account not found." st)
          | Some _ =>
              let us :=
                update_first
                  (fun u => String.eqb (email u) (reset_email reset))
                  (fun u =>
                     {| id := id u; email := email u;
                        password_hash := generate_password_hash env new_password;
                        name := name u |})
                  (users st) in
              let ts :=
                update_first (live token_)
                  (fun r =>
                     {| reset_email := reset_email r; token := token r;
                        expires_at := expires_at r; used := true |})
                  (reset_tokens st) in
              (Redirect "login",
               flash "Password updated successfully. Please log in."
                 (set_reset_tokens ts (set_users us st)))
          end
      else (Render "reset_password.html", st)
  end.

End Auth.

(** ** The demo account of [seed_bd.py] *)

Module Seed.
Import Py Auth.

(** A row of [tb_profiles] (models.py, class [Profile]). *)
Record Profile : Type :=
  { user_id : Z; cefr_level : option string; streak : Z }.

(** [run_seed()] on the two tables.  The key of [tb_profiles] is the user:
    the commit raises, and nothing is kept, when the table already has a
    profile for the key of the new user. *)
Definition run_seed (hash : string -> string) (us : list User)
    (profiles : list Profile) : outcome (list User * list Profile) :=
  match find_user "user@demo.com" us with
  | Some _ => Return (us, profiles)
  | None =>
      let user :=
        {| id := next_id us;
           email := "user@demo.com";
           password_hash := hash "123456";
           name := Some "Demo User" |} in
      let profile :=
        {| user_id := id user; cefr_level := Some "B1"; streak := 0 |} in
      if existsb (fun p => (user_id p =? id user)%Z) profiles
      then Raise integrity_error
      else Return (us ++ [user], profiles ++ [profile])
  end.

End Seed.

(** ** More of what the properties name *)

Module Notions.
Import Py Model.

(** [n] is the length of the run of practised days that ends on [start]. *)
Definition run_of (days : gset Z) (start : Z) (n : nat) : Prop :=
  (forall i : nat, (i < n)%nat -> (start - Z.of_nat i)%Z ∈ days) /\
  (start - Z.of_nat n)%Z ∉ days.

(** The entry is of the user and of the week, Monday to Sunday, of today. *)
Definition same_week (today user : Z) (e : Planner.PlannerEntry) : bool :=
  (Planner.user_id e =? user)%Z
  && (Planner.week_start (Planner.date e) =? Planner.week_start today)%Z.

(** The number of submissions of a type. *)
Definition of_type (t : string) (subs : list Submission) : nat :=
  List.length (List.filter (fun s => String.eqb (type s) t) subs).

End Notions.

(** ** More sample data *)

Module Samples.
Import Py Model Listening Examples.

(** A generator that answers, with a speech synthesis that fails. *)
Definition speechless_client : OpenAI :=
  {| responses_create := fun _ => Return "{}";
     audio_transcriptions_create := fun _ => Raise connection_error;
     audio_speech_create := fun _ => Raise connection_error |}.

Definition speechless : Runtime :=
  {| get_openai_client := Some speechless_client;
     re_findall_words := fun text => split_words text EmptyString;
     loads_assessment := fun _ => Raise key_error;
     loads_listening_task :=
       fun _ => Return (" At the station ", "The train is late.
", []);
     loads_topic := fun _ => Raise key_error;
     random_index := 0;
     utcnow := 100 * 86400 + 7200;
     utcnow_stamp := "19700411_020000";
     write_bytes := fun _ _ => Return tt;
     url_for_uploaded_file := fun name => Return ("/uploads/" +:+ name) |}.

(** A hashing that keeps the password readable, a clock at 1000 seconds and
    a mail server that accepts everything. *)
Definition plain : Auth.Env :=
  {| Auth.generate_password_hash := fun p => "plain$" +:+ p;
     Auth.check_password_hash := fun h p => String.eqb h ("plain$" +:+ p);
     Auth.urandom_hex := "00ff";
     Auth.utcnow := 1000;
     Auth.lower := fun s => s;
     Auth.url_for_reset := fun t => "/reset-password/" +:+ t;
     Auth.email_configured := true;
     Auth.smtp_send := fun _ _ => Return tt |}.

(** One registered user, nobody logged in. *)
Definition nobody : Auth.Store :=
  {| Auth.users :=
       [ {| Auth.id := 1; Auth.email := "bo@example.org";
            Auth.password_hash := "plain$milk"; Auth.name := None |} ];
     Auth.reset_tokens := [];
     Auth.user_email := None;
     Auth.flashed := [];
     Auth.sent := [] |}.

(** Entries of user 7 on days 8, 12 and 15 and of user 8 on day 11; day 10
    is a Wednesday, in the week of the days 8 to 14. *)
Definition planned : list Planner.PlannerEntry :=
  [ {| Planner.user_id := 7; Planner.date := 15;
       Planner.activity := "Listening"; Planner.minutes := 20 |};
    {| Planner.user_id := 7; Planner.date := 12;
       Planner.activity := "Writing"; Planner.minutes := 30 |};
    {| Planner.user_id := 8; Planner.date := 11;
       Planner.activity := "Speaking"; Planner.minutes := 45 |};
    {| Planner.user_id := 7; Planner.date := 8;
       Planner.activity := "Speaking"; Planner.minutes := 15 |} ].

(** The same store after the user asked for a reset link at 1000 seconds. *)
Definition asked : Auth.Store :=
  {| Auth.users := Auth.users nobody;
     Auth.reset_tokens :=
       [ {| Auth.reset_email := "bo@example.org"; Auth.token := "00ff";
            Auth.expires_at := 4600; Auth.used := false |} ];
     Auth.user_email := None;
     Auth.flashed := ["If that email exists, a reset link has been sent."];
     Auth.sent := [("bo@example.org", "/reset-password/00ff")] |}.

End Samples.

(** * Properties *)

Section Numbers.
Import Py.

Lemma ltb_lt (x y : Q) : ltb x y = true <-> (x < y)%Q.
Proof.
  unfold ltb. rewrite negb_true_iff, <- not_true_iff_false, Qle_bool_iff.
  split; [apply Qnot_le_lt | apply Qlt_not_le].
Qed.

Lemma ltb_ge (x y : Q) : ltb x y = false <-> (y <= x)%Q.
Proof.
  unfold ltb. rewrite negb_false_iff. apply Qle_bool_iff.
Qed.

Lemma round_nearest (x : Q) : (Qabs (inject_Z (round x) - x) <= 1 # 2)%Q.
Proof.
  unfold round.
  pose proof (Qfloor_le x) as Hlo. pose proof (Qlt_floor x) as Hhi.
  set (f := Qfloor x) in *.
  rewrite inject_Z_plus in Hhi. change (inject_Z 1) with 1%Q in Hhi.
  apply Qabs_Qle_condition.
  destruct (Qcompare (x - inject_Z f) (1 # 2)) eqn:Hc.
  - apply Qeq_alt in Hc. destruct (Z.even f).
    + lra.
    + rewrite inject_Z_plus. change (inject_Z 1) with 1%Q. lra.
  - apply Qlt_alt in Hc. lra.
  - apply Qgt_alt in Hc. rewrite inject_Z_plus. change (inject_Z 1) with 1%Q. lra.
Qed.
End Numbers.

Section Aggregation.
Import Py Model Dashboard Spec.

Lemma insert_desc_perm s rows : Permutation (s :: rows) (insert_desc s rows).
Proof.
  induction rows as [| x r IH]; simpl; [reflexivity |].
  destruct (created_at x <=? created_at s)%Z; [reflexivity |].
  rewrite perm_swap. now constructor.
Qed.

Lemma order_by_perm rows : Permutation rows (order_by_created_at_desc rows).
Proof.
  induction rows as [| s r IH]; simpl; [constructor |].
  rewrite <- insert_desc_perm. now constructor.
Qed.

Lemma insert_desc_sorted s rows :
  StronglySorted later_first rows ->
  StronglySorted later_first (insert_desc s rows).
Proof.
  induction 1 as [| x r Hr IH Hx]; simpl.
  - repeat constructor.
  - destruct (created_at x <=? created_at s)%Z eqn:Hc.
    + apply Z.leb_le in Hc. constructor; [now constructor |].
      constructor; [exact Hc |].
      eapply Forall_impl; [exact Hx |]. unfold later_first. intros; lia.
    + apply Z.leb_gt in Hc. constructor; [exact IH |].
      rewrite <- insert_desc_perm. constructor; [| exact Hx].
      unfold later_first. lia.
Qed.

Lemma order_by_sorted rows :
  StronglySorted later_first (order_by_created_at_desc rows).
Proof.
  induction rows; simpl; [constructor | now apply insert_desc_sorted].
Qed.

Lemma collect_scores_app rows acc :
  collect_scores rows acc = acc ++ positive_scores rows.
Proof.
  revert acc. induction rows as [| s r IH]; intros acc; simpl.
  - unfold positive_scores. simpl. now rewrite app_nil_r.
  - unfold positive_scores in *. simpl. destruct (ai_score s) as [v |]; simpl.
    + destruct (ltb 0 v); rewrite IH; [now rewrite <- app_assoc | reflexivity].
    + apply IH.
Qed.

Lemma scored_rows user table s :
  In s (scored (of_user user table)) <->
  In s table /\ user_id s = user /\ ai_score s <> None.
Proof.
  unfold scored, of_user. rewrite !filter_In, Z.eqb_eq.
  destruct (ai_score s); intuition congruence.
Qed.

Lemma truediv_length (x : Q) (n : nat) :
  n <> 0%nat ->
  truediv x (inject_Z (Z.of_nat n)) = Return (x / inject_Z (Z.of_nat n))%Q.
Proof.
  intros Hn. unfold truediv.
  destruct (Qeq_bool (inject_Z (Z.of_nat n)) 0) eqn:H; [| reflexivity].
  apply Qeq_bool_eq in H. unfold Qeq in H. simpl in H. lia.
Qed.

End Aggregation.

Section Streak.
Import Py Model Dashboard Examples.

Lemma streak_loop_terminates (days : gset Z) :
  forall (fuel : nat) (d : Z) (acc : nat) (U : gset Z),
    (forall x, x ∈ days -> (x <= d)%Z -> x ∈ U) ->
    (size U < fuel)%nat ->
    exists n : nat,
      streak_loop fuel days d acc = Some (acc + n)%nat /\
      (forall i : nat, (i < n)%nat -> (d - Z.of_nat i)%Z ∈ days) /\
      (d - Z.of_nat n)%Z ∉ days.
Proof.
  induction fuel as [| k IH]; intros d acc U HU Hsize; [lia |].
  simpl. case_bool_decide as Hd.
  - destruct (IH (d - 1)%Z (S acc) (U ∖ {[d]})) as (n & Hn & Hall & Hstop).
    + intros x Hx Hle. apply elem_of_difference. split; [apply HU; [done | lia] |].
      rewrite elem_of_singleton. lia.
    + assert (Hin : d ∈ U) by (apply HU; [done | lia]).
      assert (size U <> 0)%nat as Hpos.
      { intros H0. apply size_empty_inv in H0. set_solver. }
      rewrite size_difference, size_singleton; [lia |].
      now apply singleton_subseteq_l.
    + exists (S n). split; [rewrite Hn; f_equal; lia |]. split.
      * intros [| i] Hi; [now rewrite Z.sub_0_r |].
        replace (d - Z.of_nat (S i))%Z with (d - 1 - Z.of_nat i)%Z by lia.
        apply Hall. lia.
      * replace (d - Z.of_nat (S n))%Z with (d - 1 - Z.of_nat n)%Z by lia.
        exact Hstop.
  - exists 0%nat. split; [f_equal; lia |]. split; [intros; lia |].
    now rewrite Z.sub_0_r.
Qed.

Lemma practiced_days_spec rows d :
  d ∈ practiced_days rows <-> exists s, In s rows /\ date (created_at s) = d.
Proof.
  unfold practiced_days. rewrite elem_of_list_to_set, list_elem_of_In, in_map_iff.
  split; intros (s & H1 & H2); exists s; tauto.
Qed.

Lemma practiced_days_perm rows rows' :
  Permutation rows rows' -> practiced_days rows = practiced_days rows'.
Proof.
  intros H. apply set_eq. intros d. rewrite !practiced_days_spec.
  split; intros (s & H1 & H2); exists s; split; try done.
  - now rewrite <- H.
  - now rewrite H.
Qed.

(** Claim C2.  The streak is the number [n] of consecutive days, counted
    backward from the anchor (today when today has a submission, else
    yesterday), that all have a submission, the day after them having none.
    The days {today, today-1, today-2, today-4} give 3, no submission gives
    0, and yesterday alone gives 1. *)
Theorem streak_spec (today : Z) (table : list Submission) (user : Z) :
  let days := practiced_days (of_user user table) in
  let start := if bool_decide (today ∈ days) then today else (today - 1)%Z in
  (forall d, d ∈ days <->
     exists s, In s table /\ user_id s = user /\ date (created_at s) = d) /\
  (exists n : nat,
     streak today table user = Some n /\
     (forall i : nat, (i < n)%nat -> (start - Z.of_nat i)%Z ∈ days) /\
     (start - Z.of_nat n)%Z ∉ days) /\
  (days = {[today; (today - 1)%Z; (today - 2)%Z; (today - 4)%Z]} ->
     streak today table user = Some 3%nat) /\
  (days = ∅ -> streak today table user = Some 0%nat) /\
  (days = {[(today - 1)%Z]} -> streak today table user = Some 1%nat).
Proof.
  intros days start.
  assert (Hdays : forall d, d ∈ days <->
     exists s, In s table /\ user_id s = user /\ date (created_at s) = d).
  { intros d. unfold days. rewrite practiced_days_spec. unfold of_user.
    split.
    - intros (s & H1 & H2). apply filter_In in H1 as [H1 H3].
      apply Z.eqb_eq in H3. eauto.
    - intros (s & H1 & H2 & H3). exists s. split; [| done].
      apply filter_In. split; [done | now apply Z.eqb_eq]. }
  assert (Hrun : exists n : nat,
     streak today table user = Some n /\
     (forall i : nat, (i < n)%nat -> (start - Z.of_nat i)%Z ∈ days) /\
     (start - Z.of_nat n)%Z ∉ days).
  { unfold streak.
    rewrite <- (practiced_days_perm _ _ (order_by_perm (of_user user table))).
    fold days. unfold anchor. fold start.
    destruct (streak_loop_terminates days (S (size days)) start 0 days)
      as (n & Hn & H); [done | lia |]. exists n. split; [exact Hn | exact H]. }
  split; [exact Hdays |]. split; [exact Hrun |].
  destruct Hrun as (n & Hn & Hall & Hstop). rewrite Hn.
  split; [| split]; intros Heq.
  - assert (start = today) as Hs.
    { unfold start. rewrite bool_decide_eq_true_2; [done |]. rewrite Heq.
      rewrite !elem_of_union, !elem_of_singleton. lia. }
    rewrite Hs, Heq in Hall, Hstop. f_equal.
    rewrite !elem_of_union, !elem_of_singleton in Hstop.
    destruct n as [| [| [| [| n]]]]; [exfalso; lia .. | done |].
    exfalso. specialize (Hall 3%nat ltac:(lia)).
    rewrite !elem_of_union, !elem_of_singleton in Hall. lia.
  - f_equal. destruct n as [| n]; [done |]. specialize (Hall 0%nat ltac:(lia)).
    rewrite Heq in Hall. now apply not_elem_of_empty in Hall.
  - assert (start = (today - 1)%Z) as Hs.
    { unfold start. rewrite bool_decide_eq_false_2; [done |]. rewrite Heq.
      rewrite elem_of_singleton. lia. }
    rewrite Hs, Heq in Hall, Hstop. f_equal.
    rewrite elem_of_singleton in Hstop.
    destruct n as [| [| n]]; [exfalso; lia | done |].
    exfalso. specialize (Hall 1%nat ltac:(lia)).
    rewrite elem_of_singleton in Hall. lia.
Qed.

Lemma streak_spec_witness :
  practiced_days (of_user 7 streak_table)
    = {[100%Z; (100 - 1)%Z; (100 - 2)%Z; (100 - 4)%Z]} /\
  streak 100 streak_table 7 = Some 3%nat.
Proof.
  assert (H : practiced_days (of_user 7 streak_table)
              = {[100%Z; (100 - 1)%Z; (100 - 2)%Z; (100 - 4)%Z]})
    by (vm_compute; reflexivity).
  split; [exact H |].
  exact (proj1 (proj2 (proj2 (streak_spec 100 streak_table 7))) H).
Defined.

Example dashboard_by_evaluation :
  dashboard 100 streak_table 7
  = Return {| view_streak := Some 3%nat;
              view_level := "B2";
              view_overall_score := Some 76%Z |} /\
  dashboard 98 streak_table 8
  = Return {| view_streak := Some 1%nat;
              view_level := "B1";
              view_overall_score := Some 50%Z |} /\
  dashboard 100 failed_table 7
  = Return {| view_streak := Some 0%nat;
              view_level := no_data;
              view_overall_score := None |} /\
  dashboard 0 failed_table 8
  = Return {| view_streak := Some 1%nat;
              view_level := "C1";
              view_overall_score := Some 80%Z |} /\
  dashboard 100 [] 7
  = Return {| view_streak := Some 0%nat;
              view_level := no_data;
              view_overall_score := None |}.
Proof. vm_compute. repeat split. Qed.
End Streak.

Section Levels.
Import Py Model Dashboard.

(** Claim C3.  [score_to_level] is a total function into the five labels
    with half-open thresholds: below 50 is A2, from 50 below 65 is B1, from
    65 below 78 is B2, from 78 below 90 is C1, and 90 or more is C2; the
    eight boundary values fall on the documented side. *)
Theorem score_to_level_thresholds (s : Q) :
  ((s < 50)%Q -> score_to_level s = "A2") /\
  ((50 <= s)%Q -> (s < 65)%Q -> score_to_level s = "B1") /\
  ((65 <= s)%Q -> (s < 78)%Q -> score_to_level s = "B2") /\
  ((78 <= s)%Q -> (s < 90)%Q -> score_to_level s = "C1") /\
  ((90 <= s)%Q -> score_to_level s = "C2") /\
  In (score_to_level s) ["A2"; "B1"; "B2"; "C1"; "C2"] /\
  score_to_level (4999 # 100) = "A2" /\ score_to_level 50 = "B1" /\
  score_to_level (6499 # 100) = "B1" /\ score_to_level 65 = "B2" /\
  score_to_level (7799 # 100) = "B2" /\ score_to_level 78 = "C1" /\
  score_to_level (8999 # 100) = "C1" /\ score_to_level 90 = "C2".
Proof.
  unfold score_to_level.
  destruct (ltb s 50) eqn:H50; [apply ltb_lt in H50 | apply ltb_ge in H50];
  (destruct (ltb s 65) eqn:H65; [apply ltb_lt in H65 | apply ltb_ge in H65]);
  (destruct (ltb s 78) eqn:H78; [apply ltb_lt in H78 | apply ltb_ge in H78]);
  (destruct (ltb s 90) eqn:H90; [apply ltb_lt in H90 | apply ltb_ge in H90]);
  repeat split; intros; try reflexivity; try (exfalso; lra);
  simpl; tauto.
Qed.

Lemma score_to_level_thresholds_witness :
  (65 <= 70)%Q /\ (70 < 78)%Q /\ score_to_level 70 = "B2".
Proof.
  assert (H1 : (65 <= 70)%Q) by (vm_compute; discriminate).
  assert (H2 : (70 < 78)%Q) by reflexivity.
  split; [exact H1 |]. split; [exact H2 |].
  exact (proj1 (proj2 (proj2 (score_to_level_thresholds 70))) H1 H2).
Defined.
End Levels.


Section Grading.
Import Py Model Listening Spec Examples.

Lemma got_matched (user_answers : list (option string)) (i : nat) (q : Question) :
  bool_decide
    ((if (i <? List.length user_answers)%nat
      then default None (user_answers !! i) else None) = Some (answer q))
  = matched user_answers (i, q).
Proof.
  unfold matched. simpl. apply bool_decide_ext.
  destruct (i <? List.length user_answers)%nat eqn:Hi.
  - destruct (user_answers !! i) as [g |] eqn:Hg; simpl.
    + split; congruence.
    + split; congruence.
  - apply Nat.ltb_ge in Hi. rewrite (lookup_ge_None_2 user_answers i) by exact Hi.
    split; congruence.
Qed.

Lemma grade_spec (user_answers : list (option string)) :
  forall (qs : list Question) (i correct : nat) (lines : list string),
    grade i qs user_answers correct lines
    = ((correct
        + List.length (List.filter (matched user_answers)
                         (enumerate_from i qs)))%nat,
       lines ++
       List.map (fun iq => correction_line (fst iq) (snd iq))
         (List.filter (fun iq => negb (matched user_answers iq))
            (enumerate_from i qs))).
Proof.
  induction qs as [| q rest IH]; intros i correct lines.
  - simpl. now rewrite Nat.add_0_r, app_nil_r.
  - cbn [grade]. rewrite got_matched. unfold enumerate_from in *. simpl.
    destruct (matched user_answers (i, q)); rewrite IH; simpl.
    + f_equal. lia.
    + now rewrite <- app_assoc.
Qed.

Lemma matches_le (questions : list Question) (user_answers : list (option string)) :
  (matches questions user_answers <= List.length questions)%nat.
Proof.
  unfold matches. etransitivity; [apply filter_length_le |].
  unfold enumerate_from. rewrite length_combine, length_seq. lia.
Qed.

Lemma grade_matches (task : Task) (user_answers : list (option string)) :
  grade 0 (questions task) user_answers 0 []
  = (matches (questions task) user_answers,
     corrections (questions task) user_answers).
Proof. now rewrite grade_spec. Qed.

Lemma evaluate_matches (task : Task) (user_answers : list (option string)) :
  let n := List.length (questions task) in
  let m := matches (questions task) user_answers in
  let corrected := corrections (questions task) user_answers in
  let score :=
    if (n =? 0)%nat then 0%Q
    else (inject_Z (Z.of_nat m) / inject_Z (Z.of_nat n) * 100)%Q in
  evaluate_listening_answers task user_answers
  = Return
      (score,
       if eqb score 100 then congratulation :: corrected
       else if ltb score 50 then (review_remark :: corrected) ++ [lower_level_tip]
       else review_remark :: corrected).
Proof.
  intros n m corrected score.
  unfold evaluate_listening_answers. rewrite grade_matches. fold n m corrected.
  unfold score. destruct n as [| k]; [reflexivity |].
  cbn [Nat.eqb]. now rewrite truediv_length by discriminate.
Qed.

Lemma enumerate_from_lookup (qs : list Question) :
  forall (k i : nat) (q : Question),
    In (i, q) (enumerate_from k qs) <-> (k <= i)%nat /\ qs !! (i - k)%nat = Some q.
Proof.
  unfold enumerate_from. induction qs as [| x r IH]; intros k i q; simpl.
  - split; [tauto | intros [_ H]; discriminate].
  - rewrite IH. split.
    + intros [H | [H1 H2]].
      * injection H as -> ->. rewrite Nat.sub_diag. simpl. split; [lia | reflexivity].
      * split; [lia |]. replace (i - k)%nat with (S (i - S k)) by lia. exact H2.
    + intros [H1 H2]. destruct (i - k)%nat as [| j] eqn:Hj.
      * left. simpl in H2. injection H2 as ->. f_equal. lia.
      * right. split; [lia |]. simpl in H2. replace (i - S k)%nat with j by lia.
        exact H2.
Qed.

Lemma corrections_spec (qs : list Question) (user_answers : list (option string))
    (l : string) :
  In l (corrections qs user_answers) <->
  exists (i : nat) (q : Question),
    qs !! i = Some q /\ user_answers !! i <> Some (Some (answer q)) /\
    l = correction_line i q.
Proof.
  unfold corrections. rewrite in_map_iff. split.
  - intros ([i q] & Hl & Hin). apply filter_In in Hin as [Hin Hm].
    apply enumerate_from_lookup in Hin as [_ Hin]. rewrite Nat.sub_0_r in Hin.
    exists i, q. split; [exact Hin |]. split; [| now rewrite <- Hl].
    unfold matched in Hm. simpl in Hm. apply negb_true_iff in Hm.
    now apply bool_decide_eq_false in Hm.
  - intros (i & q & Hq & Hne & ->). exists (i, q). split; [reflexivity |].
    apply filter_In. split.
    + apply enumerate_from_lookup. rewrite Nat.sub_0_r. split; [lia | exact Hq].
    + unfold matched. simpl. apply negb_true_iff. now apply bool_decide_eq_false.
Qed.

Lemma corrections_length (qs : list Question) (user_answers : list (option string)) :
  (matches qs user_answers + List.length (corrections qs user_answers))%nat
  = List.length qs.
Proof.
  unfold matches, corrections. rewrite length_map.
  assert (H : forall (A : Type) (f : A -> bool) (l : list A),
             (List.length (List.filter f l)
              + List.length (List.filter (fun x => negb (f x)) l))%nat
             = List.length l).
  { intros A f l. induction l as [| x r IH]; simpl; [reflexivity |].
    destruct (f x); simpl; lia. }
  rewrite H. unfold enumerate_from. rewrite length_combine, length_seq. lia.
Qed.

Lemma three_questions (task : Task) (user_answers : list (option string))
    (x y z w : string) :
  List.map answer (questions task) = [x; y; z] ->
  user_answers = [Some x; None; Some w] ->
  w <> z ->
  exists q2 q3 : Question,
    questions task !! 1%nat = Some q2 /\ questions task !! 2%nat = Some q3 /\
    evaluate_listening_answers task user_answers
    = Return
        ((inject_Z 1 / inject_Z 3 * 100)%Q,
         [ review_remark;
           "Q2: Correct answer is '" +:+ y +:+ "'. " +:+ strip (why q2);
           "Q3: Correct answer is '" +:+ z +:+ "'. " +:+ strip (why q3);
           lower_level_tip ]).
Proof.
  intros Hqs -> Hw.
  destruct (questions task) as [| q1 [| q2 [| q3 [| q4 rest]]]] eqn:Hq;
    try discriminate Hqs.
  simpl in Hqs. injection Hqs as <- <- <-.
  exists q2, q3. split; [reflexivity |]. split; [reflexivity |].
  unfold evaluate_listening_answers. rewrite Hq. cbn [grade List.length Nat.ltb Nat.leb].
  cbn [lookup list_lookup default from_option].
  unfold id.
  rewrite bool_decide_eq_true_2 by reflexivity.
  rewrite bool_decide_eq_false_2 by discriminate.
  rewrite bool_decide_eq_false_2 by congruence.
  reflexivity.
Qed.



Example listening_by_evaluation :
  matches (questions task_A2) answers_A2 = 1%nat /\
  evaluate_listening_answers task_A2 answers_A2
  = Return
      ((inject_Z 1 / inject_Z 3 * 100)%Q,
       [ "Review the audio once more and focus on keywords (names, numbers, cause-effect).";
         "Q2: Correct answer is 'Because the café is busy'. It explicitly says the café is busy.";
         "Q3: Correct answer is 'By the window'. It says she sits by the window.";
         "Tip: Use a lower level for 2–3 days, then step up again." ]) /\
  evaluate_listening_answers task_A2
    [ Some "To a café near her home"; Some "Because the café is busy";
      Some "By the window"; Some "one answer too many" ]
  = Return
      ((inject_Z 3 / inject_Z 3 * 100)%Q,
       [ "Excellent — all answers correct. Try a higher level next time." ]) /\
  evaluate_listening_answers
    {| task_id := EmptyString; level := "B1"; title := EmptyString;
       instructions := EmptyString; passage := EmptyString; questions := [];
       audio_url := None; audio_mimetype := None; audio_path := None;
       source := "openai" |} [Some "anything"]
  = Return
      (0%Q,
       [ "Review the audio once more and focus on keywords (names, numbers, cause-effect).";
         "Tip: Use a lower level for 2–3 days, then step up again." ]).
Proof. repeat split; vm_compute; reflexivity. Qed.

(** Claim C5, amended.  The feedback has, for each question that is wrong or
    unanswered, the line "Q<n>: Correct answer is '<answer>'. <why>" (the
    explanation stripped of surrounding white space), and no other
    correction line.  They are preceded by the congratulation exactly when
    the score is 100 and by the remark on listening again otherwise, and
    followed by the tip exactly when the score is below 50.  With answers
    [x; y; z] and the submission [x; none; w], [w] other than [z], the
    feedback is the remark, the lines of questions 2 and 3, and the tip. *)
Theorem listening_feedback_spec (task : Task)
    (user_answers : list (option string)) :
  let corrected := corrections (questions task) user_answers in
  (forall (i : nat) (q : Question),
     questions task !! i = Some q ->
     user_answers !! i <> Some (Some (answer q)) ->
     In ("Q" +:+ str_of_nat (i + 1) +:+ ": Correct answer is '" +:+ answer q
           +:+ "'. " +:+ strip (why q)) corrected) /\
  (List.length corrected
   = List.length (questions task) - matches (questions task) user_answers)%nat /\
  (exists (score : Q) (lines : list string),
     evaluate_listening_answers task user_answers = Return (score, lines) /\
     ((score == 100)%Q -> lines = congratulation :: corrected) /\
     (~ (score == 100)%Q -> (50 <= score)%Q ->
      lines = review_remark :: corrected) /\
     ((score < 50)%Q -> lines = review_remark :: corrected ++ [lower_level_tip])) /\
  (forall x y z w : string,
     List.map answer (questions task) = [x; y; z] ->
     user_answers = [Some x; None; Some w] ->
     w <> z ->
     exists q2 q3 : Question,
       questions task !! 1%nat = Some q2 /\ questions task !! 2%nat = Some q3 /\
       evaluate_listening_answers task user_answers
       = Return
           ((inject_Z 1 / inject_Z 3 * 100)%Q,
            [ review_remark;
              "Q2: Correct answer is '" +:+ y +:+ "'. " +:+ strip (why q2);
              "Q3: Correct answer is '" +:+ z +:+ "'. " +:+ strip (why q3);
              lower_level_tip ])).
Proof.
  intros corrected. split; [| split; [| split]].
  - intros i q Hq Hne. apply corrections_spec. exists i, q. easy.
  - unfold corrected.
    pose proof (corrections_length (questions task) user_answers). lia.
  - rewrite evaluate_matches. fold corrected.
    set (score := if (_ =? 0)%nat then _ else _).
    eexists _, _. split; [reflexivity |].
    destruct (eqb score 100) eqn:H100.
    + apply Qeq_bool_eq in H100.
      split; [reflexivity |]. split; [tauto |]. intros H. exfalso. lra.
    + assert (~ (score == 100)%Q) as Hne.
      { intros H. apply Qeq_eq_bool in H. unfold eqb in H100. congruence. }
      destruct (ltb score 50) eqn:H50.
      * apply ltb_lt in H50. split; [tauto |].
        split; [intros; exfalso; lra | reflexivity].
      * apply ltb_ge in H50. split; [tauto |].
        split; [reflexivity | intros; exfalso; lra].
  - intros x y z w. apply three_questions.
Qed.

Lemma listening_feedback_spec_witness :
  questions task_A2 !! 1%nat
  = Some {| question := "Why does she wait for ten minutes?";
            options :=
              [ "Because the café is busy"; "Because she forgot her money";
                "Because the café is closed"; "Because she meets a friend" ];
            answer := "Because the café is busy";
            why := "It explicitly says the café is busy." |} /\
  answers_A2 !! 1%nat <> Some (Some "Because the café is busy") /\
  In "Q2: Correct answer is 'Because the café is busy'. It explicitly says the café is busy."
     (corrections (questions task_A2) answers_A2).
Proof.
  assert (H1 : questions task_A2 !! 1%nat
               = Some {| question := "Why does she wait for ten minutes?";
                         options :=
                           [ "Because the café is busy";
                             "Because she forgot her money";
                             "Because the café is closed";
                             "Because she meets a friend" ];
                         answer := "Because the café is busy";
                         why := "It explicitly says the café is busy." |})
    by reflexivity.
  assert (H2 : answers_A2 !! 1%nat <> Some (Some "Because the café is busy"))
    by (simpl; discriminate).
  split; [exact H1 |]. split; [exact H2 |].
  exact (proj1 (listening_feedback_spec task_A2 answers_A2) 1%nat _ H1 H2).
Defined.

(** Claim C5 as stated fails: the line of a wrong answer starts with "Q2:",
    and the line "Question 2: ..." of the claim is not in the feedback. *)
Lemma listening_feedback_question_prefix :
  evaluate_listening_answers task_A2 answers_A2
  = Return
      ((100 # 3)%Q,
       [ "Review the audio once more and focus on keywords (names, numbers, cause-effect).";
         "Q2: Correct answer is 'Because the café is busy'. It explicitly says the café is busy.";
         "Q3: Correct answer is 'By the window'. It says she sits by the window.";
         "Tip: Use a lower level for 2–3 days, then step up again." ]) /\
  ~ (forall (score : Q) (lines : list string),
       evaluate_listening_answers task_A2 answers_A2 = Return (score, lines) ->
       In "Question 2: Correct answer is 'Because the café is busy'. It explicitly says the café is busy."
          lines).
Proof.
  assert (Hrun : evaluate_listening_answers task_A2 answers_A2
                 = Return
                     ((100 # 3)%Q,
                      [ "Review the audio once more and focus on keywords (names, numbers, cause-effect).";
                        "Q2: Correct answer is 'Because the café is busy'. It explicitly says the café is busy.";
                        "Q3: Correct answer is 'By the window'. It says she sits by the window.";
                        "Tip: Use a lower level for 2–3 days, then step up again." ]))
    by (vm_compute; reflexivity).
  split; [exact Hrun |]. intros H. specialize (H _ _ Hrun). simpl in H.
  repeat (destruct H as [H | H]; [discriminate H |]). exact H.
Qed.
End Grading.

Section Evaluators.
Import Py Model Judge Listening Spec Examples.

Lemma judge_cases (rt : Runtime) (prompt : string) :
  get_openai_client rt = None \/
  (exists data, judged rt prompt data) \/
  (exists e, judge_failed rt prompt e).
Proof.
  unfold judged, judge_failed.
  destruct (get_openai_client rt) as [client |] eqn:Hc; [right | now left].
  destruct (responses_create client prompt) as [resp | e] eqn:Hr.
  - destruct (loads_assessment rt resp) as [data | e] eqn:Hd.
    + left. eauto 10.
    + right. exists e, client. eauto 10.
  - right. exists e, client. eauto.
Qed.

Lemma writing_judged (rt : Runtime) (text : string) (data : Q * list string) :
  judged rt (writing_prompt text) data ->
  generate_ai_feedback_writing rt text
  = Return {| score := fst data; feedback := snd data |}.
Proof.
  intros (client & resp & Hc & Hr & Hd). unfold generate_ai_feedback_writing.
  rewrite Hc. simpl. rewrite Hr. simpl. now rewrite Hd.
Qed.

Lemma writing_failed (rt : Runtime) (text : string) (e : exception) :
  judge_failed rt (writing_prompt text) e ->
  generate_ai_feedback_writing rt text
  = Return {| score := 55;
              feedback := [ "AI evaluation failed temporarily.";
                            "Please try again later.";
                            "Debug: " +:+ exc_type_name e ] |}.
Proof.
  intros (client & Hc & [Hr | (resp & Hr & Hd)]);
    unfold generate_ai_feedback_writing; rewrite Hc; simpl; rewrite Hr; simpl;
    [| rewrite Hd]; reflexivity.
Qed.

Lemma writing_offline (rt : Runtime) (text : string) :
  get_openai_client rt = None ->
  generate_ai_feedback_writing rt text
  = Return
      {| score :=
           if (80 <=? List.length (re_findall_words rt text))%nat then 60 else 50;
         feedback :=
           [ "AI service is not configured (missing OPENAI_API_KEY).";
             "Fallback evaluation was used.";
             "Set OPENAI_API_KEY and try again for full AI feedback." ] |}.
Proof.
  intros Hc. unfold generate_ai_feedback_writing. rewrite Hc.
  destruct (80 <=? _)%nat; reflexivity.
Qed.

(** Claim C6.  [generate_ai_feedback_writing] always returns a result.  When
    the judge is configured and the call, or the decoding of its reply,
    raises, the result is the score 55 with three lines, the last of which
    names the class of the exception.  When no judge is configured the
    result is the heuristic: 50, plus 10 from 80 words on, with the three
    lines of the fallback. *)
Theorem writing_never_raises (rt : Runtime) (text : string) :
  (exists r, generate_ai_feedback_writing rt text = Return r) /\
  (forall e : exception,
     judge_failed rt (writing_prompt text) e ->
     generate_ai_feedback_writing rt text
     = Return {| score := 55;
                 feedback := [ "AI evaluation failed temporarily.";
                               "Please try again later.";
                               "Debug: " +:+ exc_type_name e ] |}) /\
  (get_openai_client rt = None ->
     generate_ai_feedback_writing rt text
     = Return
         {| score :=
              if (80 <=? List.length (re_findall_words rt text))%nat
              then 60 else 50;
            feedback :=
              [ "AI service is not configured (missing OPENAI_API_KEY).";
                "Fallback evaluation was used.";
                "Set OPENAI_API_KEY and try again for full AI feedback." ] |}).
Proof.
  split; [| split; [apply writing_failed | apply writing_offline]].
  destruct (judge_cases rt (writing_prompt text)) as [H | [[d H] | [e H]]].
  - rewrite writing_offline by exact H. eauto.
  - rewrite (writing_judged _ _ _ H). eauto.
  - rewrite (writing_failed _ _ _ H). eauto.
Qed.

Lemma writing_never_raises_witness :
  judge_failed unreachable (writing_prompt "I like tea.") connection_error /\
  generate_ai_feedback_writing unreachable "I like tea."
  = Return {| score := 55;
              feedback := [ "AI evaluation failed temporarily.";
                            "Please try again later.";
                            "Debug: APIConnectionError" ] |}.
Proof.
  assert (H : judge_failed unreachable (writing_prompt "I like tea.")
                connection_error).
  { eexists. split; [reflexivity |]. left. reflexivity. }
  split; [exact H |].
  exact (proj1 (proj2 (writing_never_raises unreachable "I like tea.")) _ H).
Defined.

Lemma speaking_judged (rt : Runtime) (transcript : string)
    (data : Q * list string) :
  judged rt (speaking_prompt transcript) data ->
  generate_ai_feedback_speaking rt transcript
  = Return {| score := fst data; feedback := snd data |}.
Proof.
  intros (client & resp & Hc & Hr & Hd). unfold generate_ai_feedback_speaking.
  rewrite Hc. simpl. rewrite Hr. simpl. now rewrite Hd.
Qed.

Lemma speaking_failed (rt : Runtime) (transcript : string) (e : exception) :
  judge_failed rt (speaking_prompt transcript) e ->
  exists r,
    generate_ai_feedback_speaking rt transcript = Return r /\
    (score r = 0%Q \/ score r = 55%Q) /\ List.length (feedback r) = 3%nat.
Proof.
  intros (client & Hc & H). unfold generate_ai_feedback_speaking. rewrite Hc.
  assert (Hbody :
    (responses_create client (speaking_prompt transcript) ≫= λ resp,
       loads_assessment rt resp ≫= λ data,
         mret {| score := fst data; feedback := snd data |}) = Raise e).
  { destruct H as [Hr | (resp & Hr & Hd)]; rewrite Hr; simpl;
      [| rewrite Hd]; reflexivity. }
  rewrite Hbody. simpl.
  destruct (contains "insufficient_quota" (exc_repr e)); eexists;
    (split; [reflexivity |]); simpl; auto.
Qed.

Lemma speaking_offline (rt : Runtime) (transcript : string) :
  get_openai_client rt = None ->
  exists r,
    generate_ai_feedback_speaking rt transcript = Return r /\
    score r = 0%Q /\ List.length (feedback r) = 2%nat.
Proof.
  intros Hc. unfold generate_ai_feedback_speaking. rewrite Hc.
  eexists. split; [reflexivity |]. simpl. auto.
Qed.

Lemma percentage_bounds (m n : nat) :
  (m <= n)%nat -> n <> 0%nat ->
  (0 <= inject_Z (Z.of_nat m) / inject_Z (Z.of_nat n) * 100 <= 100)%Q.
Proof.
  intros Hm Hn.
  assert (Hpos : (0 < inject_Z (Z.of_nat n))%Q).
  { rewrite <- (Zlt_Qlt 0). lia. }
  assert (H0 : (0 <= inject_Z (Z.of_nat m))%Q).
  { rewrite <- (Zle_Qle 0). lia. }
  assert (H1 : (inject_Z (Z.of_nat m) <= inject_Z (Z.of_nat n))%Q).
  { rewrite <- Zle_Qle. lia. }
  assert (Hlo : (0 <= inject_Z (Z.of_nat m) / inject_Z (Z.of_nat n))%Q).
  { apply Qle_shift_div_l; [exact Hpos |]. now rewrite Qmult_0_l. }
  assert (Hhi : (inject_Z (Z.of_nat m) / inject_Z (Z.of_nat n) <= 1)%Q).
  { apply Qle_shift_div_r; [exact Hpos |]. now rewrite Qmult_1_l. }
  split; lra.
Qed.

Lemma listening_bounds (task : Task) (user_answers : list (option string)) :
  exists (score : Q) (lines : list string),
    evaluate_listening_answers task user_answers = Return (score, lines) /\
    (0 <= score <= 100)%Q /\
    (1 <= List.length lines <= List.length (questions task) + 2)%nat.
Proof.
  rewrite evaluate_matches.
  pose proof (matches_le (questions task) user_answers) as Hm.
  pose proof (corrections_length (questions task) user_answers) as Hc.
  set (score := if (_ =? 0)%nat then _ else _).
  eexists _, _. split; [reflexivity |]. split.
  - unfold score. destruct (List.length (questions task)) as [| k] eqn:Hn.
    + split; [apply Qle_refl | discriminate].
    + cbn [Nat.eqb]. apply percentage_bounds; [lia | discriminate].
  - destruct (eqb score 100); [| destruct (ltb score 50)];
      cbn [List.length]; rewrite ?length_app; cbn [List.length]; lia.
Qed.

(** Claim C8, amended.  Every result of the three strategies is returned, not
    raised.  A writing or speaking result is either the reply of the judge
    as decoded, or has a score in [0,100] with 3 lines (writing) or 2 to 3
    lines (speaking).  A listening result has a score in [0,100] and from 1
    to [n + 2] lines for a task with [n] questions. *)
Theorem evaluation_result_bounds (rt : Runtime) (text transcript : string)
    (task : Task) (user_answers : list (option string)) :
  (exists r,
     generate_ai_feedback_writing rt text = Return r /\
     ((exists data,
         judged rt (writing_prompt text) data /\
         score r = fst data /\ feedback r = snd data) \/
      ((0 <= score r <= 100)%Q /\ List.length (feedback r) = 3%nat))) /\
  (exists r,
     generate_ai_feedback_speaking rt transcript = Return r /\
     ((exists data,
         judged rt (speaking_prompt transcript) data /\
         score r = fst data /\ feedback r = snd data) \/
      ((0 <= score r <= 100)%Q /\
       (2 <= List.length (feedback r) <= 3)%nat))) /\
  (exists (score : Q) (lines : list string),
     evaluate_listening_answers task user_answers = Return (score, lines) /\
     (0 <= score <= 100)%Q /\
     (1 <= List.length lines <= List.length (questions task) + 2)%nat).
Proof.
  split; [| split; [| apply listening_bounds]].
  - destruct (judge_cases rt (writing_prompt text)) as [H | [[d H] | [e H]]].
    + rewrite writing_offline by exact H. eexists. split; [reflexivity |].
      right. split; [| reflexivity]. cbn [score].
      destruct (80 <=? List.length (re_findall_words rt text))%nat;
        split; discriminate.
    + rewrite (writing_judged _ _ _ H). eexists. split; [reflexivity |].
      left. exists d. auto.
    + rewrite (writing_failed _ _ _ H). eexists. split; [reflexivity |].
      right. simpl. split; [split; discriminate | reflexivity].
  - destruct (judge_cases rt (speaking_prompt transcript))
      as [H | [[d H] | [e H]]].
    + destruct (speaking_offline rt transcript H) as (r & Hr & Hs & Hl).
      exists r. split; [exact Hr |]. right. rewrite Hs, Hl.
      split; [split; discriminate | lia].
    + rewrite (speaking_judged _ _ _ H). eexists. split; [reflexivity |].
      left. exists d. auto.
    + destruct (speaking_failed rt transcript e H) as (r & Hr & Hs & Hl).
      exists r. split; [exact Hr |]. right. rewrite Hl.
      split; [| lia]. destruct Hs as [-> | ->]; split; discriminate.
Qed.

(** Claim C8 as stated fails: without a judge the writing result has three
    feedback lines, fewer than five. *)
Lemma evaluation_feedback_below_five :
  generate_ai_feedback_writing offline "I like tea."
  = Return
      {| score := 50;
         feedback :=
           [ "AI service is not configured (missing OPENAI_API_KEY).";
             "Fallback evaluation was used.";
             "Set OPENAI_API_KEY and try again for full AI feedback." ] |} /\
  ~ (forall r,
       generate_ai_feedback_writing offline "I like tea." = Return r ->
       (0 <= score r <= 100)%Q /\ (5 <= List.length (feedback r) <= 20)%nat).
Proof.
  split; [reflexivity |]. intros H.
  destruct (H _ eq_refl) as [_ [Hlen _]]. simpl in Hlen. lia.
Qed.
End Evaluators.

Section Persistence.
Import Py Model Judge Listening Routes Spec Examples.

Ltac run :=
  repeat (unfold mbind, mret, outcome_bind, outcome_ret, bind, try_except;
          cbn [db_after fst snd]).

Ltac settle :=
  first
    [ exists []; split; [cbn; now rewrite app_nil_r | constructor]
    | eexists [_]; split;
      [ reflexivity
      | constructor;
        [repeat split; solve [discriminate | reflexivity] | constructor] ] ].

Lemma writing_inserts (rt : Runtime) (user : Z) (method : string)
    (form : gmap string string) (st : State) :
  exists new,
    db_after st (writing rt user method form st) = db st ++ new /\
    Forall (fun s => evaluated s /\ type s = "WRITING" /\ user_id s = user) new.
Proof.
  unfold writing. run. repeat case_match; run; settle.
Qed.

Lemma speaking_inserts (rt : Runtime) (user : Z) (method : string)
    (args form : gmap string string) (audio : option Upload) (st : State) :
  exists new,
    db_after st (speaking rt user method args form audio st) = db st ++ new /\
    Forall (fun s => evaluated s /\ type s = "SPEAKING" /\ user_id s = user) new.
Proof.
  unfold speaking. run. repeat case_match; run; settle.
Qed.

Lemma listening_inserts (rt : Runtime) (user : Z) (method : string)
    (args form : gmap string string) (st : State) :
  exists new,
    db_after st (listening rt user method args form st) = db st ++ new /\
    Forall (fun s => evaluated s /\ type s = "LISTENING" /\ user_id s = user) new.
Proof.
  unfold listening. run. repeat case_match; run; settle.
Qed.

(** Claim C10.  Whatever the request and the state, each of the three routes
    leaves the table as it was or appends rows to it, and every row it
    appends has a score and a feedback text (and the type of the route and
    the user of the request). *)
Theorem submissions_inserted_with_score (rt : Runtime) (user : Z)
    (method : string) (args form : gmap string string) (audio : option Upload)
    (st : State) :
  (exists new,
     db_after st (writing rt user method form st) = db st ++ new /\
     Forall (fun s => evaluated s /\ type s = "WRITING" /\ user_id s = user) new) /\
  (exists new,
     db_after st (speaking rt user method args form audio st) = db st ++ new /\
     Forall (fun s => evaluated s /\ type s = "SPEAKING" /\ user_id s = user) new) /\
  (exists new,
     db_after st (listening rt user method args form st) = db st ++ new /\
     Forall (fun s => evaluated s /\ type s = "LISTENING" /\ user_id s = user) new).
Proof.
  split; [apply writing_inserts |].
  split; [apply speaking_inserts | apply listening_inserts].
Qed.

Example writing_request :
  writing offline 7 "POST" {[ "essay" := "  I like tea. " ]} logged_in
  = Return
      (Redirect "stats",
       {| session := session logged_in;
          db := [ {| user_id := 7;
                     type := "WRITING";
                     content := Some (Essay "I like tea.");
                     created_at := 100 * 86400 + 7200;
                     ai_score := Some 50%Q;
                     ai_feedback :=
                       Some "AI service is not configured (missing OPENAI_API_KEY).
Fallback evaluation was used.
Set OPENAI_API_KEY and try again for full AI feedback." |} ];
          flashed := [] |}).
Proof. vm_compute. reflexivity. Qed.

Example speaking_request :
  List.map (fun s => (type s, ai_score s, ai_feedback s))
    (db_after logged_in
       (speaking out_of_quota 7 "POST" ∅ ∅ (Some recording) logged_in))
  = [ ("SPEAKING", Some 0%Q,
       Some "AI speaking evaluation is unavailable because your OpenAI account has no remaining quota.
Fix: enable billing/credits, restart the app, then try again.
Debug: insufficient_quota") ] /\
  List.map (fun s => (type s, ai_score s, ai_feedback s))
    (db_after logged_in
       (speaking unreachable 7 "POST" ∅ ∅ (Some recording) logged_in))
  = [ ("SPEAKING", Some 0%Q,
       Some "Speaking feedback unavailable because transcription failed.
If you see 'insufficient_quota' in the terminal, enable OpenAI billing/credits.") ].
Proof. split; vm_compute; reflexivity. Qed.

Example listening_request :
  List.map (fun s => (type s, ai_score s))
    (db_after listening_pending
       (listening offline 7 "POST" ∅
          {[ "q0" := "To a café near her home"; "q2" := "Outside" ]}
          listening_pending))
  = [ ("LISTENING", Some (100 # 3)%Q) ] /\
  db_after logged_in (listening offline 7 "POST" ∅ ∅ logged_in) = [].
Proof. split; vm_compute; reflexivity. Qed.
End Persistence.

Section Fallback.
Import Py Model Listening Spec Examples.

Lemma bank_get (level : string) : get bank level bank_B1 = fixed_entry level.
Proof.
  unfold fixed_entry, get, bank.
  destruct (String.eqb_spec level "A2") as [-> | HA2]; [reflexivity |].
  destruct (String.eqb_spec level "B2") as [-> | HB2]; [reflexivity |].
  destruct (String.eqb_spec level "C1") as [-> | HC1]; [reflexivity |].
  destruct (String.eqb_spec level "C2") as [-> | HC2]; [reflexivity |].
  destruct (decide (level = "B1")) as [-> | HB1]; [reflexivity |].
  rewrite !lookup_insert_ne by congruence. now rewrite lookup_empty.
Qed.

Lemma fingerprint_of_entry (level : string) :
  _task_id_for
    (bank_title (fixed_entry level) +:+ newline +:+ bank_passage (fixed_entry level))
  = fixed_fingerprint level.
Proof.
  unfold fixed_entry, fixed_fingerprint.
  repeat (destruct (String.eqb level _); [vm_compute; reflexivity |]).
  vm_compute. reflexivity.
Qed.

Lemma entry_usable (level : string) :
  List.length (bank_questions (fixed_entry level)) = 3%nat /\
  Forall usable (bank_questions (fixed_entry level)).
Proof.
  unfold fixed_entry, usable.
  repeat (destruct (String.eqb level _);
          [split; [reflexivity | repeat constructor; simpl; tauto] |]).
  split; [reflexivity | repeat constructor; simpl; tauto].
Qed.

Lemma fallback_fixed (level : string) :
  fallback_listening_task level = Return (fixed_task level).
Proof.
  unfold fallback_listening_task, getitem.
  change (bank !! "B1") with (Some bank_B1). cbn [mbind outcome_bind bind].
  rewrite bank_get. cbn [mret outcome_ret]. unfold fixed_task.
  now rewrite fingerprint_of_entry.
Qed.

Lemma generate_unavailable (rt : Runtime) (level : string) :
  generation_unavailable rt level ->
  generate_listening_task rt level = fallback_listening_task level.
Proof.
  unfold generation_unavailable, generate_listening_task.
  destruct (get_openai_client rt) as [client |]; [| reflexivity].
  destruct (responses_create client (listening_prompt level)) as [r | e];
    [| reflexivity].
  cbn. destruct (loads_listening_task rt r); [tauto | reflexivity].
Qed.

(** Claim C7.  For every level, [fallback_listening_task] returns the task
    that the level fixes: the title, passage and questions of its entry of
    the bank (that of B1 for any other string) and the fingerprint of that
    title and passage.  The task has exactly 3 questions, each with exactly
    4 options of which one is the answer.  [generate_listening_task] always
    returns a task, and returns this one when the generator is not
    configured or fails. *)
Theorem fallback_listening_task_fixed (rt : Runtime) (level : string) :
  fallback_listening_task level = Return (fixed_task level) /\
  task_id (fixed_task level)
  = _task_id_for
      (title (fixed_task level) +:+ newline +:+ passage (fixed_task level)) /\
  List.length (questions (fixed_task level)) = 3%nat /\
  Forall usable (questions (fixed_task level)) /\
  (exists task, generate_listening_task rt level = Return task) /\
  (generation_unavailable rt level ->
   generate_listening_task rt level = Return (fixed_task level)).
Proof.
  split; [apply fallback_fixed |].
  split; [symmetry; apply fingerprint_of_entry |].
  split; [apply entry_usable |]. split; [apply entry_usable |]. split.
  - unfold generate_listening_task, attach_audio.
    destruct (get_openai_client rt) as [client |];
      [| rewrite fallback_fixed; eauto].
    destruct (responses_create client (listening_prompt level)) as [r | e];
      cbn; [| rewrite fallback_fixed; eauto].
    destruct (loads_listening_task rt r) as [data | e];
      cbn; [| rewrite fallback_fixed; eauto].
    destruct (audio_speech_create client _); cbn; [| eauto].
    destruct (write_bytes rt _ _); cbn; [| eauto].
    destruct (url_for_uploaded_file rt _); cbn; eauto.
  - intros H. rewrite (generate_unavailable _ _ H). apply fallback_fixed.
Qed.

Lemma fallback_listening_task_fixed_witness :
  generation_unavailable unreachable "C1" /\
  generate_listening_task unreachable "C1" = Return (fixed_task "C1").
Proof.
  assert (H : generation_unavailable unreachable "C1") by exact I.
  split; [exact H |].
  exact (proj2 (proj2 (proj2 (proj2 (proj2
           (fallback_listening_task_fixed unreachable "C1"))))) H).
Defined.
End Fallback.

Section Fingerprint.
Import Py Model Listening Spec Examples.
Local Open Scope Z_scope.

Lemma be_bytes_length (n : nat) (x : Z) : List.length (Sha1.be_bytes n x) = n.
Proof.
  revert x. induction n as [| k IH]; intros x; simpl; [reflexivity |].
  rewrite length_app, IH. simpl. lia.
Qed.

Lemma be_bytes_range (n : nat) (x : Z) :
  Forall (fun b => 0 <= b < 256) (Sha1.be_bytes n x).
Proof.
  revert x. induction n as [| k IH]; intros x; simpl; [constructor |].
  apply Forall_app. split; [apply IH |]. constructor; [| constructor].
  change 255 with (Z.ones 8). rewrite Z.land_ones by lia.
  apply Z.mod_pos_bound. lia.
Qed.

Lemma digest_bytes (msg : list Z) :
  List.length (Sha1.digest msg) = 20%nat /\
  Forall (fun b => 0 <= b < 256) (Sha1.digest msg).
Proof.
  unfold Sha1.digest.
  destruct (Sha1.blocks _ _ _) as [[[[a b] c] d] e]. split.
  - rewrite !length_app, !be_bytes_length. reflexivity.
  - rewrite !Forall_app. repeat split; apply be_bytes_range.
Qed.

Lemma hex_digit_is_hex (x : Z) :
  0 <= x < 16 -> is_hex (Sha1.hex_digit x) = true.
Proof.
  intros H.
  assert (Hx : In x [0; 1; 2; 3; 4; 5; 6; 7; 8; 9; 10; 11; 12; 13; 14; 15]).
  { simpl. lia. }
  simpl in Hx. repeat (destruct Hx as [<- | Hx]; [reflexivity |]). contradiction.
Qed.

Lemma hex_is_hex (bs : list Z) :
  Forall (fun b => 0 <= b < 256) bs ->
  Forall (fun c => is_hex c = true) (list_ascii_of_string (Sha1.hex bs)).
Proof.
  induction 1 as [| b r Hb Hr IH]; simpl; [constructor |].
  constructor; [| constructor; [| exact IH]]; apply hex_digit_is_hex.
  - rewrite Z.shiftr_div_pow2 by lia. change (2 ^ 4) with 16.
    split; [apply Z.div_pos; lia | apply Z.div_lt_upper_bound; lia].
  - change 15 with (Z.ones 4). rewrite Z.land_ones by lia.
    apply Z.mod_pos_bound. lia.
Qed.

Lemma prefix_hex (k : nat) (bs : list Z) :
  prefix (2 * k) (Sha1.hex bs) = Sha1.hex (firstn k bs).
Proof.
  revert bs. induction k as [| k IH]; intros bs; [reflexivity |].
  replace (2 * S k)%nat with (S (S (2 * k))) by lia.
  destruct bs as [| b r]; [reflexivity |]. cbn [Sha1.hex prefix firstn].
  now rewrite IH.
Qed.

Lemma hex_length (bs : list Z) :
  String.length (Sha1.hex bs) = (2 * List.length bs)%nat.
Proof.
  induction bs as [| b r IH]; simpl; [reflexivity |]. rewrite IH. lia.
Qed.

Lemma hex_value_digit (x : Z) : 0 <= x < 16 -> hex_value (Sha1.hex_digit x) = x.
Proof.
  intros H.
  assert (Hx : In x [0; 1; 2; 3; 4; 5; 6; 7; 8; 9; 10; 11; 12; 13; 14; 15]).
  { simpl. lia. }
  simpl in Hx. repeat (destruct Hx as [<- | Hx]; [reflexivity |]). contradiction.
Qed.

Lemma hex_injective (bs bs' : list Z) :
  Forall (fun b => 0 <= b < 256) bs ->
  Forall (fun b => 0 <= b < 256) bs' ->
  Sha1.hex bs = Sha1.hex bs' -> bs = bs'.
Proof.
  intros H. revert bs'. induction H as [| b r Hb Hr IH]; intros bs' H' Heq.
  - destruct bs'; [reflexivity | discriminate].
  - destruct H' as [| b' r' Hb' Hr']; [discriminate |].
    cbn [Sha1.hex] in Heq. injection Heq as Hhi Hlo Hrest.
    apply (f_equal hex_value) in Hhi, Hlo.
    assert (Hdiv : forall c, 0 <= c < 256 -> 0 <= Z.shiftr c 4 < 16).
    { intros c Hc. rewrite Z.shiftr_div_pow2 by lia. change (2 ^ 4) with 16.
      split; [apply Z.div_pos; lia | apply Z.div_lt_upper_bound; lia]. }
    assert (Hmod : forall c, 0 <= Z.land c 15 < 16).
    { intros c. change 15 with (Z.ones 4). rewrite Z.land_ones by lia.
      apply Z.mod_pos_bound. lia. }
    rewrite !hex_value_digit in Hhi, Hlo by auto.
    f_equal; [| now apply IH].
    rewrite !Z.shiftr_div_pow2 in Hhi by lia.
    change 15 with (Z.ones 4) in Hlo. rewrite !Z.land_ones in Hlo by lia.
    change (2 ^ 4) with 16 in Hhi, Hlo.
    pose proof (Z.div_mod b 16 ltac:(lia)). pose proof (Z.div_mod b' 16 ltac:(lia)).
    lia.
Qed.

Lemma task_id_bytes (text : string) :
  _task_id_for text
  = Sha1.hex (firstn 6 (Sha1.digest (Sha1.bytes_of_string text))).
Proof. unfold _task_id_for, Sha1.hexdigest. apply (prefix_hex 6). Qed.

Lemma generated_task_id (rt : Runtime) (level : string) (task : Task) :
  generate_listening_task rt level = Return task ->
  task_id task = _task_id_for (title task +:+ newline +:+ passage task).
Proof.
  assert (Hfb : fallback_listening_task level = Return task ->
                task_id task
                = _task_id_for (title task +:+ newline +:+ passage task)).
  { rewrite fallback_fixed. intros [= <-]. symmetry. apply fingerprint_of_entry. }
  unfold generate_listening_task, attach_audio.
  destruct (get_openai_client rt) as [client |]; [| exact Hfb].
  destruct (responses_create client (listening_prompt level)) as [r | e];
    cbn; [| exact Hfb].
  destruct (loads_listening_task rt r) as [data | e]; cbn; [| exact Hfb].
  destruct (audio_speech_create client _); cbn; [| now intros [= <-]].
  destruct (write_bytes rt _ _); cbn; [| now intros [= <-]].
  destruct (url_for_uploaded_file rt _); cbn; now intros [= <-].
Qed.

(** Claim C9, amended.  The fingerprint of a title and a body is a function
    of the text title, line feed, body: 12 lower-case hexadecimal digits,
    those of the first 6 bytes of the SHA-1 of the text.  Any title and body
    that make the same text have the same fingerprint; two fingerprints are
    equal exactly when those 6 bytes are; and every task that
    [generate_listening_task] returns carries the fingerprint of its title
    and passage. *)
Theorem task_fingerprint (rt : Runtime) (level title body : string) :
  let text := title +:+ newline +:+ body in
  String.length (_task_id_for text) = 12%nat /\
  Forall (fun c => is_hex c = true) (list_ascii_of_string (_task_id_for text)) /\
  _task_id_for text
  = Sha1.hex (firstn 6 (Sha1.digest (Sha1.bytes_of_string text))) /\
  (forall title' body' : string,
     title' +:+ newline +:+ body' = text ->
     _task_id_for (title' +:+ newline +:+ body') = _task_id_for text) /\
  (forall title' body' : string,
     _task_id_for (title' +:+ newline +:+ body') = _task_id_for text <->
     firstn 6 (Sha1.digest (Sha1.bytes_of_string (title' +:+ newline +:+ body')))
     = firstn 6 (Sha1.digest (Sha1.bytes_of_string text))) /\
  (forall task : Task,
     generate_listening_task rt level = Return task ->
     task_id task = _task_id_for (Model.title task +:+ newline +:+ passage task)).
Proof.
  intros text. pose proof (digest_bytes (Sha1.bytes_of_string text)) as [Hl Hr].
  rewrite !task_id_bytes.
  split; [| split; [| split; [reflexivity | split; [| split]]]].
  - rewrite hex_length, length_firstn, Hl. reflexivity.
  - apply hex_is_hex. now apply Forall_take.
  - intros title' body' ->. apply task_id_bytes.
  - intros title' body'. rewrite task_id_bytes. split; [| now intros ->].
    apply hex_injective; apply Forall_take; [apply digest_bytes | exact Hr].
  - apply generated_task_id.
Qed.

Lemma task_fingerprint_witness :
  generate_listening_task offline "B2" = Return (fixed_task "B2") /\
  task_id (fixed_task "B2")
  = _task_id_for
      (Model.title (fixed_task "B2") +:+ newline +:+ passage (fixed_task "B2")).
Proof.
  assert (H : generate_listening_task offline "B2" = Return (fixed_task "B2"))
    by apply fallback_fixed.
  split; [exact H |].
  exact (proj2 (proj2 (proj2 (proj2 (proj2
           (task_fingerprint offline "B2" "t" "b"))))) _ H).
Defined.

(** Claim C9 as stated fails: a change of the title alone, a change of the
    body alone, and a line moved from the title to the body can each leave
    the fingerprint as it was. *)
Lemma task_fingerprint_collisions :
  "c1fd2ac552e1" <> "2433dcb7dd71" /\
  _task_id_for ("c1fd2ac552e1" +:+ newline +:+ "b")
  = _task_id_for ("2433dcb7dd71" +:+ newline +:+ "b") /\
  "8bd35db1579f" <> "b8df5cf70a58" /\
  _task_id_for ("t" +:+ newline +:+ "8bd35db1579f")
  = _task_id_for ("t" +:+ newline +:+ "b8df5cf70a58") /\
  ("a" +:+ newline +:+ "b") <> "a" /\ "c" <> ("b" +:+ newline +:+ "c") /\
  _task_id_for (("a" +:+ newline +:+ "b") +:+ newline +:+ "c")
  = _task_id_for ("a" +:+ newline +:+ ("b" +:+ newline +:+ "c")).
Proof.
  repeat split; try discriminate; vm_compute; reflexivity.
Qed.
End Fingerprint.

(** * Further properties of the pipeline *)

Section SpeakingJudge.
Import Py Model Judge Spec Examples.

(** Property X1.  [generate_ai_feedback_speaking] always returns a result.  Without a
    client it is the score 0 with two lines.  When the call or the decoding
    raises, the result has score 0 and names the missing quota exactly when
    [repr(e)] contains "insufficient_quota"; any other failure gives the
    score 55 and the class name of the exception. *)
Theorem speaking_feedback_degrades (rt : Runtime) (transcript : string) :
  (exists r, generate_ai_feedback_speaking rt transcript = Return r) /\
  (get_openai_client rt = None ->
   generate_ai_feedback_speaking rt transcript
   = Return
       {| score := 0;
          feedback :=
            [ "AI speaking feedback unavailable (missing OPENAI_API_KEY).";
              "Enable OpenAI billing/credits to get transcription + speaking feedback." ] |}) /\
  (forall e : exception,
     judge_failed rt (speaking_prompt transcript) e ->
     generate_ai_feedback_speaking rt transcript
     = Return
         (if contains "insufficient_quota" (exc_repr e) then
            {| score := 0;
               feedback :=
                 [ "AI speaking evaluation is unavailable because your OpenAI account has no remaining quota.";
                   "Fix: enable billing/credits, restart the app, then try again.";
                   "Debug: insufficient_quota" ] |}
          else
            {| score := 55;
               feedback :=
                 [ "AI evaluation failed temporarily.";
                   "Please try again later.";
                   "Debug: " +:+ exc_type_name e ] |})).
Proof.
  assert (Hoff : get_openai_client rt = None ->
    generate_ai_feedback_speaking rt transcript
    = Return
        {| score := 0;
           feedback :=
             [ "AI speaking feedback unavailable (missing OPENAI_API_KEY).";
               "Enable OpenAI billing/credits to get transcription + speaking feedback." ] |}).
  { intros Hc. unfold generate_ai_feedback_speaking. now rewrite Hc. }
  assert (Hfail : forall e : exception,
    judge_failed rt (speaking_prompt transcript) e ->
    generate_ai_feedback_speaking rt transcript
    = Return
        (if contains "insufficient_quota" (exc_repr e) then
           {| score := 0;
              feedback :=
                [ "AI speaking evaluation is unavailable because your OpenAI account has no remaining quota.";
                  "Fix: enable billing/credits, restart the app, then try again.";
                  "Debug: insufficient_quota" ] |}
         else
           {| score := 55;
              feedback :=
                [ "AI evaluation failed temporarily.";
                  "Please try again later.";
                  "Debug: " +:+ exc_type_name e ] |})).
  { intros e (client & Hc & H). unfold generate_ai_feedback_speaking.
    rewrite Hc.
    destruct H as [Hr | (resp & Hr & Hd)]; rewrite Hr; cbn; [| rewrite Hd; cbn];
      destruct (contains "insufficient_quota" (exc_repr e)); reflexivity. }
  split; [| split; [exact Hoff | exact Hfail]].
  destruct (judge_cases rt (speaking_prompt transcript)) as [H | [[d H] | [e H]]].
  - rewrite (Hoff H). eauto.
  - rewrite (speaking_judged _ _ _ H). eauto.
  - rewrite (Hfail e H). eauto.
Qed.

Lemma speaking_feedback_degrades_witness :
  judge_failed out_of_quota (speaking_prompt "I get up at seven.") quota_error /\
  generate_ai_feedback_speaking out_of_quota "I get up at seven."
  = Return
      {| score := 0;
         feedback :=
           [ "AI speaking evaluation is unavailable because your OpenAI account has no remaining quota.";
             "Fix: enable billing/credits, restart the app, then try again.";
             "Debug: insufficient_quota" ] |}.
Proof.
  assert (H : judge_failed out_of_quota (speaking_prompt "I get up at seven.")
                quota_error).
  { eexists. split; [reflexivity |]. left. reflexivity. }
  split; [exact H |].
  exact (proj2 (proj2 (speaking_feedback_degrades out_of_quota
                         "I get up at seven.")) _ H).
Defined.

Lemma random_choice_member {A : Type} (rt : Runtime) (seq : list A) :
  seq <> [] -> exists x, random_choice rt seq = Return x /\ In x seq.
Proof.
  intros Hne. unfold random_choice.
  assert (Hlt : (random_index rt mod List.length seq < List.length seq)%nat).
  { apply Nat.mod_upper_bound. destruct seq; [congruence | discriminate]. }
  destruct (lookup_lt_is_Some_2 seq _ Hlt) as [x Hx]. rewrite Hx.
  exists x. split; [reflexivity |]. apply list_elem_of_In.
  eapply list_elem_of_lookup_2. exact Hx.
Qed.

End SpeakingJudge.

Section ListeningGeneration.
Import Py Model Listening Spec Examples Samples.

(** Property X3.  Speech synthesis is best effort.  When the generator answers and its
    reply decodes to a title, a passage and questions, the task returned has
    the stripped title and passage, their fingerprint, the questions, the
    requested level and the source "openai", whatever the synthesis, the
    writing of the file and the building of its address do; and its three
    audio keys are all [None] when the synthesis or the writing raises. *)
Theorem listening_task_survives_speech_failure (rt : Runtime) (level : string)
    (client : OpenAI) (r t p : string) (qs : list Question) :
  get_openai_client rt = Some client ->
  responses_create client (listening_prompt level) = Return r ->
  loads_listening_task rt r = Return (t, p, qs) ->
  exists task,
    generate_listening_task rt level = Return task /\
    task_id task = _task_id_for (strip t +:+ newline +:+ strip p) /\
    Model.level task = level /\
    title task = strip t /\ passage task = strip p /\ questions task = qs /\
    instructions task = "Listen to the audio. Then answer the questions." /\
    source task = "openai" /\
    ((forall content,
        audio_speech_create client (strip p) = Return content ->
        exists e, write_bytes rt
                    ("listening_" +:+ utcnow_stamp rt +:+ "_"
                       +:+ _task_id_for (strip t +:+ newline +:+ strip p)
                       +:+ ".mp3") content = Raise e) ->
     audio_path task = None /\ audio_url task = None /\
     audio_mimetype task = None).
Proof.
  intros Hc Hr Hl. unfold generate_listening_task, attach_audio.
  rewrite Hc, Hr. cbn -[strip _task_id_for String.append].
  rewrite Hl. cbn -[strip _task_id_for String.append].
  destruct (audio_speech_create client (strip p)) as [content | e] eqn:Hs;
    cbn -[strip _task_id_for String.append].
  - match goal with
    | |- context [write_bytes rt ?f content] =>
        destruct (write_bytes rt f content) as [[] | e] eqn:Hw;
        cbn -[strip _task_id_for String.append]
    end.
    + match goal with
      | |- context [url_for_uploaded_file rt ?f] =>
          destruct (url_for_uploaded_file rt f)
      end; eexists; (split; [reflexivity |]);
        cbn -[strip _task_id_for String.append];
        repeat (split; [reflexivity |]);
        intros H; destruct (H content eq_refl) as [err He]; congruence.
    + eexists. split; [reflexivity |]. cbn -[strip _task_id_for String.append].
      repeat (split; [reflexivity |]). reflexivity.
  - eexists. split; [reflexivity |]. cbn -[strip _task_id_for String.append].
    repeat (split; [reflexivity |]). reflexivity.
Qed.

Lemma listening_task_survives_speech_failure_witness :
  exists task,
    generate_listening_task speechless "B2" = Return task /\
    title task = "At the station" /\ passage task = "The train is late." /\
    source task = "openai" /\ audio_path task = None /\ audio_url task = None.
Proof.
  destruct (listening_task_survives_speech_failure speechless "B2"
              speechless_client "{}" " At the station " "The train is late.
" [] eq_refl eq_refl eq_refl)
    as (task & Hrun & _ & _ & Ht & Hp & _ & _ & Hs & Haudio).
  exists task. split; [exact Hrun |]. split; [exact Ht |]. split; [exact Hp |].
  split; [exact Hs |].
  destruct Haudio as (H1 & H2 & _); [| auto].
  intros content Hcontent. discriminate Hcontent.
Defined.

(** Property X4.  Every task that [generate_listening_task] returns has the requested
    level and comes from the generator or from the bank.  A task of the bank
    has no audio; an audio address comes with its path and with the type
    "audio/mpeg", and the type is present only with the address. *)
Theorem listening_task_audio_fields (rt : Runtime) (level : string) (task : Task) :
  generate_listening_task rt level = Return task ->
  Model.level task = level /\
  (source task = "openai" \/ source task = "fallback") /\
  (source task = "fallback" ->
   audio_path task = None /\ audio_url task = None /\ audio_mimetype task = None) /\
  (audio_url task <> None -> audio_path task <> None) /\
  (audio_mimetype task = Some "audio/mpeg" <-> audio_url task <> None) /\
  (audio_mimetype task = None <-> audio_url task = None).
Proof.
  assert (Hfb : fallback_listening_task level = Return task ->
    Model.level task = level /\
    (source task = "openai" \/ source task = "fallback") /\
    (source task = "fallback" ->
     audio_path task = None /\ audio_url task = None /\ audio_mimetype task = None) /\
    (audio_url task <> None -> audio_path task <> None) /\
    (audio_mimetype task = Some "audio/mpeg" <-> audio_url task <> None) /\
    (audio_mimetype task = None <-> audio_url task = None)).
  { rewrite fallback_fixed. intros [= <-]. cbn. intuition congruence. }
  unfold generate_listening_task, attach_audio.
  destruct (get_openai_client rt) as [client |]; [| exact Hfb].
  destruct (responses_create client (listening_prompt level)) as [r | e];
    cbn -[strip _task_id_for String.append]; [| exact Hfb].
  destruct (loads_listening_task rt r) as [data | e];
    cbn -[strip _task_id_for String.append]; [| exact Hfb].
  destruct (audio_speech_create client _);
    cbn -[strip _task_id_for String.append];
    [| intros [= <-]; cbn; intuition congruence].
  destruct (write_bytes rt _ _); cbn -[strip _task_id_for String.append];
    [| intros [= <-]; cbn; intuition congruence].
  destruct (url_for_uploaded_file rt _);
    cbn -[strip _task_id_for String.append];
    intros [= <-]; cbn; intuition congruence.
Qed.

Lemma listening_task_audio_fields_witness :
  generate_listening_task offline "C2" = Return (fixed_task "C2") /\
  Model.level (fixed_task "C2") = "C2" /\
  audio_url (fixed_task "C2") = None.
Proof.
  assert (H : generate_listening_task offline "C2" = Return (fixed_task "C2"))
    by apply fallback_fixed.
  split; [exact H |].
  destruct (listening_task_audio_fields offline "C2" _ H)
    as (Hl & _ & Hf & _).
  split; [exact Hl |]. apply Hf. reflexivity.
Defined.
End ListeningGeneration.

Section AnswersByPosition.
Import Py Model Listening Spec Examples.

Lemma matched_position (ua ua' : list (option string)) (i : nat) (q : Question) :
  default None (ua !! i) = default None (ua' !! i) ->
  matched ua (i, q) = matched ua' (i, q).
Proof.
  intros H. unfold matched. cbn [fst snd]. apply bool_decide_ext.
  destruct (ua !! i) as [a |], (ua' !! i) as [a' |]; cbn in H; subst;
    split; congruence.
Qed.

Lemma filter_agree {A : Type} (f g : A -> bool) (l : list A) :
  (forall x, In x l -> f x = g x) -> List.filter f l = List.filter g l.
Proof.
  induction l as [| x r IH]; intros H; [reflexivity |]. simpl.
  rewrite (H x) by (now left). rewrite IH; [reflexivity |].
  intros y Hy. apply H. now right.
Qed.

(** Property X5.  The grade depends on the submitted list only through its entries at the
    positions of the questions, an absent entry counting as [None]: answers
    beyond the last question are ignored and a list that is too short is
    read as if it were completed with [None]. *)
Theorem answers_by_position (task : Task) (ua ua' : list (option string)) :
  (forall i : nat,
     (i < List.length (questions task))%nat ->
     default None (ua !! i) = default None (ua' !! i)) ->
  evaluate_listening_answers task ua = evaluate_listening_answers task ua'.
Proof.
  intros H.
  assert (Hm : forall iq, In iq (enumerate_from 0 (questions task)) ->
                          matched ua iq = matched ua' iq).
  { intros [i q] Hin. apply enumerate_from_lookup in Hin as [_ Hq].
    rewrite Nat.sub_0_r in Hq. apply matched_position, H.
    eapply lookup_lt_Some. exact Hq. }
  rewrite !evaluate_matches. unfold matches, corrections.
  rewrite (filter_agree _ _ _ Hm).
  rewrite (filter_agree (fun iq => negb (matched ua iq))
             (fun iq => negb (matched ua' iq))); [reflexivity |].
  intros iq Hin. now rewrite (Hm iq Hin).
Qed.

Lemma answers_by_position_witness :
  evaluate_listening_answers task_A2 answers_A2
  = evaluate_listening_answers task_A2
      [ Some "To a café near her home"; None; Some "Outside";
        Some "a fourth answer" ] /\
  evaluate_listening_answers task_A2 [Some "To a café near her home"]
  = evaluate_listening_answers task_A2
      [Some "To a café near her home"; None; None].
Proof.
  split; apply answers_by_position; intros [| [| [| i]]] Hi;
    solve [reflexivity | simpl in Hi; lia].
Defined.

Lemma sum_filters {A : Type} (f : A -> bool) (l : list A) :
  List.length (List.filter f l) = List.length l <->
  forall x, In x l -> f x = true.
Proof.
  induction l as [| x r IH]; simpl; [tauto |].
  pose proof (filter_length_le f r) as Hle. destruct (f x) eqn:Hx; simpl.
  - split.
    + intros H y [<- | Hy]; [exact Hx |]. apply IH; [lia | exact Hy].
    + intros H. f_equal. apply IH. intros y Hy. apply H. now right.
  - split; [lia |]. intros H. specialize (H x (or_introl eq_refl)). congruence.
Qed.

(** Property X6.  Full marks.  The score is 100, and the feedback is the congratulation
    alone, exactly when the task has at least one question and every
    question has its designated answer at its position.  A task without
    questions gets the score 0 with the remark and the tip. *)
Theorem full_marks (task : Task) (ua : list (option string)) :
  exists (score : Q) (lines : list string),
    evaluate_listening_answers task ua = Return (score, lines) /\
    ((score == 100)%Q <->
     questions task <> [] /\
     forall (i : nat) (q : Question),
       questions task !! i = Some q -> ua !! i = Some (Some (answer q))) /\
    ((score == 100)%Q <-> lines = [congratulation]) /\
    (questions task = [] ->
     score = 0%Q /\ lines = [review_remark; lower_level_tip]).
Proof.
  rewrite evaluate_matches.
  pose proof (matches_le (questions task) ua) as Hle.
  pose proof (corrections_length (questions task) ua) as Hlen.
  set (n := List.length (questions task)) in *.
  set (m := matches (questions task) ua) in *.
  set (corrected := corrections (questions task) ua) in *.
  assert (Hall : m = n <->
    forall (i : nat) (q : Question),
      questions task !! i = Some q -> ua !! i = Some (Some (answer q))).
  { unfold m, n, matches.
    replace (List.length (questions task))
      with (List.length (enumerate_from 0 (questions task)))
      by (unfold enumerate_from; rewrite length_combine, length_seq; lia).
    rewrite sum_filters. split.
    - intros H i q Hq. specialize (H (i, q)).
      unfold matched in H. cbn [fst snd] in H. eapply bool_decide_eq_true_1, H.
      apply enumerate_from_lookup. rewrite Nat.sub_0_r. split; [lia | exact Hq].
    - intros H [i q] Hin. apply enumerate_from_lookup in Hin as [_ Hq].
      rewrite Nat.sub_0_r in Hq. unfold matched. cbn [fst snd].
      apply bool_decide_eq_true_2, (H _ _ Hq). }
  assert (Hscore : n <> 0%nat ->
    ((inject_Z (Z.of_nat m) / inject_Z (Z.of_nat n) * 100 == 100)%Q <-> m = n)).
  { intros Hn.
    assert (Hpos : ~ (inject_Z (Z.of_nat n) == 0)%Q).
    { unfold Qeq. simpl. lia. }
    split.
    - intros H.
      assert (H1 : (inject_Z (Z.of_nat m) / inject_Z (Z.of_nat n) == 1)%Q) by lra.
      assert (H2 : (inject_Z (Z.of_nat m) == inject_Z (Z.of_nat n))%Q).
      { rewrite <- (Qmult_div_r (inject_Z (Z.of_nat m)) (inject_Z (Z.of_nat n)))
          by exact Hpos.
        rewrite H1. ring. }
      unfold Qeq in H2. simpl in H2. lia.
    - intros ->. field. exact Hpos. }
  assert (Hnq : n = 0%nat <-> questions task = []).
  { unfold n. destruct (questions task); simpl; split; congruence. }
  destruct n as [| k] eqn:Hn.
  - cbn [Nat.eqb]. eexists _, _. split; [reflexivity |].
    assert (Hq : questions task = []) by now apply Hnq.
    split; [| split].
    + split; [intros H; discriminate H | intros [H _]; congruence].
    + split; [intros H; discriminate H | intros H; discriminate H].
    + intros _. unfold corrected. rewrite Hq. split; reflexivity.
  - cbn [Nat.eqb]. specialize (Hscore ltac:(discriminate)).
    set (score := (inject_Z (Z.of_nat m) / inject_Z (Z.of_nat (S k)) * 100)%Q) in *.
    eexists _, _. split; [reflexivity |].
    assert (Hne : questions task <> []).
    { intros H. apply Hnq in H. discriminate. }
    split; [| split; [| intros H; contradiction]].
    + rewrite Hscore, Hall. tauto.
    + destruct (eqb score 100) eqn:H100.
      * apply Qeq_bool_eq in H100. split; [| intros _; exact H100].
        intros _. apply Hscore in H100.
        assert (List.length corrected = 0%nat) by lia.
        destruct corrected; [reflexivity | discriminate].
      * split.
        -- intros H. apply Qeq_eq_bool in H. unfold eqb in H100. congruence.
        -- destruct (ltb score 50); intros H; discriminate H.
Qed.

Lemma full_marks_witness :
  exists (score : Q) (lines : list string),
    evaluate_listening_answers task_A2
      [ Some "To a café near her home"; Some "Because the café is busy";
        Some "By the window" ] = Return (score, lines) /\
    lines = [congratulation].
Proof.
  destruct (full_marks task_A2
              [ Some "To a café near her home"; Some "Because the café is busy";
                Some "By the window" ])
    as (score & lines & Hrun & Hall & [Hlines _] & _).
  exists score, lines. split; [exact Hrun |]. apply Hlines, Hall.
  split; [discriminate |].
  intros [| [| [| i]]] q Hq; cbn in Hq; [injection Hq as <- ..| discriminate];
    reflexivity.
Defined.
End AnswersByPosition.

Section StreakComposition.
Import Py Model Dashboard Spec Examples Notions.

Lemma run_unique (days : gset Z) (start : Z) (n n' : nat) :
  run_of days start n -> run_of days start n' -> n = n'.
Proof.
  intros [Hall Hstop] [Hall' Hstop'].
  destruct (Nat.lt_trichotomy n n') as [H | [H | H]]; [| exact H |].
  - exfalso. apply Hstop, Hall', H.
  - exfalso. apply Hstop', Hall, H.
Qed.

Lemma streak_run (today : Z) (table : list Submission) (user : Z) :
  exists n : nat,
    streak today table user = Some n /\
    run_of (practiced_days (of_user user table))
      (anchor today (practiced_days (of_user user table))) n.
Proof.
  unfold streak.
  rewrite <- (practiced_days_perm _ _ (order_by_perm (of_user user table))).
  set (days := practiced_days (of_user user table)).
  destruct (streak_loop_terminates days (S (size days)) (anchor today days) 0 days)
    as (n & Hn & H); [done | lia |].
  exists n. split; [exact Hn | exact H].
Qed.

Lemma run_length (days : gset Z) (start : Z) (n : nat) :
  run_of days start n -> (n <= size days)%nat.
Proof.
  intros [Hall _].
  set (l := List.map (fun i : nat => (start - Z.of_nat i)%Z) (seq 0 n)).
  assert (Hnd : NoDup l).
  { apply NoDup_fmap_2; [intros i j; lia | apply NoDup_seq]. }
  assert (Hsub : (list_to_set l : gset Z) ⊆ days).
  { intros d Hd. apply elem_of_list_to_set, list_elem_of_In, in_map_iff in Hd
      as (i & <- & Hi). apply Hall. apply in_seq in Hi. lia. }
  apply subseteq_size in Hsub. rewrite size_list_to_set in Hsub by exact Hnd.
  unfold l in Hsub. rewrite length_map, length_seq in Hsub. exact Hsub.
Qed.

(** Property X7.  The streak is a function of the set of practised days, it never exceeds
    their number, and it is 0 exactly when neither today nor yesterday is a
    practised day. *)
Theorem streak_of_days (today : Z) (table : list Submission) (user : Z) :
  let days := practiced_days (of_user user table) in
  (exists n : nat,
     streak today table user = Some n /\
     (n <= size days)%nat /\
     (n = 0%nat <-> (today ∉ days) /\ ((today - 1)%Z ∉ days))) /\
  (forall (table' : list Submission) (user' : Z),
     practiced_days (of_user user' table') = days ->
     streak today table' user' = streak today table user).
Proof.
  intros days. split.
  - destruct (streak_run today table user) as (n & Hn & Hrun). fold days in Hrun.
    exists n. split; [exact Hn |]. split; [eapply run_length, Hrun |].
    destruct Hrun as [Hall Hstop]. unfold anchor in *.
    case_bool_decide as Ht.
    + split.
      * intros ->. rewrite Z.sub_0_r in Hstop. contradiction.
      * intros [H _]. contradiction.
    + split.
      * intros ->. rewrite Z.sub_0_r in Hstop. split; assumption.
      * intros [_ Hy]. destruct n as [| n]; [reflexivity |].
        specialize (Hall 0%nat ltac:(lia)). rewrite Z.sub_0_r in Hall.
        contradiction.
  - intros table' user' Heq.
    destruct (streak_run today table user) as (n & Hn & Hrun).
    destruct (streak_run today table' user') as (n' & Hn' & Hrun').
    rewrite Heq in Hrun'. fold days in Hrun, Hrun'.
    rewrite Hn, Hn'. f_equal. eapply run_unique; eassumption.
Qed.

Lemma streak_of_days_witness :
  practiced_days (of_user 7 (rev streak_table))
  = practiced_days (of_user 7 streak_table) /\
  streak 100 (rev streak_table) 7 = streak 100 streak_table 7.
Proof.
  assert (H : practiced_days (of_user 7 (rev streak_table))
              = practiced_days (of_user 7 streak_table))
    by (vm_compute; reflexivity).
  split; [exact H |].
  exact (proj2 (streak_of_days 100 streak_table 7) _ _ H).
Defined.

Lemma practiced_days_snoc (rows : list Submission) (s : Submission) :
  practiced_days (rows ++ [s]) = practiced_days rows ∪ {[date (created_at s)]}.
Proof.
  unfold practiced_days. rewrite map_app, list_to_set_app_L. simpl.
  now rewrite union_empty_r_L.
Qed.

(** Property X8.  Practising extends the streak.  When a submission of the user dated today
    is appended to the table, the streak is unchanged if today was already a
    practised day, and grows by one if it was not. *)
Theorem streak_after_practice (today : Z) (table : list Submission) (user : Z)
    (s : Submission) (n : nat) :
  user_id s = user ->
  date (created_at s) = today ->
  streak today table user = Some n ->
  streak today (table ++ [s]) user
  = Some (if bool_decide (today ∈ practiced_days (of_user user table))
          then n else S n).
Proof.
  intros Hu Hd Hn.
  destruct (streak_run today table user) as (m & Hm & Hrun).
  rewrite Hn in Hm. injection Hm as <-.
  destruct (streak_run today (table ++ [s]) user) as (n' & Hn' & Hrun').
  rewrite Hn'. f_equal.
  assert (Hdays : practiced_days (of_user user (table ++ [s]))
                  = practiced_days (of_user user table) ∪ {[today]}).
  { unfold of_user. rewrite List.filter_app. simpl.
    rewrite (proj2 (Z.eqb_eq _ _) Hu). fold (of_user user table).
    now rewrite practiced_days_snoc, Hd. }
  rewrite Hdays in Hrun'. set (days := practiced_days (of_user user table)) in *.
  assert (Hanchor : anchor today (days ∪ {[today]}) = today).
  { unfold anchor. rewrite bool_decide_eq_true_2; [reflexivity |].
    now apply elem_of_union_r, elem_of_singleton. }
  rewrite Hanchor in Hrun'. unfold anchor in Hrun.
  case_bool_decide as Ht.
  - assert (Heq : days ∪ {[today]} = days).
    { apply set_eq. intros x. rewrite elem_of_union, elem_of_singleton.
      split; [intros [H | ->]; assumption | auto]. }
    rewrite Heq in Hrun'. eapply run_unique; eassumption.
  - eapply run_unique; [exact Hrun' |]. destruct Hrun as [Hall Hstop]. split.
    + intros [| i] Hi.
      * rewrite Z.sub_0_r. now apply elem_of_union_r, elem_of_singleton.
      * apply elem_of_union_l.
        replace (today - Z.of_nat (S i))%Z with (today - 1 - Z.of_nat i)%Z by lia.
        apply Hall. lia.
    + replace (today - Z.of_nat (S n))%Z with (today - 1 - Z.of_nat n)%Z by lia.
      rewrite elem_of_union, elem_of_singleton. intros [H | H]; [tauto | lia].
Qed.

Lemma streak_after_practice_witness :
  streak 101 streak_table 7 = Some 3%nat /\
  streak 101 (streak_table ++ [row 7 (101 * 86400 + 60) None]) 7 = Some 4%nat.
Proof.
  assert (H : streak 101 streak_table 7 = Some 3%nat) by (vm_compute; reflexivity).
  split; [exact H |].
  exact (streak_after_practice 101 streak_table 7
           (row 7 (101 * 86400 + 60) None) 3 eq_refl eq_refl H).
Defined.
End StreakComposition.

Section Percentage.
Import Py Model Dashboard Spec Examples.

Lemma fold_bounds (xs : list Q) :
  Forall (fun v => (0 < v /\ v <= 100)%Q) xs ->
  forall a : Q,
    (a <= fold_left Qplus xs a /\
     fold_left Qplus xs a <= a + 100 * inject_Z (Z.of_nat (List.length xs)))%Q.
Proof.
  induction 1 as [| v r [Hv0 Hv1] Hr IH]; intros a.
  - cbn [fold_left List.length]. change (inject_Z (Z.of_nat 0)) with 0%Q. split; lra.
  - cbn [fold_left List.length]. destruct (IH (a + v)%Q) as [Hlo Hhi].
    rewrite Nat2Z.inj_succ, <- Z.add_1_r, inject_Z_plus.
    change (inject_Z 1) with 1%Q. split; lra.
Qed.

Lemma round_percentage (x : Q) : (0 <= x <= 100)%Q -> (0 <= round x <= 100)%Z.
Proof.
  intros [H0 H1]. pose proof (round_nearest x) as H.
  apply Qabs_Qle_condition in H as [Hlo Hhi].
  assert (Ha : (inject_Z (-1) < inject_Z (round x))%Q).
  { change (inject_Z (-1)) with (-1)%Q. lra. }
  assert (Hb : (inject_Z (round x) < inject_Z 101)%Q).
  { change (inject_Z 101) with 101%Q. lra. }
  rewrite <- Zlt_Qlt in Ha, Hb. lia.
Qed.

Lemma positive_scores_in (rows : list Submission) (v : Q) :
  In v (positive_scores rows) ->
  (0 < v)%Q /\ exists s, In s rows /\ ai_score s = Some v.
Proof.
  unfold positive_scores. rewrite filter_In. intros [Hin Hpos].
  apply ltb_lt in Hpos. split; [exact Hpos |].
  apply list_elem_of_In, list_elem_of_omap in Hin as (s & Hs & Hv).
  exists s. split; [now apply list_elem_of_In | exact Hv].
Qed.

(** Property X9.  The overall score is a percentage.  When no score of the user in the
    table exceeds 100, the dashboard shows an overall score between 0 and
    100 with one of the five levels, or no score with the no-data label. *)
Theorem overall_score_is_percentage (today : Z) (table : list Submission)
    (user : Z) :
  (forall (s : Submission) (v : Q),
     In s table -> user_id s = user -> ai_score s = Some v -> (v <= 100)%Q) ->
  exists view,
    dashboard today table user = Return view /\
    match view_overall_score view with
    | Some z =>
        (0 <= z <= 100)%Z /\
        In (view_level view) ["A2"; "B1"; "B2"; "C1"; "C2"]
    | None => view_level view = no_data
    end.
Proof.
  intros Hmax. unfold dashboard, overall_score.
  rewrite collect_scores_app. cbn [app].
  set (quals := positive_scores (recent table user)).
  assert (Hq : Forall (fun v => (0 < v /\ v <= 100)%Q) quals).
  { apply List.Forall_forall. intros v Hv.
    apply positive_scores_in in Hv as (Hpos & s & Hs & Hv).
    split; [exact Hpos |]. unfold recent in Hs.
    apply list_elem_of_In, subseteq_take, list_elem_of_In in Hs.
    rewrite <- (order_by_perm _) in Hs. apply scored_rows in Hs as (Hin & Hu & _).
    eapply Hmax; eassumption. }
  destruct quals as [| v vs] eqn:Hquals.
  - eexists. split; [reflexivity |]. reflexivity.
  - unfold average. rewrite truediv_length by discriminate.
    eexists. split; [reflexivity |]. cbn [view_overall_score view_level level].
    split.
    + apply round_percentage.
      destruct (fold_bounds _ Hq 0%Q) as [Hlo Hhi]. fold (sum (v :: vs)) in Hlo, Hhi.
      set (len := inject_Z (Z.of_nat (List.length (v :: vs)))) in *.
      assert (Hlen : (0 < len)%Q).
      { unfold len. rewrite <- (Zlt_Qlt 0). simpl. lia. }
      split.
      * apply Qle_shift_div_l; [exact Hlen | lra].
      * apply Qle_shift_div_r; [exact Hlen | lra].
    + unfold score_to_level.
      repeat match goal with |- context [ltb ?a ?b] => destruct (ltb a b) end;
        simpl; tauto.
Qed.

Lemma overall_score_is_percentage_witness :
  exists view,
    dashboard 100 streak_table 7 = Return view /\
    match view_overall_score view with
    | Some z =>
        (0 <= z <= 100)%Z /\
        In (view_level view) ["A2"; "B1"; "B2"; "C1"; "C2"]
    | None => view_level view = no_data
    end.
Proof.
  apply overall_score_is_percentage.
  intros s v Hin _ Hv. simpl in Hin.
  repeat (destruct Hin as [<- | Hin];
          [simpl in Hv; try discriminate Hv; injection Hv as <-;
           vm_compute; discriminate |]).
  contradiction.
Defined.
End Percentage.

Section RouteBehaviour.
Import Py Model Judge Listening Routes Spec Examples.

Lemma generate_returns_level (rt : Runtime) (level : string) :
  exists task,
    generate_listening_task rt level = Return task /\ Model.level task = level.
Proof.
  unfold generate_listening_task, attach_audio.
  destruct (get_openai_client rt) as [client |];
    [| rewrite fallback_fixed; eauto].
  destruct (responses_create client (listening_prompt level)) as [r | e];
    cbn -[strip _task_id_for String.append]; [| rewrite fallback_fixed; eauto].
  destruct (loads_listening_task rt r) as [data | e];
    cbn -[strip _task_id_for String.append]; [| rewrite fallback_fixed; eauto].
  destruct (audio_speech_create client _);
    cbn -[strip _task_id_for String.append]; [| eauto].
  destruct (write_bytes rt _ _); cbn -[strip _task_id_for String.append];
    [| eauto].
  destruct (url_for_uploaded_file rt _);
    cbn -[strip _task_id_for String.append]; eauto.
Qed.

Lemma set_session_same (st : State) : set_session (session st) st = st.
Proof. now destruct st. Qed.

(** Property X10.  Showing a listening task.  A GET request always renders the page,
    inserts nothing and leaves in the session a task whose level is one of
    the five labels; repeating the request (without [new=1]) shows the same
    task again, whatever the generator would answer then. *)
Theorem listening_get_shows_one_task (rt : Runtime) (user : Z)
    (args form : gmap string string) (st : State) :
  exists (st' : State) (task : Task),
    listening rt user "GET" args form st
    = Return (Render "listening.html", st') /\
    db st' = db st /\ flashed st' = flashed st /\
    speaking_topic (session st') = speaking_topic (session st) /\
    listening_task (session st') = Some task /\
    In (Model.level task) levels /\
    (args !! "new" <> Some "1" ->
     forall (rt' : Runtime) (user' : Z) (form' : gmap string string),
       listening rt' user' "GET" args form' st'
       = Return (Render "listening.html", st')).
Proof.
  unfold listening. cbn [is_get String.eqb Ascii.eqb Bool.eqb].
  set (level := if bool_decide (_ ∈ levels) then _ else _).
  assert (Hlevel : In level levels).
  { unfold level. case_bool_decide as H; [now apply list_elem_of_In |].
    simpl. tauto. }
  set (s0 := if bool_decide (args !! "new" = Some "1") then _ else session st).
  assert (Htopic : speaking_topic s0 = speaking_topic (session st)).
  { unfold s0. now case_bool_decide. }
  assert (Hrepeat : forall (task : Task) (st' : State),
    listening_task (session st') = Some task ->
    Model.level task = level ->
    args !! "new" <> Some "1" ->
    forall (rt' : Runtime) (user' : Z) (form' : gmap string string),
      listening rt' user' "GET" args form' st'
      = Return (Render "listening.html", st')).
  { intros task st' Ht Hl Hnew rt' user' form'. unfold listening.
    cbn [is_get String.eqb Ascii.eqb Bool.eqb]. fold level.
    rewrite (bool_decide_eq_false_2 _ Hnew), Ht.
    rewrite (bool_decide_eq_true_2 _ Hl). now rewrite set_session_same. }
  destruct (generate_returns_level rt level) as (fresh & Hgen & Hfresh).
  destruct (listening_task s0) as [task |] eqn:Hs0.
  - case_bool_decide as Hsame.
    + exists (set_session s0 st), task. split; [reflexivity |].
      repeat (split; [first [reflexivity | eassumption] |]).
      split; [now rewrite Hsame |]. now apply Hrepeat with task.
    + rewrite Hgen. cbn. eexists _, fresh. split; [reflexivity |].
      repeat (split; [first [reflexivity | eassumption] |]).
      split; [now rewrite Hfresh |]. now apply Hrepeat with fresh.
  - rewrite Hgen. cbn. eexists _, fresh. split; [reflexivity |].
    repeat (split; [first [reflexivity | eassumption] |]).
    split; [now rewrite Hfresh |]. now apply Hrepeat with fresh.
Qed.

Lemma listening_get_shows_one_task_witness :
  exists (st' : State) (task : Task),
    listening offline 7 "GET" {[ "level" := " c1 " ]} ∅ logged_in
    = Return (Render "listening.html", st') /\
    listening_task (session st') = Some task /\
    listening unreachable 7 "GET" {[ "level" := " c1 " ]} ∅ st'
    = Return (Render "listening.html", st').
Proof.
  destruct (listening_get_shows_one_task offline 7 {[ "level" := " c1 " ]} ∅
              logged_in) as (st' & task & Hrun & _ & _ & _ & Ht & _ & Hrep).
  exists st', task. split; [exact Hrun |]. split; [exact Ht |].
  apply Hrep. vm_compute. discriminate.
Defined.

(** Property X11.  Answering a listening task.  A request that is not a GET and finds no
    pending task inserts nothing and flashes the invitation to generate one.
    With a pending task it inserts exactly one LISTENING row, scored by
    [evaluate_listening_answers] on the answers of the form, and removes the
    task from the session, so that the same request sent again is refused. *)
Theorem listening_answered_once (rt : Runtime) (user : Z) (method : string)
    (args form : gmap string string) (st : State) :
  is_get method = false ->
  match listening_task (session st) with
  | None =>
      listening rt user method args form st
      = Return (Redirect "listening",
                flash "No listening task found. Generate a new one first." st)
  | Some task =>
      exists (score : Q) (lines : list string) (row : Submission) (st' : State),
        evaluate_listening_answers task
          (form_answers form (List.length (questions task)))
        = Return (score, lines) /\
        listening rt user method args form st = Return (Redirect "stats", st') /\
        db st' = db st ++ [row] /\
        type row = "LISTENING" /\ user_id row = user /\
        created_at row = utcnow rt /\
        ai_score row = Some score /\
        ai_feedback row = Some (join newline lines) /\
        listening_task (session st') = None /\
        forall (rt' : Runtime) (form' : gmap string string),
          listening rt' user method args form' st'
          = Return (Redirect "listening",
                    flash "No listening task found. Generate a new one first."
                      st')
  end.
Proof.
  intros Hm. unfold listening. rewrite Hm.
  destruct (listening_task (session st)) as [task |] eqn:Ht; [| reflexivity].
  destruct (listening_bounds task (form_answers form (List.length (questions task))))
    as (score & lines & Heval & _).
  rewrite Heval. cbn -[strip upper String.append].
  eexists score, lines, _, _. split; [reflexivity |]. split; [reflexivity |].
  cbn -[strip upper String.append]. repeat (split; [reflexivity |]).
  intros rt' form'. reflexivity.
Qed.

Lemma listening_answered_once_witness :
  exists (row : Submission) (st' : State),
    listening offline 7 "POST" ∅ {[ "q0" := "To a café near her home" ]}
      listening_pending = Return (Redirect "stats", st') /\
    db st' = [row] /\ listening_task (session st') = None.
Proof.
  pose proof (listening_answered_once offline 7 "POST" ∅
                {[ "q0" := "To a café near her home" ]} listening_pending
                eq_refl) as H.
  cbn [listening_pending listening_task session] in H.
  destruct H as (score & lines & row & st' & _ & Hrun & Hdb & _ & _ & _ & _ & _
                 & Hnone & _).
  exists row, st'. split; [exact Hrun |]. split; [exact Hdb | exact Hnone].
Defined.
End RouteBehaviour.

Section SubmissionRoutes.
Import Py Model Judge Listening Routes Spec Examples.

Lemma writing_returns (rt : Runtime) (text : string) :
  exists r, generate_ai_feedback_writing rt text = Return r.
Proof.
  destruct (judge_cases rt (writing_prompt text)) as [H | [[d H] | [e H]]].
  - rewrite writing_offline by exact H. eauto.
  - rewrite (writing_judged _ _ _ H). eauto.
  - rewrite (writing_failed _ _ _ H). eauto.
Qed.

(** Property X12.  Submitting an essay.  A POST whose essay is empty once stripped inserts
    nothing and flashes the invitation to write.  Any other POST inserts
    exactly one WRITING row holding the stripped essay with the score and
    the joined feedback of [generate_ai_feedback_writing], whether the judge
    is missing, fails or answers. *)
Theorem writing_post_persists (rt : Runtime) (user : Z)
    (form : gmap string string) (st : State) :
  let essay := strip (get form "essay" EmptyString) in
  if String.eqb essay EmptyString then
    writing rt user "POST" form st
    = Return (Redirect "writing", flash "Please write something." st)
  else
    exists r : EvaluationResult,
      generate_ai_feedback_writing rt essay = Return r /\
      writing rt user "POST" form st
      = Return
          (Redirect "stats",
           {| session := session st;
              db := db st ++
                    [ {| user_id := user;
                         type := "WRITING";
                         content := Some (Essay essay);
                         created_at := utcnow rt;
                         ai_score := Some (score r);
                         ai_feedback := Some (join newline (feedback r)) |} ];
              flashed := flashed st |}).
Proof.
  intros essay. unfold writing. cbn [is_post String.eqb Ascii.eqb Bool.eqb].
  fold essay. destruct (String.eqb essay EmptyString); [reflexivity |].
  destruct (writing_returns rt essay) as [r Hr]. exists r.
  split; [exact Hr |]. rewrite Hr. reflexivity.
Qed.

Lemma speaking_topic_returns (rt : Runtime) (level : string) :
  exists topic, generate_speaking_topic rt level = Return topic.
Proof.
  destruct (random_choice_member rt topics) as (t & Ht & _); [discriminate |].
  unfold generate_speaking_topic, fallback_speaking_topic.
  destruct (get_openai_client rt) as [client |]; [| eauto].
  destruct (responses_create client (speaking_topic_prompt level)); cbn; [| eauto].
  destruct (loads_topic rt _); cbn; eauto.
Qed.

Lemma transcribe_returns (rt : Runtime) (filepath : string) :
  exists transcript, transcribe_audio_file rt filepath = Return transcript.
Proof.
  unfold transcribe_audio_file.
  destruct (get_openai_client rt) as [client |]; [| eauto].
  destruct (audio_transcriptions_create client filepath);
    cbn -[strip]; eauto.
Qed.

Lemma speaking_returns (rt : Runtime) (transcript : string) :
  exists r, generate_ai_feedback_speaking rt transcript = Return r.
Proof.
  destruct (judge_cases rt (speaking_prompt transcript)) as [H | [[d H] | [e H]]].
  - destruct (speaking_offline rt transcript H) as (r & Hr & _). eauto.
  - rewrite (speaking_judged _ _ _ H). eauto.
  - destruct (speaking_failed rt transcript e H) as (r & Hr & _). eauto.
Qed.

(** Property X13.  Submitting a spoken answer.  When the upload is saved and its address
    built, a POST inserts exactly one SPEAKING row and forgets the topic of
    the session, whatever the transcription and the judge do.  Without a
    transcript (no client, a failed transcription, an empty text) the row has
    the score 0 and the two lines on the failed transcription; with one, it
    has the score and the joined feedback of
    [generate_ai_feedback_speaking]. *)
Theorem speaking_post_persists (rt : Runtime) (user : Z)
    (args form : gmap string string) (audio : Upload) (st : State) :
  let name :=
    "speaking_" +:+ str_of_Z user +:+ "_" +:+ utcnow_stamp rt +:+ "_"
      +:+ secure_name audio in
  filename audio <> EmptyString ->
  (exists u, write_bytes rt name (data audio) = Return u) ->
  (exists url, url_for_uploaded_file rt name = Return url) ->
  exists (transcript : option string) (row : Submission) (st' : State),
    transcribe_audio_file rt name = Return transcript /\
    speaking rt user "POST" args form (Some audio) st
    = Return (Redirect "stats", st') /\
    db st' = db st ++ [row] /\ flashed st' = flashed st /\
    speaking_topic (session st') = None /\
    listening_task (session st') = listening_task (session st) /\
    type row = "SPEAKING" /\ user_id row = user /\ created_at row = utcnow rt /\
    match transcript with
    | Some (String c t) =>
        exists r,
          generate_ai_feedback_speaking rt (String c t) = Return r /\
          ai_score row = Some (score r) /\
          ai_feedback row = Some (join newline (feedback r))
    | _ =>
        ai_score row = Some 0%Q /\
        ai_feedback row
        = Some ("Speaking feedback unavailable because transcription failed."
                  +:+ newline +:+
                "If you see 'insufficient_quota' in the terminal, enable OpenAI billing/credits.")
    end.
Proof.
  intros name Hname [u Hw] [url Hurl].
  destruct (transcribe_returns rt name) as [transcript Ht].
  destruct (speaking_topic_returns rt "B1") as [fresh Hfresh].
  unfold speaking. cbn [is_post is_get String.eqb Ascii.eqb Bool.eqb andb].
  assert (Hne : String.eqb (filename audio) EmptyString = false).
  { now apply String.eqb_neq. }
  rewrite Hne. fold name.
  assert (Hrow : forall (topic : Topic) (s : Session),
    listening_task s = listening_task (session st) ->
    exists (row : Submission) (st' : State),
      (_ ← write_bytes rt name (data audio);
       url ← url_for_uploaded_file rt name;
       transcript ← transcribe_audio_file rt name;
       scored ←
         (if truthy transcript then
            ai ← generate_ai_feedback_speaking rt (default EmptyString transcript);
            mret (score ai, join newline (feedback ai))
          else
            mret (0%Q,
                  "Speaking feedback unavailable because transcription failed."
                    +:+ newline +:+
                  "If you see 'insufficient_quota' in the terminal, enable OpenAI billing/credits."));
       let submission :=
         {| user_id := user;
            type := "SPEAKING";
            content :=
              Some (SpeakingPayload topic ("uploads/" +:+ name) url
                      (mimetype audio) (strip (get form "notes" EmptyString))
                      transcript);
            created_at := utcnow rt;
            ai_score := Some (fst scored);
            ai_feedback := Some (snd scored) |} in
       let st0 := insert submission (set_session s st) in
       mret (Redirect "stats",
             set_session
               {| speaking_topic := None;
                  listening_task := listening_task (session st0) |} st0))
      = Return (Redirect "stats", st') /\
      db st' = db st ++ [row] /\ flashed st' = flashed st /\
      speaking_topic (session st') = None /\
      listening_task (session st') = listening_task (session st) /\
      type row = "SPEAKING" /\ user_id row = user /\ created_at row = utcnow rt /\
      match transcript with
      | Some (String c t) =>
          exists r,
            generate_ai_feedback_speaking rt (String c t) = Return r /\
            ai_score row = Some (score r) /\
            ai_feedback row = Some (join newline (feedback r))
      | _ =>
          ai_score row = Some 0%Q /\
          ai_feedback row
          = Some ("Speaking feedback unavailable because transcription failed."
                    +:+ newline +:+
                  "If you see 'insufficient_quota' in the terminal, enable OpenAI billing/credits.")
      end).
  { intros topic s Hs. rewrite Hw, Hurl, Ht. cbn -[strip String.append].
    destruct transcript as [[| c t] |]; cbn -[strip String.append].
    - eexists _, _. split; [reflexivity |]. cbn -[strip String.append].
      repeat (split; [first [reflexivity | exact Hs] |]). split; reflexivity.
    - destruct (speaking_returns rt (String c t)) as [r Hr]. rewrite Hr.
      cbn -[strip String.append].
      eexists _, _. split; [reflexivity |]. cbn -[strip String.append].
      repeat (split; [first [reflexivity | exact Hs] |]).
      exists r. repeat split; reflexivity.
    - eexists _, _. split; [reflexivity |]. cbn -[strip String.append].
      repeat (split; [first [reflexivity | exact Hs] |]). split; reflexivity. }
  destruct (speaking_topic (session st)) as [topic |] eqn:Htopic.
  - cbn -[strip String.append].
    destruct (Hrow topic (session st) eq_refl) as (row & st' & Hrun & H).
    exists transcript, row, st'. split; [exact Ht |]. split; [exact Hrun | exact H].
  - rewrite Hfresh. cbn -[strip String.append].
    destruct (Hrow fresh {| speaking_topic := Some fresh;
                            listening_task := listening_task (session st) |}
                eq_refl) as (row & st' & Hrun & H).
    exists transcript, row, st'. split; [exact Ht |]. split; [exact Hrun | exact H].
Qed.

Lemma speaking_post_persists_witness :
  exists (row : Submission) (st' : State),
    speaking unreachable 7 "POST" ∅ ∅ (Some recording) logged_in
    = Return (Redirect "stats", st') /\
    db st' = [row] /\ ai_score row = Some 0%Q.
Proof.
  destruct (speaking_post_persists unreachable 7 ∅ ∅ recording logged_in)
    as (transcript & row & st' & Ht & Hrun & Hdb & _ & _ & _ & _ & _ & _ & Hrow).
  - discriminate.
  - exists tt. reflexivity.
  - eexists. reflexivity.
  - exists row, st'. split; [exact Hrun |]. split; [exact Hdb |].
    assert (Hnone : transcript = None).
    { vm_compute in Ht. congruence. }
    rewrite Hnone in Hrow. apply Hrow.
Defined.
End SubmissionRoutes.

Section PlannerWeek.
Import Py Planner Notions.

Lemma week_window (today d : Z) :
  (week_start today <= d <= week_end today)%Z <-> week_start d = week_start today.
Proof. unfold week_end, week_start, weekday. Z.div_mod_to_equations. lia. Qed.

Lemma fold_add (l : list Z) (a : Z) :
  fold_left Z.add l a = (a + fold_right Z.add 0 l)%Z.
Proof.
  revert a. induction l as [| x r IH]; intros a; simpl; [lia |].
  rewrite IH. lia.
Qed.

Lemma week_entries_same_week (today : Z) (entries : list PlannerEntry) (user : Z) :
  week_entries today entries user = List.filter (same_week today user) entries.
Proof.
  unfold week_entries, of_user, same_week.
  induction entries as [| e r IH]; [reflexivity |]. simpl.
  destruct (user_id e =? user)%Z; simpl; [| exact IH].
  destruct (week_start today <=? date e)%Z eqn:H1; simpl.
  - destruct (date e <=? week_end today)%Z eqn:H2.
    + rewrite (proj2 (Z.eqb_eq _ _)); [now rewrite IH |].
      apply week_window. lia.
    + rewrite (proj2 (Z.eqb_neq _ _)); [exact IH |].
      rewrite <- week_window. lia.
  - rewrite (proj2 (Z.eqb_neq _ _)); [exact IH |].
    rewrite <- week_window. lia.
Qed.

Lemma weekly_minutes_sum (today : Z) (entries : list PlannerEntry) (user : Z) :
  weekly_minutes today entries user
  = fold_right Z.add 0%Z
      (List.map minutes (List.filter (same_week today user) entries)).
Proof.
  unfold weekly_minutes. rewrite week_entries_same_week.
  destruct (List.filter (same_week today user) entries) as [| e r];
    [reflexivity |].
  rewrite fold_add. lia.
Qed.

(** Property X14.  The weekly total.  The week of the dashboard starts on a Monday, lasts
    seven days and contains today.  The total is the sum of the minutes of
    the entries of the user dated in that week, and saving one more entry
    adds its minutes to the total when it is of the user and of that week,
    and changes nothing otherwise. *)
Theorem weekly_minutes_of_week (today : Z) (entries : list PlannerEntry)
    (user : Z) :
  weekday (week_start today) = 0%Z /\
  (week_start today <= today <= week_end today)%Z /\
  week_end today = (week_start today + 6)%Z /\
  weekly_minutes today entries user
  = fold_right Z.add 0%Z
      (List.map minutes (List.filter (same_week today user) entries)) /\
  (forall e : PlannerEntry,
     In e (List.filter (same_week today user) entries) <->
     In e entries /\ user_id e = user /\
     (week_start today <= date e <= week_end today)%Z) /\
  (forall e : PlannerEntry,
     weekly_minutes today (entries ++ [e]) user
     = (weekly_minutes today entries user
        + (if same_week today user e then minutes e else 0))%Z).
Proof.
  split; [unfold week_start, weekday; Z.div_mod_to_equations; lia |].
  split; [unfold week_end, week_start, weekday; Z.div_mod_to_equations; lia |].
  split; [reflexivity |]. split; [apply weekly_minutes_sum |]. split.
  - intros e. rewrite filter_In. unfold same_week.
    rewrite andb_true_iff, !Z.eqb_eq, week_window. tauto.
  - intros e. rewrite !weekly_minutes_sum, List.filter_app, map_app, fold_right_app.
    simpl. destruct (same_week today user e); simpl.
    + generalize (List.map minutes (List.filter (same_week today user) entries)).
      intros l. induction l as [| x r IH]; simpl; lia.
    + lia.
Qed.

Lemma weekly_minutes_of_week_witness :
  weekly_minutes 10 Samples.planned 7 = 45%Z /\
  weekly_minutes 10
    (Samples.planned ++
     [{| user_id := 7; date := 14; activity := "Writing"; minutes := 25 |}]) 7
  = (weekly_minutes 10 Samples.planned 7 + 25)%Z.
Proof.
  split; [reflexivity |].
  exact (proj2 (proj2 (proj2 (proj2 (proj2
           (weekly_minutes_of_week 10 Samples.planned 7)))))
           {| user_id := 7; date := 14; activity := "Writing"; minutes := 25 |}).
Defined.
End PlannerWeek.

Section PlannerWindow.
Import Py Planner Notions.

Lemma window_flag (today : Z) (days : gset Z) (d : Z) :
  (today - 6 <= d <= today)%Z ->
  In (d, bool_decide (d ∈ days)) (streak_window today days).
Proof.
  intros H. unfold streak_window.
  assert (Hk : exists k : nat, (k <= 6)%nat /\ d = (today - Z.of_nat k)%Z).
  { exists (Z.to_nat (today - d)). lia. }
  destruct Hk as (k & Hk & ->). apply in_map_iff. exists k. split; [reflexivity |].
  simpl. lia.
Qed.

(** Property X15.  The window of the streak.  It lists the seven days that end today in
    order, each marked done exactly when the user has a submission on it.
    It agrees with the streak: the days of the run that the streak counts
    are marked done where they fall in the window, and the day before the
    run is marked not done. *)
Theorem streak_window_shows_streak (today : Z) (table : list Model.Submission)
    (user : Z) :
  let days := Dashboard.practiced_days (Dashboard.of_user user table) in
  let window := dashboard_window today table user in
  List.map fst window
  = [ (today - 6)%Z; (today - 5)%Z; (today - 4)%Z; (today - 3)%Z;
      (today - 2)%Z; (today - 1)%Z; today ] /\
  (forall (d : Z) (done : bool),
     In (d, done) window ->
     (done = true <->
      exists s, In s table /\ Model.user_id s = user /\
                Model.date (Model.created_at s) = d)) /\
  exists n : nat,
    Dashboard.streak today table user = Some n /\
    (forall k : nat,
       (k < n)%nat ->
       (today - 6 <= Dashboard.anchor today days - Z.of_nat k)%Z ->
       In ((Dashboard.anchor today days - Z.of_nat k)%Z, true) window) /\
    ((today - 6 <= Dashboard.anchor today days - Z.of_nat n)%Z ->
     In ((Dashboard.anchor today days - Z.of_nat n)%Z, false) window).
Proof.
  intros days window.
  assert (Hw : window = streak_window today days).
  { unfold window, dashboard_window, days.
    now rewrite <- (practiced_days_perm _ _ (order_by_perm _)). }
  rewrite Hw. split; [| split].
  - unfold streak_window. simpl. now rewrite Z.sub_0_r.
  - intros d done Hin. unfold streak_window in Hin.
    apply in_map_iff in Hin as (k & [= <- <-] & _).
    rewrite bool_decide_eq_true. unfold days.
    rewrite practiced_days_spec. unfold Dashboard.of_user. split.
    + intros (s & Hs & Hd). apply filter_In in Hs as [Hs Hu].
      apply Z.eqb_eq in Hu. eauto.
    + intros (s & Hs & Hu & Hd). exists s. split; [| exact Hd].
      apply filter_In. split; [exact Hs | now apply Z.eqb_eq].
  - destruct (streak_run today table user) as (n & Hn & Hall & Hstop).
    fold days in Hall, Hstop. exists n. split; [exact Hn |].
    assert (Hle : (Dashboard.anchor today days <= today)%Z).
    { unfold Dashboard.anchor. case_bool_decide; lia. }
    split.
    + intros k Hk Hlo. specialize (Hall k Hk).
      rewrite <- (bool_decide_eq_true_2 _ Hall). apply window_flag. lia.
    + intros Hlo. rewrite <- (bool_decide_eq_false_2 _ Hstop).
      apply window_flag. lia.
Qed.

Lemma streak_window_shows_streak_witness :
  In (99%Z, true) (dashboard_window 100 Examples.streak_table 7) /\
  In (97%Z, false) (dashboard_window 100 Examples.streak_table 7).
Proof.
  destruct (streak_window_shows_streak 100 Examples.streak_table 7)
    as (_ & _ & n & Hn & Hdone & Hgap).
  assert (Hrun : n = 3%nat).
  { vm_compute in Hn. congruence. }
  subst n. split.
  - apply (Hdone 1%nat); [lia |]. vm_compute. discriminate.
  - apply Hgap. vm_compute. discriminate.
Defined.

Lemma insert_asc_perm (e : PlannerEntry) (rows : list PlannerEntry) :
  Permutation (e :: rows) (insert_asc e rows).
Proof.
  induction rows as [| x r IH]; simpl; [reflexivity |].
  destruct (date e <=? date x)%Z; [reflexivity |].
  rewrite perm_swap. now constructor.
Qed.

Lemma order_by_date_perm (rows : list PlannerEntry) :
  Permutation rows (order_by_date_asc rows).
Proof.
  induction rows as [| e r IH]; simpl; [constructor |].
  rewrite <- insert_asc_perm. now constructor.
Qed.

Lemma insert_asc_head (e : PlannerEntry) (rows : list PlannerEntry) (m : Z) :
  (forall x, head rows = Some x -> (m <= date x)%Z) ->
  (m <= date e)%Z ->
  forall x, head (insert_asc e rows) = Some x -> (m <= date x)%Z.
Proof.
  intros Hrows He x. destruct rows as [| y r]; simpl.
  - now intros [= <-].
  - destruct (date e <=? date y)%Z; simpl; intros [= <-]; [exact He |].
    now apply Hrows.
Qed.

Lemma order_by_date_head (rows : list PlannerEntry) (x : PlannerEntry) :
  head (order_by_date_asc rows) = Some x ->
  forall e, In e rows -> (date x <= date e)%Z.
Proof.
  revert x. induction rows as [| y r IH]; intros x Hx e He; [contradiction |].
  simpl in Hx. destruct (order_by_date_asc r) as [| z t] eqn:Hsort.
  - simpl in Hx. injection Hx as <-.
    assert (r = []).
    { apply Permutation_nil. now rewrite (order_by_date_perm r), Hsort. }
    subst r. destruct He as [<- | []]. lia.
  - simpl in Hx. specialize (IH z eq_refl).
    destruct (date y <=? date z)%Z eqn:Hc; injection Hx as <-.
    + apply Z.leb_le in Hc. destruct He as [<- | He]; [lia |].
      specialize (IH e He). lia.
    + apply Z.leb_gt in Hc. destruct He as [<- | He]; [lia |].
      now apply IH.
Qed.

(** Property X16.  The next session.  The dashboard announces an entry of the user that is
    dated today or later and that no other such entry precedes; it announces
    none exactly when every entry of the user is in the past. *)
Theorem next_entry_is_earliest (today : Z) (entries : list PlannerEntry)
    (user : Z) :
  match next_entry today entries user with
  | Some e =>
      In e entries /\ user_id e = user /\ (today <= date e)%Z /\
      forall e', In e' entries -> user_id e' = user -> (today <= date e')%Z ->
                 (date e <= date e')%Z
  | None =>
      forall e', In e' entries -> user_id e' = user -> (date e' < today)%Z
  end.
Proof.
  unfold next_entry.
  set (coming := List.filter (fun e => (today <=? date e)%Z) (of_user user entries)).
  assert (Hcoming : forall e, In e coming <->
            In e entries /\ user_id e = user /\ (today <= date e)%Z).
  { intros e. unfold coming, of_user. rewrite !filter_In, Z.eqb_eq, Z.leb_le.
    tauto. }
  destruct (head (order_by_date_asc coming)) as [e |] eqn:Hhead.
  - assert (Hin : In e coming).
    { rewrite (order_by_date_perm coming).
      destruct (order_by_date_asc coming); [discriminate |].
      injection Hhead as <-. now left. }
    apply Hcoming in Hin as (H1 & H2 & H3). repeat (split; [assumption |]).
    intros e' He' Hu Ht. apply (order_by_date_head _ _ Hhead).
    apply Hcoming. tauto.
  - intros e' He' Hu. destruct (Z.lt_ge_cases (date e') today) as [H | H];
      [exact H | exfalso].
    assert (Hin : In e' coming) by (apply Hcoming; tauto).
    rewrite (order_by_date_perm coming) in Hin.
    destruct (order_by_date_asc coming); [contradiction | discriminate].
Qed.

Lemma next_entry_is_earliest_witness :
  next_entry 10 Samples.planned 7
  = Some {| user_id := 7; date := 12; activity := "Writing"; minutes := 30 |} /\
  (12 <= 15)%Z.
Proof.
  assert (H : next_entry 10 Samples.planned 7
              = Some {| user_id := 7; date := 12; activity := "Writing";
                        minutes := 30 |}) by reflexivity.
  split; [exact H |].
  pose proof (next_entry_is_earliest 10 Samples.planned 7) as Hnext.
  rewrite H in Hnext. destruct Hnext as (_ & _ & _ & Hmin).
  apply (Hmin {| user_id := 7; date := 15; activity := "Listening";
                 minutes := 20 |}).
  - simpl. tauto.
  - reflexivity.
  - simpl. lia.
Defined.
End PlannerWindow.

Section Statistics.
Import Py Model Stats Spec Notions Examples.

Lemma count_lookup (counts : gmap string nat) (sub : Submission) (t : string) :
  get (count counts sub) t 0%nat
  = (get counts t 0 + (if String.eqb (type sub) t then 1 else 0))%nat.
Proof.
  unfold count, get. destruct (String.eqb_spec (type sub) t) as [<- | Hne].
  - now rewrite lookup_insert_eq.
  - rewrite lookup_insert_ne by exact Hne. lia.
Qed.

Lemma counts_lookup (subs : list Submission) (t : string) :
  forall counts : gmap string nat,
    get (fold_left count subs counts) t 0%nat
    = (get counts t 0 + of_type t subs)%nat.
Proof.
  unfold of_type. induction subs as [| sub r IH]; intros counts; simpl; [lia |].
  rewrite IH, count_lookup. destruct (String.eqb (type sub) t); simpl; lia.
Qed.

Lemma counts_dom (subs : list Submission) (t : string) :
  forall counts : gmap string nat,
    is_Some (fold_left count subs counts !! t) <->
    is_Some (counts !! t) \/ exists sub, In sub subs /\ type sub = t.
Proof.
  induction subs as [| sub r IH]; intros counts; simpl.
  - split; [tauto | intros [H | (x & [] & _)]; exact H].
  - rewrite IH. unfold count. destruct (decide (type sub = t)) as [<- | Hne].
    + rewrite lookup_insert_eq. split; [| eauto]. intros _. right. eauto.
    + rewrite lookup_insert_ne by exact Hne. split.
      * intros [H | (x & Hx & Ht)]; [tauto | right; eauto].
      * intros [H | (x & [<- | Hx] & Ht)]; [tauto | contradiction | right; eauto].
Qed.

Lemma no_counts_zero (t : string) : get no_counts t 0%nat = 0%nat.
Proof.
  unfold get, no_counts.
  destruct (decide (t = "WRITING")) as [-> | H1]; [reflexivity |].
  destruct (decide (t = "SPEAKING")) as [-> | H2]; [reflexivity |].
  destruct (decide (t = "LISTENING")) as [-> | H3]; [reflexivity |].
  rewrite !lookup_insert_ne by congruence. now rewrite lookup_empty.
Qed.

Lemma partition_types (subs : list Submission) :
  Forall (fun sub => In (type sub) ["WRITING"; "SPEAKING"; "LISTENING"]) subs ->
  (of_type "WRITING" subs + of_type "SPEAKING" subs + of_type "LISTENING" subs)%nat
  = List.length subs.
Proof.
  unfold of_type. induction 1 as [| sub r Hsub Hr IH]; [reflexivity |].
  simpl in Hsub. simpl.
  destruct Hsub as [<- | [<- | [<- | []]]]; simpl; lia.
Qed.

(** Property X17.  The statistics page.  The counter of each type is the number of the
    submissions of the user that have it; the three types of the pipeline
    always have a counter, another type has one only if a submission carries
    it.  The rows shown are the submissions of the user, each once, latest
    first, and a WRITING row has no decoded data.  When every submission has
    one of the three types, the three counters add up to their number. *)
Theorem stats_counts_submissions (loads : string -> outcome Content)
    (table : list Submission) (user : Z) :
  let subs := Dashboard.of_user user table in
  let '(rows, counts) := stats loads table user in
  (forall t : string, get counts t 0%nat = of_type t subs) /\
  (forall t : string,
     is_Some (counts !! t) <->
     In t ["WRITING"; "SPEAKING"; "LISTENING"] \/
     exists sub, In sub subs /\ type sub = t) /\
  Permutation subs (List.map s rows) /\
  StronglySorted later_first (List.map s rows) /\
  (forall row, In row rows -> type (s row) = "WRITING" -> data row = None) /\
  (Forall (fun sub => In (type sub) ["WRITING"; "SPEAKING"; "LISTENING"]) subs ->
   (get counts "WRITING" 0 + get counts "SPEAKING" 0 + get counts "LISTENING" 0)%nat
   = List.length rows).
Proof.
  intros subs. unfold stats. fold subs.
  assert (Hs : List.map s (List.map (prepare loads)
                             (Dashboard.order_by_created_at_desc subs))
               = Dashboard.order_by_created_at_desc subs).
  { rewrite List.map_map. unfold prepare. simpl. apply map_id. }
  split; [| split; [| split; [| split; [| split]]]].
  - intros t. now rewrite counts_lookup, no_counts_zero.
  - intros t. rewrite counts_dom. unfold no_counts.
    rewrite !lookup_insert_is_Some', lookup_empty, is_Some_alt. simpl.
    intuition congruence.
  - rewrite Hs. apply order_by_perm.
  - rewrite Hs. apply order_by_sorted.
  - intros row Hrow Ht. apply in_map_iff in Hrow as (sub & <- & _).
    unfold prepare in *. simpl in *. rewrite Ht. reflexivity.
  - intros Htypes. rewrite !counts_lookup, length_map.
    rewrite <- (Permutation_length (order_by_perm subs)).
    rewrite !no_counts_zero. simpl. now apply partition_types.
Qed.

Lemma stats_counts_submissions_witness :
  let '(rows, counts) := stats (fun _ => Raise key_error) streak_table 7 in
  (get counts "WRITING" 0 + get counts "SPEAKING" 0 + get counts "LISTENING" 0)%nat
  = List.length rows.
Proof.
  pose proof (stats_counts_submissions (fun _ => Raise key_error) streak_table 7)
    as H.
  destruct (stats (fun _ => Raise key_error) streak_table 7) as [rows counts].
  apply H. vm_compute. repeat constructor.
Defined.
End Statistics.

Section Accounts.
Import Py Auth Notions.

Lemma find_user_email (e : string) (us : list User) (u : User) :
  find_user e us = Some u -> In u us /\ email u = e.
Proof.
  unfold find_user. intros H. apply find_some in H as [Hin Heq].
  split; [exact Hin | now apply String.eqb_eq].
Qed.

Lemma find_user_none (e : string) (us : list User) :
  find_user e us = None <-> ~ In e (List.map email us).
Proof.
  unfold find_user. induction us as [| u r IH]; simpl; [tauto |].
  destruct (String.eqb_spec (email u) e) as [Heq | Hne].
  - split; [discriminate | intros H; exfalso; apply H; now left].
  - rewrite IH. tauto.
Qed.

Lemma next_id_fresh (us : list User) :
  forall u, In u us -> (id u < next_id us)%Z.
Proof.
  unfold next_id. induction us as [| x r IH]; intros u Hu; [contradiction |].
  simpl. destruct Hu as [<- | Hu]; [lia |]. specialize (IH u Hu). lia.
Qed.

(** Property X18.  Sign-up never duplicates an account.  Emails and keys that are pairwise
    distinct stay so.  Either the table of users is left as it is, or one
    user is appended whose email, the lower-cased email of the form, was not
    registered, whose key is new and whose hash is that of the password of
    the form; the session is then that of the new user. *)
Theorem signup_keeps_accounts_unique (env : Env) (method : string)
    (form : gmap string string) (st : Store) :
  NoDup (List.map email (users st)) ->
  NoDup (List.map id (users st)) ->
  let st' := snd (signup env method form st) in
  NoDup (List.map email (users st')) /\
  NoDup (List.map id (users st')) /\
  reset_tokens st' = reset_tokens st /\
  (users st' = users st \/
   exists u : User,
     users st' = users st ++ [u] /\
     email u = lower env (get form "email" EmptyString) /\
     password_hash u
     = generate_password_hash env (get form "password" EmptyString) /\
     ~ In (email u) (List.map email (users st)) /\
     user_email st' = Some (email u)).
Proof.
  intros He Hi. unfold signup.
  destruct (current_user st); [cbn; auto |].
  destruct (is_post method); [| cbn; auto].
  destruct (find_user _ (users st)) eqn:Hf; [cbn; auto |].
  cbn. apply find_user_none in Hf.
  split; [| split; [| split; [reflexivity |]]].
  - rewrite map_app. simpl. apply NoDup_app. split; [exact He |].
    split; [| apply NoDup_singleton].
    intros x Hx Hx'. apply list_elem_of_In in Hx.
    apply list_elem_of_singleton in Hx'. subst x. contradiction.
  - rewrite map_app. simpl. apply NoDup_app. split; [exact Hi |].
    split; [| apply NoDup_singleton].
    intros x Hx Hx'. apply list_elem_of_In, in_map_iff in Hx as (u & <- & Hu).
    apply list_elem_of_singleton in Hx'.
    pose proof (next_id_fresh _ _ Hu). lia.
  - right. eexists. split; [reflexivity |]. cbn. auto.
Qed.

Lemma signup_keeps_accounts_unique_witness :
  let st' :=
    snd (signup Samples.plain "POST"
           {[ "email" := "Ana@Example.org"; "password" := "tea" ]}
           Samples.nobody) in
  NoDup (List.map email (users st')) /\ NoDup (List.map id (users st')).
Proof.
  assert (H1 : NoDup (List.map email (users Samples.nobody)))
    by (vm_compute; repeat constructor; set_solver).
  assert (H2 : NoDup (List.map id (users Samples.nobody)))
    by (vm_compute; repeat constructor; set_solver).
  destruct (signup_keeps_accounts_unique Samples.plain "POST"
              {[ "email" := "Ana@Example.org"; "password" := "tea" ]}
              Samples.nobody H1 H2) as (Ha & Hb & _).
  split; [exact Ha | exact Hb].
Defined.

(** Property X19.  Login checks the password.  The route leaves the tables as they are.  It
    changes the user of the session only to the email of a registered user
    whose email is the lower-cased email of the form and whose stored hash
    accepts the password of the form; and after a logout nobody is the
    current user. *)
Theorem login_checks_password (env : Env) (method : string)
    (form : gmap string string) (st : Store) :
  let st' := snd (login env method form st) in
  users st' = users st /\ reset_tokens st' = reset_tokens st /\
  (user_email st' = user_email st \/
   exists u : User,
     In u (users st) /\
     email u = lower env (get form "email" EmptyString) /\
     check_password_hash env (password_hash u)
       (get form "password" EmptyString) = true /\
     user_email st' = Some (email u) /\
     fst (login env method form st) = Redirect "dashboard") /\
  current_user (snd (logout st')) = None.
Proof.
  unfold login, logout.
  destruct (current_user st); [cbn; auto |].
  destruct (is_post method); [| cbn; auto].
  destruct (find_user _ (users st)) as [u |] eqn:Hf; [| cbn; auto].
  destruct (check_password_hash env _ _) eqn:Hc; [| cbn; auto].
  cbn. apply find_user_email in Hf as [Hin He].
  repeat (split; [reflexivity |]). split; [| reflexivity].
  right. exists u. auto.
Qed.
End Accounts.

Section PasswordReset.
Import Py Auth Notions.

Lemma find_live_fresh (t : string) (ts : list PasswordResetToken)
    (r : PasswordResetToken) :
  existsb (fun x => String.eqb (token x) t) ts = false ->
  token r = t -> used r = false ->
  List.find (live t) (ts ++ [r]) = Some r.
Proof.
  intros Hts Ht Hu. induction ts as [| x rest IH]; simpl in *.
  - unfold live. rewrite Ht, String.eqb_refl, Hu. reflexivity.
  - apply orb_false_iff in Hts as [Hx Hrest]. unfold live at 1. rewrite Hx.
    simpl. now apply IH.
Qed.

(** Property X20.  Asking for a reset link.  A POST never changes the users or the session.
    When it ends without an exception, it answers with the same redirection
    and the same message whether or not the email is registered.  For an
    unknown email nothing else changes; for a registered one a fresh, unused
    token that expires one hour later is appended, and the page of that
    token is shown by [reset_password] up to that hour and refused after
    it.  An exception can end the request only for a registered email. *)
Theorem forgot_password_is_uniform (env : Env) (form : gmap string string)
    (st : Store) :
  let email_ := strip (lower env (get form "email" EmptyString)) in
  let '(result, st') := forgot_password env "POST" form st in
  users st' = users st /\ user_email st' = user_email st /\
  match result with
  | Return resp =>
      resp = Redirect "login" /\
      flashed st'
      = flashed st ++ ["If that email exists, a reset link has been sent."] /\
      match find_user email_ (users st) with
      | None => reset_tokens st' = reset_tokens st /\ sent st' = sent st
      | Some _ =>
          reset_tokens st'
          = reset_tokens st ++
            [ {| reset_email := email_; token := urandom_hex env;
                 expires_at := (utcnow env + 3600)%Z; used := false |} ] /\
          forall (env' : Env) (form' : gmap string string),
            reset_password env' "GET" (urandom_hex env) form' st'
            = if (utcnow env' <=? utcnow env + 3600)%Z
              then (Render "reset_password.html", st')
              else (Redirect "login",
                    flash "Invalid or expired reset link." st')
      end
  | Raise _ => find_user email_ (users st) <> None /\ flashed st' = flashed st
  end.
Proof.
  intros email_. unfold forgot_password.
  cbn [is_post String.eqb Ascii.eqb Bool.eqb]. fold email_.
  destruct (find_user email_ (users st)) as [u |] eqn:Hf;
    [| cbn; repeat (split; [reflexivity |]); reflexivity].
  destruct (existsb _ (reset_tokens st)) eqn:Hex.
  - split; [reflexivity |]. split; [reflexivity |].
    split; [discriminate | reflexivity].
  - unfold send_reset_email.
    assert (Hshow : forall (st' : Store),
      reset_tokens st'
      = reset_tokens st ++
        [ {| reset_email := email_; token := urandom_hex env;
             expires_at := (utcnow env + 3600)%Z; used := false |} ] ->
      forall (env' : Env) (form' : gmap string string),
        reset_password env' "GET" (urandom_hex env) form' st'
        = if (utcnow env' <=? utcnow env + 3600)%Z
          then (Render "reset_password.html", st')
          else (Redirect "login", flash "Invalid or expired reset link." st')).
    { intros st' Hts env' form'. unfold reset_password. rewrite Hts.
      rewrite (find_live_fresh (urandom_hex env) (reset_tokens st)
                 {| reset_email := email_; token := urandom_hex env;
                    expires_at := (utcnow env + 3600)%Z; used := false |}
                 Hex eq_refl eq_refl).
      cbn [expires_at is_post String.eqb Ascii.eqb Bool.eqb].
      destruct (utcnow env' <=? utcnow env + 3600)%Z eqn:Hle.
      - apply Z.leb_le in Hle. rewrite (proj2 (Z.ltb_ge _ _)) by lia. reflexivity.
      - apply Z.leb_gt in Hle. rewrite (proj2 (Z.ltb_lt _ _)) by lia. reflexivity. }
    destruct (email_configured env).
    + destruct (smtp_send env email_ _) as [[] | e]; cbn.
      * repeat (split; [reflexivity |]). apply Hshow. reflexivity.
      * repeat (split; [reflexivity |]). split; [discriminate | reflexivity].
    + cbn. repeat (split; [reflexivity |]). apply Hshow. reflexivity.
Qed.

Lemma update_first_emails (e h : string) (us : list User) :
  List.map email
    (update_first (fun u => String.eqb (email u) e)
       (fun u => {| id := id u; email := email u; password_hash := h;
                    name := name u |}) us)
  = List.map email us.
Proof.
  induction us as [| u r IH]; [reflexivity |]. simpl.
  destruct (String.eqb (email u) e); simpl; [reflexivity | now rewrite IH].
Qed.

Lemma update_first_find (e h : string) (us : list User) (u : User) :
  find_user e us = Some u ->
  find_user e
    (update_first (fun u => String.eqb (email u) e)
       (fun u => {| id := id u; email := email u; password_hash := h;
                    name := name u |}) us)
  = Some {| id := id u; email := email u; password_hash := h; name := name u |}.
Proof.
  unfold find_user. induction us as [| x r IH]; [discriminate |]. simpl.
  destruct (String.eqb (email x) e) eqn:Hx; simpl.
  - intros [= <-]. now rewrite Hx.
  - rewrite Hx. exact IH.
Qed.

Lemma find_nothing {A : Type} (f : A -> bool) (l : list A) :
  (forall x, In x l -> f x = false) -> List.find f l = None.
Proof.
  induction l as [| x r IH]; intros H; [reflexivity |]. simpl.
  rewrite (H x) by (now left). apply IH. intros y Hy. apply H. now right.
Qed.

Lemma used_first_dead (t : string) (ts : list PasswordResetToken) :
  NoDup (List.map token ts) ->
  List.find (live t)
    (update_first (live t)
       (fun r => {| reset_email := reset_email r; token := token r;
                    expires_at := expires_at r; used := true |}) ts)
  = None.
Proof.
  induction ts as [| r rest IH]; intros Hnd; [reflexivity |].
  simpl in Hnd. apply NoDup_cons in Hnd as [Hr Hrest]. simpl.
  destruct (live t r) eqn:Hl; simpl.
  - unfold live at 1. simpl. rewrite andb_false_r.
    apply find_nothing. intros x Hx. unfold live.
    apply andb_true_iff in Hl as [Ht _]. apply String.eqb_eq in Ht.
    destruct (String.eqb_spec (token x) t) as [Hxt | Hne]; [| reflexivity].
    exfalso. apply Hr. rewrite Ht, <- Hxt. apply list_elem_of_In, in_map, Hx.
  - rewrite Hl. now apply IH.
Qed.

Lemma update_first_tokens (t : string) (ts : list PasswordResetToken) :
  List.map token
    (update_first (live t)
       (fun r => {| reset_email := reset_email r; token := token r;
                    expires_at := expires_at r; used := true |}) ts)
  = List.map token ts.
Proof.
  induction ts as [| r rest IH]; [reflexivity |]. simpl.
  destruct (live t r); simpl; [reflexivity | now rewrite IH].
Qed.

(** Property X21.  A reset link works once.  With pairwise distinct tokens, a POST that
    finds an unused token that has not expired, a password that is not empty
    once stripped and the account of the token gives that account the hash
    of the stripped password, keeps the emails and the tokens of the tables,
    and marks the token used: every later request with the same token, at
    any time, is refused and changes nothing but the flashed message.  A
    login with the email of the account and the stripped password then
    opens the session, provided the hashing accepts its own hash. *)
Theorem reset_link_works_once (env : Env) (t : string)
    (form : gmap string string) (st : Store) (r : PasswordResetToken) (u : User) :
  let password := strip (get form "password" EmptyString) in
  NoDup (List.map token (reset_tokens st)) ->
  List.find (live t) (reset_tokens st) = Some r ->
  (utcnow env <= expires_at r)%Z ->
  password <> EmptyString ->
  find_user (reset_email r) (users st) = Some u ->
  exists st' : Store,
    reset_password env "POST" t form st = (Redirect "login", st') /\
    find_user (reset_email r) (users st')
    = Some {| id := id u; email := email u;
              password_hash := generate_password_hash env password;
              name := name u |} /\
    List.map email (users st') = List.map email (users st) /\
    List.map token (reset_tokens st') = List.map token (reset_tokens st) /\
    user_email st' = user_email st /\
    (forall (env' : Env) (method' : string) (form' : gmap string string),
       reset_password env' method' t form' st'
       = (Redirect "login", flash "Invalid or expired reset link." st')) /\
    (forall (env' : Env) (form' : gmap string string),
       current_user st' = None ->
       lower env' (get form' "email" EmptyString) = reset_email r ->
       get form' "password" EmptyString = password ->
       check_password_hash env' (generate_password_hash env password) password
       = true ->
       login env' "POST" form' st'
       = (Redirect "dashboard", set_user_email (Some (email u)) st')).
Proof.
  intros password Hnd Hfind Hexp Hpw Hu. unfold reset_password.
  rewrite Hfind, (proj2 (Z.ltb_ge _ _)) by lia.
  cbn [is_post String.eqb Ascii.eqb Bool.eqb]. fold password.
  rewrite (proj2 (String.eqb_neq _ _) Hpw), Hu.
  eexists. split; [reflexivity |]. cbn [users reset_tokens user_email flash
    set_reset_tokens set_users].
  split; [now apply update_first_find |].
  split; [apply update_first_emails |].
  split; [apply update_first_tokens |]. split; [reflexivity |]. split.
  - intros env' method' form'. cbn [reset_tokens].
    now rewrite (used_first_dead _ _ Hnd).
  - intros env' form' Hcur Hlow Hpass Hcheck. unfold login. rewrite Hcur.
    cbn [is_post String.eqb Ascii.eqb Bool.eqb users flash set_reset_tokens
         set_users]. rewrite Hlow, Hpass.
    rewrite (update_first_find _ _ _ _ Hu). cbn [password_hash email].
    now rewrite Hcheck.
Qed.

Lemma reset_link_works_once_witness :
  exists st' : Store,
    reset_password Samples.plain "POST" "00ff" {[ "password" := " tea " ]}
      Samples.asked = (Redirect "login", st') /\
    reset_password Samples.plain "POST" "00ff" {[ "password" := "milk" ]} st'
    = (Redirect "login", flash "Invalid or expired reset link." st').
Proof.
  destruct (reset_link_works_once Samples.plain "00ff"
              {[ "password" := " tea " ]} Samples.asked
              {| reset_email := "bo@example.org"; token := "00ff";
                 expires_at := 4600; used := false |}
              {| id := 1; email := "bo@example.org";
                 password_hash := "plain$milk"; name := None |})
    as (st' & Hrun & _ & _ & _ & _ & Honce & _).
  - vm_compute. repeat constructor. set_solver.
  - reflexivity.
  - vm_compute. discriminate.
  - vm_compute. discriminate.
  - reflexivity.
  - exists st'. split; [exact Hrun | apply Honce].
Defined.
End PasswordReset.

Section DemoAccount.
Import Py Auth Seed Notions.

Lemma find_user_app (e : string) (us vs : list User) :
  find_user e (us ++ vs)
  = match find_user e us with
    | Some u => Some u
    | None => find_user e vs
    end.
Proof.
  unfold find_user. induction us as [| u r IH]; [reflexivity |]. simpl.
  destruct (String.eqb (email u) e); [reflexivity | exact IH].
Qed.

(** Property X22.  Seeding is idempotent.  A run that ends without an exception leaves a
    user with the email of the demo account, and a second run, with any
    hashing, changes nothing.  When the account was missing, the run appends
    exactly one user, with a new key, and the profile of that key, at level
    B1 with the streak 0. *)
Theorem run_seed_once (hash hash' : string -> string) (us : list User)
    (profiles : list Profile) (us' : list User) (profiles' : list Profile) :
  run_seed hash us profiles = Return (us', profiles') ->
  run_seed hash' us' profiles' = Return (us', profiles') /\
  (exists u, find_user "user@demo.com" us' = Some u) /\
  (find_user "user@demo.com" us <> None -> us' = us /\ profiles' = profiles) /\
  (find_user "user@demo.com" us = None ->
   exists u : User,
     us' = us ++ [u] /\ email u = "user@demo.com" /\
     name u = Some "Demo User" /\ password_hash u = hash "123456" /\
     (forall x, In x us -> (id x < id u)%Z) /\
     profiles'
     = profiles ++ [{| user_id := id u; cefr_level := Some "B1"; streak := 0 |}] /\
     forall p, In p profiles -> user_id p <> id u).
Proof.
  unfold run_seed. destruct (find_user "user@demo.com" us) as [u |] eqn:Hf.
  - intros [= <- <-]. rewrite Hf. split; [reflexivity |].
    split; [eauto |]. split; [auto | discriminate].
  - destruct (existsb _ profiles) eqn:Hex; [discriminate |].
    intros [= <- <-].
    assert (Hfound : find_user "user@demo.com"
                       (us ++ [{| id := next_id us; email := "user@demo.com";
                                  password_hash := hash "123456";
                                  name := Some "Demo User" |}])
                     = Some {| id := next_id us; email := "user@demo.com";
                               password_hash := hash "123456";
                               name := Some "Demo User" |}).
    { rewrite find_user_app, Hf. reflexivity. }
    rewrite Hfound. split; [reflexivity |]. split; [eauto |].
    split; [congruence |]. intros _. eexists. split; [reflexivity |].
    cbn. repeat (split; [reflexivity |]). split; [apply next_id_fresh |].
    split; [reflexivity |]. intros p Hp Heq. cbn [id] in Hex.
    assert (existsb (fun p => (user_id p =? next_id us)%Z) profiles = true).
    { apply existsb_exists. exists p. split; [exact Hp | now apply Z.eqb_eq]. }
    congruence.
Qed.

Lemma run_seed_once_witness :
  run_seed (fun p => "plain$" +:+ p) (users Samples.nobody) []
  = Return
      (users Samples.nobody ++
       [ {| id := 2; email := "user@demo.com";
            password_hash := "plain$123456"; name := Some "Demo User" |} ],
       [ {| user_id := 2; cefr_level := Some "B1"; streak := 0 |} ]) /\
  run_seed (fun p => p)
    (users Samples.nobody ++
     [ {| id := 2; email := "user@demo.com";
          password_hash := "plain$123456"; name := Some "Demo User" |} ])
    [ {| user_id := 2; cefr_level := Some "B1"; streak := 0 |} ]
  = Return
      (users Samples.nobody ++
       [ {| id := 2; email := "user@demo.com";
            password_hash := "plain$123456"; name := Some "Demo User" |} ],
       [ {| user_id := 2; cefr_level := Some "B1"; streak := 0 |} ]).
Proof.
  assert (H : run_seed (fun p => "plain$" +:+ p) (users Samples.nobody) []
              = Return
                  (users Samples.nobody ++
                   [ {| id := 2; email := "user@demo.com";
                        password_hash := "plain$123456";
                        name := Some "Demo User" |} ],
                   [ {| user_id := 2; cefr_level := Some "B1"; streak := 0 |} ]))
    by reflexivity.
  split; [exact H |].
  exact (proj1 (run_seed_once _ (fun p => p) _ _ _ _ H)).
Defined.
End DemoAccount.
